(* ===== verification/_CoqProject ===== *)
-Q . S2P
Prelude.v
Js.v
Uri.v
Base64.v
Json.v
Auth.v
Jwt.v
Session.v
Requests.v
Scenarios.v
Fetch.v
Orders.v
Table.v
Profile.v
Pages.v
Views.v
