(* ===== verification/Prelude.v ===== *)
(** * A verification development for the subdomain-ordering client

    The repository is a small React client (src/src/) for the Dovuchcha
    subdomain service.  Its parts and how they interact:

    - [contexts/AuthContext.jsx] ([AuthProvider]): the session manager.  It
      owns the authentication state (React state: [isAuthenticated],
      [username], [email], [id], [refreshToken], [accessToken], [isLoading]),
      reads the post-login redirect ([handleRedirect]) and [localStorage],
      asks the refresh endpoint for an access token ([fetchAccessToken],
      asynchronous), arms a 240000 ms renewal interval
      ([setupTokenRenewal]) and logs out ([handleLogout]).  Every other
      component reads this state through [AuthContext]; the Logout buttons
      of Home and Profile call [handleLogout], Home's Login button
      [handleLoginRedirect].
    - [pages/Home.jsx]: fetches the public list, shows a loading text, the
      error or [SubdomainTable] on the list, and a header that depends on
      the session.
    - [components/subdomain-table.jsx] ([SubdomainTable]): a search box
      (one state cell) filtering the list it is given, one row per
      subdomain with a status badge, or an empty state.
    - [components/Orders.jsx] ([OrderForm]), under [pages/OrderSubmit.jsx]:
      fetches the list (with a bug: two setters it calls are unbound),
      computes the duplicate check [doesExist], builds the order payload
      from the session's [id] and posts it.
    - [pages/Profile.jsx]: an effect that leaves for [/] when logged out and
      otherwise fetches the user's subdomains; the user panel; Logout.
    - [App.jsx], [main.jsx]: the route table with its guard on [/order],
      the provider nesting ([AuthProvider] renders its children only once
      [isLoading] is false) and StrictMode.

    Files of the development, in dependency order:

    - [Prelude] (this file): the state-and-exception monad [stexc] with its
      notation scope [js_scope] (JavaScript code that mutates state and may
      throw, [try]/[catch]/[finally] included), the combinators [preserves]
      that carry a state property through a handler (with the tactic
      [preserves_solve] and its hint database), and list lemmas on
      identifiers drawn from a counter.
    - [Js]: JavaScript strings and values as the code uses them
      ([toLowerCase], [split], [includes]; truthiness, [String(v)], property
      access on parsed JSON).
    - [Uri]: [encodeURIComponent] and [URLSearchParams] (from the
      standards), with the round trip the login redirect depends on.
    - [Base64]: [base64UrlDecode] of the [jwt-decode] library and [atob]
      (the forgiving-base64 decoder of the HTML standard), with the
      base64url encoder of a token's issuer and their round trip.
    - [Json]: [JSON.parse] on the texts a token's payload holds: a lexer
      (one step per character) and a parser for scalars and flat objects,
      with a printer of flat objects and the round trip.
    - [Auth]: the session manager.  [auth_state] is the record of the state
      cells, [browser] what the code touches of the browser ([localStorage]
      as a [gmap string string], the location, armed intervals, requests
      awaiting a response); each function of AuthContext.jsx is one
      definition of the same name in the monad; an [await] splits a
      function in two, and [dispatch] runs the events (the effect, a timer
      firing, a response, a click).  The JWT library is the class
      [JwtDecoder]: every theorem holds for any decoder.
    - [Jwt]: [jwtDecode] of the [jwt-decode] library (part #2 of the token
      through [Base64] and [Json], the signature never read) and what the
      provider reads of its result, as the instance [library_decoder] of
      [JwtDecoder], with a token made up in the browser.
    - [Session]: the reachable states ([reachable], by allowed events from
      a fresh page) and runs of events ([run]); the session invariant
      by rule induction; the refinement of the specification's three-state
      machine; the divergences from the specification.
    - [Requests]: the bookkeeping of intervals and requests: every pending
      request settles once answered, the last of two responses wins.
    - [Scenarios]: the three scenarios of the specification's section 8,
      and a logout that survives a reload.
    - [Fetch]: the list fetch shared by Home and Profile
      ([try]/[catch]/[finally]) and what the page shows.
    - [Orders]: [OrderForm]: its fetch, [doesExist], the submit guard,
      [handleSubmit] split at its [await], the error toast.
    - [Table]: [SubdomainTable]: the filter, the rows, the search state.
    - [Profile]: the Profile page as a component with its effect's
      dependencies.
    - [Pages]: Home's header and list area, the routes, and the theorems
      that join them to the session.
    - [Views]: what each page shows, as a list of elements in document
      order (texts, links, buttons with their handlers, inputs with their
      values, the lists): Home, the table, Profile, the order form and
      OrderSubmit.jsx, and [Screen.screen], what the router shows at an
      address; the theorems that every page shows the identity of the
      stored token, that every link leads to a page, and that an order
      form submits once until its response.  Its concrete runs use the
      library decoder on a token made up in the browser.

    Theorems (PROJECT.json numbers them C1-C36): functional behaviour of
    each handler on each branch, errors included; state invariants by rule
    induction on [reachable] (the session invariant, at most one interval);
    a refinement of the abstract session machine; liveness of pending
    requests; the order of two responses; a logout that survives a reload
    (C6); the round trip of the login
    redirect; the specification's scenarios; the pages' guards and what
    they show; and the divergences (renewal interval never cleared, no
    stale-response guard, a rejected token persisted, render before the
    access token, two intervals under StrictMode, the order form's unbound
    setters, the duplicate check bypassed by a dotted name, statuses styled
    differently by case, a listed domain reported free by the search, and
    an order filed under the [user_id] claim of the stored token); every
    page shows the identity of the stored token (C20); every link shown
    leads to a page of the application, never to a redirect (C24); the
    order form sends one request per submission until its response (C21)
    and shows the server's reason for a rejection (C26).  The library
    decoder reads back every token an issuer writes, whatever its
    signature ([Jwt.library_decode_encode], resting on the round trips of
    base64url and of flat JSON objects).

    Bounds and fuel: every function is structural ([run] recurses on the
    event list, the lexer on the text); the only fuel is
    that of the issuer's integer printer [Json.digits], given [log2 n + 1]
    digits for [n], which is enough since [n < 2 ^ (log2 n + 1) <= 10 ^
    (log2 n + 1)] ([Json.print_nat_fuel]).  Bytes are [ascii] characters
    with values in [0, 256).  Numbers of
    JavaScript ([user_id], HTTP status) are [Z]: the code only compares or
    prints them.  Interval handles and request ids are [nat] counters that
    only grow.

    Not modelled: styling and layout (class names, icons, containers:
    [Views] keeps the elements in document order only), the module
    imports of each file, console logging, timing
    (the 240000 ms period and the 100 ms redirect delay: a firing is an
    event), the network transport (responses are inputs of events), the
    REST API and the account service (external).  Of [JSON.parse], the
    parts no token of the account service uses: arrays, nested objects,
    numbers with a fraction or an exponent, and [\u] escapes of surrogate
    pairs ([Json.parse] rejects them, where [JSON.parse] accepts them).
    Of [jwt-decode], the check that the token is a string (the provider
    always passes one) and the [decodeURIComponent] step of
    [b64DecodeUnicode], which is the identity on strings kept as their
    UTF-8 bytes. *)

From stdpp Require Import base gmap strings list sets.

Declare Scope js_scope.
Delimit Scope js_scope with js.

(** ** A state and exception monad

    [stexc S E A] runs on a state [S]; it either returns a value of type [A]
    or throws an exception of type [E].  State changes made before a throw
    persist, as writes to React state and [localStorage] do in JavaScript. *)

Definition stexc (S E A : Type) : Type := S -> S * (E + A).

Definition st_ret {S E A} (a : A) : stexc S E A := fun s => (s, inr a).

Definition st_bind {S E A B} (m : stexc S E A) (k : A -> stexc S E B)
  : stexc S E B :=
  fun s => match m s with
           | (s', inl e) => (s', inl e)
           | (s', inr a) => k a s'
           end.

Definition st_throw {S E A} (e : E) : stexc S E A := fun s => (s, inl e).

Definition st_get {S E} : stexc S E S := fun s => (s, inr s).

Definition st_modify {S E} (f : S -> S) : stexc S E unit :=
  fun s => (f s, inr tt).

Definition st_catch {S E A} (m : stexc S E A) (h : E -> stexc S E A)
  : stexc S E A :=
  fun s => match m s with
           | (s', inl e) => h e s'
           | r => r
           end.

(** [try { m } finally { f }]: [f] runs after [m] whatever its outcome; an
    exception thrown by [f] replaces the outcome of [m]. *)
Definition st_finally {S E A} (m : stexc S E A) (f : stexc S E unit) : stexc S E A :=
  fun s => match m s with
           | (s1, r) =>
               match f s1 with
               | (s2, inl e) => (s2, inl e)
               | (s2, inr _) => (s2, r)
               end
           end.

Notation "x <- m ;; k" := (st_bind m (fun x => k))
  (at level 100, m at next level, right associativity) : js_scope.
Notation "m ;; k" := (st_bind m (fun _ => k))
  (at level 100, right associativity) : js_scope.

(** The final state and the outcome of a run. *)
Definition st_state {S E A} (m : stexc S E A) (s : S) : S := fst (m s).
Definition st_outcome {S E A} (m : stexc S E A) (s : S) : E + A := snd (m s).

Create HintDb js.
Create Rewrite HintDb js_rw.

Lemma st_bind_ret_l {S E A B} (a : A) (k : A -> stexc S E B) (s : S) :
  st_bind (st_ret a) k s = k a s.
Proof. reflexivity. Qed.

Lemma st_bind_assoc {S E A B C} (m : stexc S E A) (k : A -> stexc S E B)
      (k' : B -> stexc S E C) (s : S) :
  st_bind (st_bind m k) k' s = st_bind m (fun a => st_bind (k a) k') s.
Proof. unfold st_bind. by destruct (m s) as [s' [e|a]]. Qed.

Lemma st_bind_throw {S E A B} (e : E) (k : A -> stexc S E B) (s : S) :
  st_bind (st_throw e) k s = (s, inl e).
Proof. reflexivity. Qed.

Lemma st_bind_modify {S E B} (f : S -> S) (k : unit -> stexc S E B) (s : S) :
  st_bind (st_modify f) k s = k tt (f s).
Proof. reflexivity. Qed.

Lemma st_bind_get {S E B} (k : S -> stexc S E B) (s : S) :
  st_bind st_get k s = k s s.
Proof. reflexivity. Qed.

#[export] Hint Rewrite @st_bind_ret_l @st_bind_assoc @st_bind_throw
  @st_bind_modify @st_bind_get : js_rw.

(** ** Invariants of computations

    [preserves P m]: run from a state satisfying [P], [m] ends in a state
    satisfying [P], whether it returns or throws.  The lemmas below build
    such facts along the structure of a handler. *)

Definition preserves {S E A} (P : S -> Prop) (m : stexc S E A) : Prop :=
  forall s, P s -> P (fst (m s)).

Create HintDb preserves.

Section Preserves.
Context {S E : Type} (P : S -> Prop).

Lemma preserves_ret {A} (a : A) : preserves P (@st_ret S E A a).
Proof. by intros s. Qed.

Lemma preserves_throw {A} (e : E) : preserves P (@st_throw S E A e).
Proof. by intros s. Qed.

Lemma preserves_get : preserves P (@st_get S E).
Proof. by intros s. Qed.

Lemma preserves_modify (f : S -> S) :
  (forall s, P s -> P (f s)) -> preserves P (@st_modify S E f).
Proof. intros Hf s. apply Hf. Qed.

Lemma preserves_bind {A B} (m : stexc S E A) (k : A -> stexc S E B) :
  preserves P m -> (forall a, preserves P (k a)) -> preserves P (st_bind m k).
Proof.
  intros Hm Hk s Hs. unfold st_bind.
  specialize (Hm s Hs). destruct (m s) as [s' [e|a]]; [done|]. by apply Hk.
Qed.

(** A continuation that reads the state may use what it reads. *)
Lemma preserves_bind_get {B} (k : S -> stexc S E B) :
  (forall s, P s -> P (fst (k s s))) -> preserves P (st_bind st_get k).
Proof. intros Hk s Hs. by apply Hk. Qed.

Lemma preserves_catch {A} (m : stexc S E A) (h : E -> stexc S E A) :
  preserves P m -> (forall e, preserves P (h e)) -> preserves P (st_catch m h).
Proof.
  intros Hm Hh s Hs. unfold st_catch.
  specialize (Hm s Hs). destruct (m s) as [s' [e|a]]; [by apply Hh|done].
Qed.

Lemma preserves_finally {A} (m : stexc S E A) (f : stexc S E unit) :
  preserves P m -> preserves P f -> preserves P (st_finally m f).
Proof.
  intros Hm Hf s Hs. unfold st_finally.
  specialize (Hm s Hs). destruct (m s) as [s1 r].
  specialize (Hf s1 Hm). by destruct (f s1) as [s2 [e|u]].
Qed.

Lemma preserves_state {A} (m : stexc S E A) (s : S) :
  preserves P m -> P s -> P (st_state m s).
Proof. intros Hm. apply Hm. Qed.

End Preserves.

#[export] Hint Resolve preserves_ret preserves_throw preserves_get : preserves.

(** The head constant of an application. *)
Ltac head_of t := lazymatch t with ?f _ => head_of f | _ => t end.

(** Prove [preserves P m] along the structure of [m]: split binds, catch
    and finally, decide matches, use the lemmas of the database, and
    unfold a handler the database knows nothing about. *)
Ltac preserves_solve :=
  repeat match goal with
  | |- forall _, _ => intros
  | |- preserves _ (st_bind _ _) => apply preserves_bind
  | |- preserves _ (st_catch _ _) => apply preserves_catch
  | |- preserves _ (st_finally _ _) => apply preserves_finally
  | |- preserves _ (match ?x with _ => _ end) => destruct x
  | |- preserves _ _ => solve [eauto with preserves]
  | |- preserves _ (let _ := _ in _) => cbv zeta
  | |- preserves _ ?m => let h := head_of m in progress unfold h
  end.

(** ** Generic lemmas shared by the components *)

#[export] Hint Rewrite @delete_delete_eq : js_rw.

(** stdpp makes [String.append] opaque to [simpl]; these are its two
    computation rules. *)
Lemma string_app_nil_l (t : string) : String.append EmptyString t = t.
Proof. reflexivity. Qed.

Lemma string_app_cons c (s t : string) :
  String.append (String c s) t = String c (String.append s t).
Proof. reflexivity. Qed.

Lemma string_app_assoc (s t u : string) :
  String.append s (String.append t u) = String.append (String.append s t) u.
Proof. induction s; [reflexivity|]. rewrite !string_app_cons. congruence. Qed.

Lemma string_app_nil_r (s : string) : String.append s EmptyString = s.
Proof. induction s; [reflexivity|]. rewrite string_app_cons. congruence. Qed.

#[export] Hint Rewrite string_app_nil_l string_app_cons string_app_nil_r : js_rw.

Lemma find_app_singleton {A} (f : A -> bool) (l : list A) (x : A) :
  f x = true -> is_Some (List.find f (l ++ [x])).
Proof.
  intros Hx. induction l as [|y l IH]; simpl; [rewrite Hx; eauto|].
  destruct (f y); eauto.
Qed.

(** Identifiers drawn from a counter: appending the counter's value keeps
    them distinct and below the incremented counter, and dropping entries
    keeps them distinct and below the counter. *)
Lemma fresh_snoc {A} (f : A -> nat) (l : list A) (x : A) (n : nat) :
  NoDup (f <$> l) -> Forall (fun y => f y < n) l -> f x = n ->
  NoDup (f <$> l ++ [x]) /\ Forall (fun y => f y < S n) (l ++ [x]).
Proof.
  intros Hnd Hlt Hx. rewrite fmap_app, NoDup_app, Forall_app. split_and!.
  - done.
  - intros y Hy. rewrite list_elem_of_fmap in Hy. destruct Hy as (z & -> & Hz).
    rewrite Forall_forall in Hlt. specialize (Hlt z Hz). simpl.
    rewrite list_elem_of_singleton. lia.
  - simpl. constructor; [set_solver|constructor].
  - eapply Forall_impl; [done|]. simpl. lia.
  - constructor; [lia|done].
Qed.

Lemma fresh_filter {A} (f : A -> nat) (P : A -> Prop) `{forall x, Decision (P x)}
    (l : list A) (n : nat) :
  NoDup (f <$> l) -> Forall (fun y => f y < n) l ->
  NoDup (f <$> filter P l) /\ Forall (fun y => f y < n) (filter P l).
Proof.
  induction l as [|y l IH]; [done|]. rewrite fmap_cons, NoDup_cons, Forall_cons.
  intros [Hy Hnd] [Hlt Hall]. destruct (IH Hnd Hall) as [IH1 IH2].
  rewrite filter_cons. case_decide; [|done].
  rewrite fmap_cons, NoDup_cons, Forall_cons. split_and!; try done.
  intros Hin. apply Hy. rewrite list_elem_of_fmap in Hin |- *.
  destruct Hin as (z & ? & Hz). exists z. split; [done|].
  by apply list_elem_of_filter in Hz as [_ Hz].
Qed.

Lemma filter_all {A} (P : A -> Prop) `{forall x, Decision (P x)} (l : list A) :
  Forall P l -> filter P l = l.
Proof. induction 1; [done|]. rewrite filter_cons_True by done. congruence. Qed.

Lemma filter_none {A} (P : A -> Prop) `{forall x, Decision (P x)} (l : list A) :
  Forall (fun x => ~ P x) l -> filter P l = [].
Proof. induction 1; [done|]. by rewrite filter_cons_False. Qed.

(** Filtering keeps the first element [find] finds, if it keeps it at all. *)
Lemma find_filter {A} (f : A -> bool) (P : A -> Prop) `{forall x, Decision (P x)}
    (l : list A) (x : A) :
  List.find f l = Some x -> P x -> List.find f (filter P l) = Some x.
Proof.
  induction l as [|y l IH]; [done|]. simpl. destruct (f y) eqn:Hy.
  - intros [= ->] Hx. rewrite filter_cons_True by done. simpl. by rewrite Hy.
  - intros Hf Hx. rewrite filter_cons. case_decide; simpl; [rewrite Hy|]; auto.
Qed.

(** When [find] finds no element with key [k], no element is dropped by
    filtering out the key [k]. *)
Lemma filter_find_none {A} (g : A -> nat) (k : nat) (l : list A) :
  List.find (fun y => Nat.eqb (g y) k) l = None -> filter (fun y => g y <> k) l = l.
Proof.
  induction l as [|y l IH]; [done|]. simpl. intros Hf.
  destruct (Nat.eqb_spec (g y) k); [done|].
  rewrite filter_cons_True by done. by rewrite IH.
Qed.

(** ** Tactics *)

(** Unfold the monad and run the computation as far as it goes. *)
Ltac js_unfold :=
  unfold st_state, st_outcome, st_bind, st_ret, st_throw, st_get, st_modify,
    st_catch, st_finally in *;
  repeat progress (autorewrite with js_rw in *; simpl in *).

(** Compute string concatenations, which [simpl] leaves folded. *)
Ltac str_simpl :=
  repeat progress (rewrite ?string_app_nil_l, ?string_app_cons in *; simpl in *).

(** Arithmetic with division and remainder by constants. *)
Ltac zdiv := Z.div_mod_to_equations; lia.

(** Close the goals left by a case analysis on the branches of a handler. *)
Ltac js_crush :=
  repeat match goal with
         | H : _ /\ _ |- _ => destruct H
         | H : exists _, _ |- _ => destruct H
         | |- _ /\ _ => split
         end;
  simplify_eq; simpl in *; try done; try lia.
