(* ===== verification/Js.v ===== *)
(** * JavaScript strings and values, as the client uses them

    Module [JsString] models the string methods the components call
    ([toLowerCase], [split], [includes]) on ASCII strings; Module [JsValue]
    models the values that flow through React state and JSON (a JWT payload,
    an HTTP body): truthiness as in [if (token)], the conversion [String(v)]
    that [localStorage.setItem] applies, and property access on parsed
    objects, where a missing property reads as [undefined]. *)

From Stdlib Require Import Ascii.
From stdpp Require Import base gmap strings list pretty sets.
From S2P Require Import Prelude.

Open Scope string_scope.

Module JsString.

(** [String.prototype.toLowerCase] on one character: the ASCII capitals
    'A'..'Z' (65..90) move up by 32; every other character is unchanged. *)
Definition is_upper (c : Ascii.ascii) : bool :=
  let n := Ascii.N_of_ascii c in (65 <=? n)%N && (n <=? 90)%N.

Definition char_toLowerCase (c : Ascii.ascii) : Ascii.ascii :=
  if is_upper c then Ascii.ascii_of_N (Ascii.N_of_ascii c + 32) else c.

Fixpoint toLowerCase (s : string) : string :=
  match s with
  | EmptyString => EmptyString
  | String c s' => String (char_toLowerCase c) (toLowerCase s')
  end.

(** [s.split(sep)] for a one-character separator: the pieces between the
    occurrences of [sep]; the result is never empty ("".split('.') is
    [[""]]). *)
Fixpoint split (sep : Ascii.ascii) (s : string) : list string :=
  match s with
  | EmptyString => [EmptyString]
  | String c s' =>
      if Ascii.eqb c sep then EmptyString :: split sep s'
      else match split sep s' with
           | x :: xs => String c x :: xs
           | [] => [String c EmptyString]
           end
  end.

(** [arr[0]] on the result of [split]. *)
Definition split_at0 (sep : Ascii.ascii) (s : string) : string :=
  match split sep s with
  | x :: _ => x
  | [] => EmptyString
  end.

(** [s.includes(t)]: [t] occurs in [s] at some position. *)
Fixpoint includes (s t : string) : bool :=
  String.prefix t s ||
  match s with
  | EmptyString => false
  | String _ s' => includes s' t
  end.

(** *** Lemmas *)

Lemma char_toLowerCase_idem c :
  char_toLowerCase (char_toLowerCase c) = char_toLowerCase c.
Proof.
  unfold char_toLowerCase, is_upper.
  destruct ((65 <=? Ascii.N_of_ascii c)%N && (Ascii.N_of_ascii c <=? 90)%N)
    eqn:Hu; [|by rewrite Hu].
  apply andb_true_iff in Hu as [H1 H2].
  apply N.leb_le in H1, H2.
  rewrite Ascii.N_ascii_embedding by lia.
  replace ((Ascii.N_of_ascii c + 32 <=? 90)%N) with false
    by (symmetry; apply N.leb_gt; lia).
  by rewrite andb_false_r.
Qed.

Lemma toLowerCase_idem s : toLowerCase (toLowerCase s) = toLowerCase s.
Proof. induction s; simpl; [done|]. by rewrite char_toLowerCase_idem, IHs. Qed.

Lemma toLowerCase_app s t :
  toLowerCase (s ++ t) = toLowerCase s ++ toLowerCase t.
Proof. induction s; str_simpl; congruence. Qed.

Lemma toLowerCase_length s : String.length (toLowerCase s) = String.length s.
Proof. induction s; simpl; congruence. Qed.

#[export] Hint Rewrite toLowerCase_idem toLowerCase_app : js_rw.

Lemma prefix_spec t s : String.prefix t s = true <-> exists b, s = t ++ b.
Proof.
  revert s. induction t as [|c t IH]; intros [|d s]; simpl.
  - split; eauto.
  - split; eauto.
  - split; [done|]. by intros [b ?].
  - destruct (Ascii.ascii_dec c d) as [->|Hne].
    + rewrite IH. split; intros [b Hb]; exists b; str_simpl; congruence.
    + split; [done|]. intros [b Hb]. str_simpl. congruence.
Qed.

Lemma includes_spec s t :
  includes s t = true <-> exists a b, s = a ++ t ++ b.
Proof.
  induction s as [|c s IH].
  - change (includes "" t) with (String.prefix t "" || false).
    rewrite orb_false_r, prefix_spec. split.
    + intros [b Hb]. by exists "", b.
    + intros [[|d a] [b Hab]]; str_simpl; [by exists b|done].
  - change (includes (String c s) t) with (String.prefix t (String c s) || includes s t).
    rewrite orb_true_iff, prefix_spec, IH. split.
    + intros [[b Hb]|[a [b Hab]]].
      * by exists "", b.
      * exists (String c a), b. str_simpl. by rewrite Hab.
    + intros [[|d a] [b Hab]]; str_simpl.
      * left. by exists b.
      * right. exists a, b. congruence.
Qed.

Lemma includes_trans s t u :
  includes s t = true -> includes t u = true -> includes s u = true.
Proof.
  rewrite !includes_spec. intros [a [b ->]] [a' [b' ->]].
  exists (a ++ a'), (b' ++ b). by rewrite !string_app_assoc.
Qed.

Lemma includes_suffix s t : includes (s ++ t) t = true.
Proof. apply includes_spec. exists s, "". by rewrite string_app_nil_r. Qed.

Lemma includes_empty s : includes s "" = true.
Proof. apply includes_spec. by exists "", s. Qed.

Lemma includes_lower s t :
  includes s t = true -> includes (toLowerCase s) (toLowerCase t) = true.
Proof.
  rewrite !includes_spec. intros [a [b ->]].
  exists (toLowerCase a), (toLowerCase b). by rewrite !toLowerCase_app.
Qed.

Lemma split_nonempty sep s : split sep s <> [].
Proof.
  destruct s as [|c s]; simpl; [done|].
  destruct (Ascii.eqb c sep); [done|]. by destruct (split sep s).
Qed.

(** [split_at0 sep s] is the longest prefix of [s] without [sep]. *)
Lemma split_at0_cons sep c s :
  split_at0 sep (String c s) =
  if Ascii.eqb c sep then EmptyString else String c (split_at0 sep s).
Proof.
  unfold split_at0. simpl. destruct (Ascii.eqb c sep); [done|].
  pose proof (split_nonempty sep s). by destruct (split sep s).
Qed.

(** [s] contains none of the characters [cs]. *)
Fixpoint avoids (cs : list Ascii.ascii) (s : string) : bool :=
  match s with
  | EmptyString => true
  | String c s' => bool_decide (c ∉ cs) && avoids cs s'
  end.

Lemma avoids_app cs s t : avoids cs (s ++ t) = avoids cs s && avoids cs t.
Proof. induction s; str_simpl; [done|]. by rewrite IHs, andb_assoc. Qed.

#[export] Hint Rewrite avoids_app : js_rw.

Lemma avoids_cons cs c s :
  avoids cs (String c s) = true <-> (c ∉ cs) /\ avoids cs s = true.
Proof. simpl. by rewrite andb_true_iff, bool_decide_eq_true. Qed.

Lemma avoids_sub cs cs' s :
  (forall c, c ∈ cs' -> c ∈ cs) -> avoids cs s = true -> avoids cs' s = true.
Proof.
  intros Hsub. induction s as [|c s IH]; [done|].
  rewrite !avoids_cons. intros [Hc Hs]. split; [|by apply IH].
  intros Hin. by apply Hc, Hsub.
Qed.

Lemma char_toLowerCase_dot c :
  char_toLowerCase c = "."%char <-> c = "."%char.
Proof.
  unfold char_toLowerCase. split; [|by intros ->].
  destruct (is_upper c) eqn:Hu; [|done].
  unfold is_upper in Hu. apply andb_true_iff in Hu as [H1 H2].
  apply N.leb_le in H1, H2. intros Hc.
  apply (f_equal Ascii.N_of_ascii) in Hc.
  rewrite Ascii.N_ascii_embedding in Hc by lia. simpl in Hc. lia.
Qed.

Lemma avoids_dot_toLowerCase s :
  avoids ["."%char] (toLowerCase s) = avoids ["."%char] s.
Proof.
  induction s as [|c s IH]; [done|]. simpl. rewrite IH. f_equal.
  apply bool_decide_ext. rewrite !not_elem_of_cons, char_toLowerCase_dot.
  pose proof (not_elem_of_nil c). pose proof (not_elem_of_nil (char_toLowerCase c)).
  naive_solver.
Qed.

Lemma split_avoids sep s : avoids [sep] s = true -> split sep s = [s].
Proof.
  induction s as [|c s IH]; simpl; [done|].
  rewrite andb_true_iff, bool_decide_eq_true, not_elem_of_cons.
  intros [[Hc _] Hs]. rewrite IH by done.
  destruct (Ascii.eqb_spec c sep); congruence.
Qed.

(** A piece without the separator, then the separator: the first piece. *)
Lemma split_app_sep sep s t :
  avoids [sep] s = true -> split sep (s ++ String sep t) = s :: split sep t.
Proof.
  induction s as [|c s IH]; simpl.
  - intros _. str_simpl. by rewrite Ascii.eqb_refl.
  - rewrite andb_true_iff, bool_decide_eq_true, not_elem_of_cons.
    intros [[Hc _] Hs]. str_simpl. rewrite IH by done.
    destruct (Ascii.eqb_spec c sep); congruence.
Qed.

Lemma split_at0_avoids sep s : avoids [sep] (split_at0 sep s) = true.
Proof.
  induction s as [|c s IH]; [done|]. rewrite split_at0_cons.
  destruct (Ascii.eqb_spec c sep) as [->|Hne]; [done|].
  apply avoids_cons. split; [set_solver|done].
Qed.

End JsString.

Module JsValue.

(** The JavaScript values that reach the model.  Numbers are integers
    ([user_id], HTTP status codes); objects are parsed JSON objects. *)
Inductive jsval :=
| JUndefined
| JNull
| JBool (b : bool)
| JNum (n : Z)
| JStr (s : string).

#[export] Instance jsval_eq_dec : EqDecision jsval.
Proof. solve_decision. Defined.

(** [if (v)]: [undefined], [null], [false], [0] and [""] are falsy. *)
Definition truthy (v : jsval) : bool :=
  match v with
  | JUndefined | JNull => false
  | JBool b => b
  | JNum n => negb (Z.eqb n 0)
  | JStr s => negb (String.eqb s "")
  end.

(** [String(v)], the conversion [localStorage.setItem] applies. *)
Definition to_string (v : jsval) : string :=
  match v with
  | JUndefined => "undefined"
  | JNull => "null"
  | JBool true => "true"
  | JBool false => "false"
  | JNum n => pretty n
  | JStr s => s
  end.

(** A string as a possibly-null JavaScript value: what
    [localStorage.getItem] and [URLSearchParams.get] return. *)
Definition of_option (o : option string) : jsval :=
  match o with
  | Some s => JStr s
  | None => JNull
  end.

(** A parsed JSON object; [obj.key] reads [undefined] when absent. *)
Definition object := gmap string jsval.

Definition prop (o : object) (k : string) : jsval :=
  default JUndefined (o !! k).

Lemma truthy_str s : truthy (JStr s) = true <-> s <> "".
Proof.
  simpl. rewrite negb_true_iff.
  destruct (String.eqb_spec s ""); split; congruence.
Qed.

Lemma truthy_of_option o :
  truthy (of_option o) = true <-> exists s, o = Some s /\ s <> "".
Proof.
  destruct o as [s|].
  - change (of_option (Some s)) with (JStr s). rewrite truthy_str. naive_solver.
  - simpl. naive_solver.
Qed.

End JsValue.
