(* ===== verification/Uri.v ===== *)
(** * URL encoding and query parsing used by the login redirect

    [AuthContext.jsx] builds the login address with [encodeURIComponent]
    ([handleLoginRedirect]) and reads the returned token with
    [new URLSearchParams(window.location.search).get('refresh_token')]
    ([handleRedirect]).  Both are browser APIs, modelled here from their
    standards (ECMAScript [encodeURIComponent]; WHATWG URL,
    application/x-www-form-urlencoded parsing) on ASCII strings: the
    percent-decoded bytes are read back as characters, which is the UTF-8
    decoding on ASCII.  The round trip [get_encoded_param] says that the
    account service, parsing the query the client builds, recovers exactly
    the return address. *)

From Stdlib Require Import Ascii.
From stdpp Require Import base strings list sets.
From S2P Require Import Prelude Js.

Open Scope string_scope.

Module Uri.

(** An ASCII string: every code unit below 128. *)
Definition is_ascii (s : string) : bool :=
  forallb (fun c => (Ascii.N_of_ascii c <? 128)%N) (String.list_ascii_of_string s).

(** The characters [encodeURIComponent] leaves unescaped:
    A-Z a-z 0-9 - _ . ! ~ * ' ( ). *)
Definition is_unreserved (c : Ascii.ascii) : bool :=
  let n := Ascii.N_of_ascii c in
  ((65 <=? n) && (n <=? 90))%N || ((97 <=? n) && (n <=? 122))%N ||
  ((48 <=? n) && (n <=? 57))%N ||
  bool_decide (c ∈ ["-"; "_"; "."; "!"; "~"; "*"; "'"; "("; ")"]%char).

(** Upper-case hexadecimal digit of a value below 16. *)
Definition hex_digit (n : N) : Ascii.ascii :=
  if (n <? 10)%N then Ascii.ascii_of_N (48 + n) else Ascii.ascii_of_N (55 + n).

(** The value of a hexadecimal digit of either case. *)
Definition hex_value (c : Ascii.ascii) : option N :=
  let n := Ascii.N_of_ascii c in
  if ((48 <=? n) && (n <=? 57))%N then Some (n - 48)%N
  else if ((65 <=? n) && (n <=? 70))%N then Some (n - 55)%N
  else if ((97 <=? n) && (n <=? 102))%N then Some (n - 87)%N
  else None.

Definition percent_encode (c : Ascii.ascii) : string :=
  let n := Ascii.N_of_ascii c in
  String "%"%char (String (hex_digit (n / 16)) (String (hex_digit (n mod 16)) "")).

Fixpoint encodeURIComponent (s : string) : string :=
  match s with
  | EmptyString => EmptyString
  | String c s' =>
      (if is_unreserved c then String c EmptyString else percent_encode c)
        ++ encodeURIComponent s'
  end.

(** Percent-decoding: [%XY] with two hexadecimal digits becomes the byte
    [XY]; any other [%] is kept as it is. *)
Fixpoint percent_decode (s : string) : string :=
  match s with
  | EmptyString => EmptyString
  | String c s' =>
      if Ascii.eqb c "%"%char then
        match s' with
        | String h (String l rest) =>
            match hex_value h, hex_value l with
            | Some vh, Some vl =>
                String (Ascii.ascii_of_N (16 * vh + vl)) (percent_decode rest)
            | _, _ => String c (percent_decode s')
            end
        | _ => String c (percent_decode s')
        end
      else String c (percent_decode s')
  end.

(** [+] reads as a space in a form-encoded name or value. *)
Fixpoint plus_to_space (s : string) : string :=
  match s with
  | EmptyString => EmptyString
  | String c s' => String (if Ascii.eqb c "+"%char then " "%char else c) (plus_to_space s')
  end.

Definition form_decode (s : string) : string := percent_decode (plus_to_space s).

(** Split a sequence at the first [=]: the name and the value (empty when
    there is no [=]). *)
Fixpoint split_name_value (s : string) : string * string :=
  match s with
  | EmptyString => (EmptyString, EmptyString)
  | String c s' =>
      if Ascii.eqb c "="%char then (EmptyString, s')
      else let '(n, v) := split_name_value s' in (String c n, v)
  end.

(** The application/x-www-form-urlencoded parser: the sequences between
    [&], empty ones skipped, each decoded into a name-value pair. *)
Definition form_parse (s : string) : list (string * string) :=
  map (fun seq => let '(n, v) := split_name_value seq in (form_decode n, form_decode v))
    (filter (fun seq => seq <> EmptyString) (JsString.split "&"%char s)).

(** [new URLSearchParams(init)]: a leading [?] is dropped. *)
Definition URLSearchParams (init : string) : list (string * string) :=
  match init with
  | String c rest => if Ascii.eqb c "?"%char then form_parse rest else form_parse init
  | EmptyString => []
  end.

(** The [search] of an absolute URL: from its first [?] up to its [#]. *)
Fixpoint url_search (u : string) : string :=
  match u with
  | EmptyString => EmptyString
  | String c u' =>
      if Ascii.eqb c "?"%char then String "?"%char (JsString.split_at0 "#"%char u')
      else url_search u'
  end.

(** [params.get(name)]: the value of the first pair with that name. *)
Fixpoint get (params : list (string * string)) (name : string) : option string :=
  match params with
  | [] => None
  | (n, v) :: rest => if String.eqb n name then Some v else get rest name
  end.

(** *** Lemmas *)

Lemma lt16_cases (d : N) : (d < 16)%N ->
  d = 0%N \/ d = 1%N \/ d = 2%N \/ d = 3%N \/ d = 4%N \/ d = 5%N \/ d = 6%N \/
  d = 7%N \/ d = 8%N \/ d = 9%N \/ d = 10%N \/ d = 11%N \/ d = 12%N \/
  d = 13%N \/ d = 14%N \/ d = 15%N.
Proof. lia. Qed.

Lemma hex_value_digit d : (d < 16)%N -> hex_value (hex_digit d) = Some d.
Proof.
  intros Hd. pose proof (lt16_cases d Hd) as Hc.
  repeat match goal with H : _ \/ _ |- _ => destruct H as [->|H] end; subst; done.
Qed.

Lemma hex_digit_reserved d :
  (d < 16)%N -> hex_digit d ∉ ["&"; "="; "+"; "%"; "#"]%char.
Proof.
  intros Hd. pose proof (lt16_cases d Hd) as Hc.
  repeat match goal with H : _ \/ _ |- _ => destruct H as [->|H] end; subst;
    vm_compute; intros Hin; repeat (apply elem_of_cons in Hin as [Hin|Hin]);
    try discriminate; by apply elem_of_nil in Hin.
Qed.

Lemma unreserved_not_reserved c :
  is_unreserved c = true -> c ∉ ["&"; "="; "+"; "%"; "#"]%char.
Proof.
  intros Hu Hin. repeat (apply elem_of_cons in Hin as [->|Hin]);
    [done..|by apply elem_of_nil in Hin].
Qed.

Lemma ascii_div_mod16 (c : Ascii.ascii) :
  Ascii.ascii_of_N (16 * (Ascii.N_of_ascii c / 16) + Ascii.N_of_ascii c mod 16) = c.
Proof.
  rewrite <- N.div_mod by lia. apply Ascii.ascii_N_embedding.
Qed.

Lemma ascii_lt256 (c : Ascii.ascii) : (Ascii.N_of_ascii c < 256)%N.
Proof.
  rewrite <- (Ascii.ascii_N_embedding c) at 1.
  destruct c as [[] [] [] [] [] [] [] []]; vm_compute; done.
Qed.

(** The encoding of a string avoids the characters that structure a query
    and a URL: [&], [=], [+] and [#]. *)
Lemma encode_avoids s : JsString.avoids ["&"; "="; "+"; "#"]%char (encodeURIComponent s) = true.
Proof.
  induction s as [|c s IH]; simpl; [done|].
  rewrite JsString.avoids_app, IH, andb_true_r. destruct (is_unreserved c) eqn:Hu; simpl.
  - rewrite andb_true_r. apply bool_decide_eq_true.
    intros Hin. apply (unreserved_not_reserved c Hu). set_solver.
  - pose proof (ascii_lt256 c).
    pose proof (hex_digit_reserved (Ascii.N_of_ascii c / 16)) as H1.
    pose proof (hex_digit_reserved (Ascii.N_of_ascii c mod 16)) as H2.
    rewrite !andb_true_iff, !bool_decide_eq_true.
    repeat split.
    + intros Hin. apply H1; [apply N.Div0.div_lt_upper_bound; lia|set_solver].
    + intros Hin. apply H2; [apply N.mod_lt; lia|set_solver].
Qed.

Lemma plus_to_space_avoids s :
  JsString.avoids ["+"%char] s = true -> plus_to_space s = s.
Proof.
  induction s as [|c s IH]; [done|]. rewrite JsString.avoids_cons.
  intros [Hc Hs]. simpl. rewrite IH by done.
  destruct (Ascii.eqb_spec c "+"%char); [set_solver|done].
Qed.

Lemma percent_decode_avoids s :
  JsString.avoids ["%"%char] s = true -> percent_decode s = s.
Proof.
  induction s as [|c s IH]; [done|]. rewrite JsString.avoids_cons.
  intros [Hc Hs]. simpl. rewrite IH by done.
  destruct (Ascii.eqb_spec c "%"%char); [set_solver|done].
Qed.

Lemma percent_decode_encode s : percent_decode (encodeURIComponent s) = s.
Proof.
  induction s as [|c s IH]; [done|]. simpl.
  destruct (is_unreserved c) eqn:Hu.
  - rewrite string_app_cons, string_app_nil_l. simpl.
    destruct (Ascii.eqb_spec c "%"%char) as [->|]; [done|]. by rewrite IH.
  - unfold percent_encode. rewrite !string_app_cons, string_app_nil_l. simpl.
    pose proof (ascii_lt256 c).
    rewrite !hex_value_digit by (apply N.Div0.div_lt_upper_bound || apply N.mod_lt; lia).
    by rewrite ascii_div_mod16, IH.
Qed.

(** Round trip: decoding an encoded component gives the component back. *)
Lemma form_decode_encode s : form_decode (encodeURIComponent s) = s.
Proof.
  unfold form_decode. rewrite plus_to_space_avoids; [apply percent_decode_encode|].
  eapply JsString.avoids_sub, encode_avoids. set_solver.
Qed.

Lemma split_name_value_app k t :
  JsString.avoids ["="%char] k = true ->
  split_name_value (k ++ String "="%char t) = (k, t).
Proof.
  induction k as [|c k IH]; [done|]. rewrite JsString.avoids_cons.
  intros [Hc Hk]. rewrite string_app_cons. simpl. rewrite IH by done.
  destruct (Ascii.eqb_spec c "="%char); [set_solver|done].
Qed.

(** A query ["?k=" ++ encodeURIComponent v], parsed back, gives [v] for
    [k], for every key without the query's structuring characters. *)
Lemma get_encoded_param k v :
  JsString.avoids ["&"; "="; "+"; "%"]%char k = true ->
  get (URLSearchParams (String "?"%char (k ++ String "="%char (encodeURIComponent v)))) k
  = Some v.
Proof.
  intros Hk. simpl. unfold form_parse.
  rewrite JsString.split_avoids.
  2:{ rewrite JsString.avoids_app. apply andb_true_iff. split.
      - eapply JsString.avoids_sub; [|exact Hk]. set_solver.
      - apply JsString.avoids_cons. split; [set_solver|].
        eapply JsString.avoids_sub, encode_avoids. set_solver. }
  rewrite filter_cons_True by (by destruct k).
  simpl. rewrite split_name_value_app by (eapply JsString.avoids_sub; [|exact Hk]; set_solver).
  simpl. rewrite form_decode_encode.
  unfold form_decode. rewrite plus_to_space_avoids, percent_decode_avoids
    by (eapply JsString.avoids_sub; [|exact Hk]; set_solver).
  by rewrite String.eqb_refl.
Qed.

Lemma url_search_app u v :
  JsString.avoids ["?"%char] u = true -> url_search (u ++ v) = url_search v.
Proof.
  induction u as [|c u IH]; [done|]. rewrite JsString.avoids_cons.
  intros [Hc Hu]. rewrite string_app_cons. simpl. rewrite IH by done.
  destruct (Ascii.eqb_spec c "?"%char); [set_solver|done].
Qed.

(** The query the client appends, ["?k=" ++ encodeURIComponent v], is the
    whole [search] of the URL, and [get] recovers [v] from it. *)
Lemma url_search_encoded_param base k v :
  JsString.avoids ["?"%char] base = true ->
  JsString.avoids ["&"; "="; "+"; "%"; "#"]%char k = true ->
  get (URLSearchParams (url_search (base ++ String "?"%char (k ++ String "="%char
         (encodeURIComponent v))))) k = Some v.
Proof.
  intros Hb Hk. rewrite url_search_app by done. simpl.
  unfold JsString.split_at0. rewrite JsString.split_avoids.
  - rewrite <- (get_encoded_param k v) by (eapply JsString.avoids_sub; [|exact Hk]; set_solver).
    done.
  - rewrite JsString.avoids_app. apply andb_true_iff. split.
    + eapply JsString.avoids_sub; [|exact Hk]. set_solver.
    + apply JsString.avoids_cons. split; [set_solver|].
      eapply JsString.avoids_sub, encode_avoids. set_solver.
Qed.

End Uri.
