(* ===== verification/Base64.v ===== *)
(** * Base64 as the JWT library decodes it

    [jwtDecode] of the [jwt-decode] library (not part of the repository;
    modelled from RFC 4648, RFC 7515 and the WHATWG HTML standard) reads the
    payload of a token with [base64UrlDecode]: it maps the URL-safe
    alphabet back to the standard one ([-] to [+], [_] to [/]), pads the
    text to a multiple of four characters (or throws on a length of the
    form 4k+1), and hands it to [atob], the forgiving-base64 decoder of the
    HTML standard: ASCII whitespace is dropped, one or two final [=] are
    dropped, every other character must be in the standard alphabet, and
    every four characters give three bytes (two or three characters at the
    end give one or two bytes; the leftover bits are discarded).  The
    library then passes the bytes through [decodeURIComponent] to read
    them as UTF-8; strings of this development are byte strings, which
    represent a text by its UTF-8 bytes, so that step is the identity here.

    A byte is an [ascii] character (8 bits); its value is a [Z] in
    [0, 256).  The encoder [b64url_encode] (base64url without padding, as
    the issuer of a JWT writes it) is here for the round trip. *)

From Stdlib Require Import Ascii ZArith Lia.
From stdpp Require Import base strings list.
From S2P Require Import Prelude.

Open Scope string_scope.

Module Base64.

Local Open Scope Z_scope.

(** The value of a byte, and the byte of a value in [0, 256). *)
Definition byte_of (c : ascii) : Z := Z.of_N (N_of_ascii c).
Definition char_of (z : Z) : ascii := ascii_of_N (Z.to_N z).

(** The standard alphabet (RFC 4648, table 1), as [atob] reads it. *)
Definition b64_index (c : ascii) : option Z :=
  let n := byte_of c in
  if (65 <=? n) && (n <=? 90) then Some (n - 65)
  else if (97 <=? n) && (n <=? 122) then Some (n - 71)
  else if (48 <=? n) && (n <=? 57) then Some (n + 4)
  else if n =? 43 then Some 62
  else if n =? 47 then Some 63
  else None.

Definition to_std_char (c : ascii) : ascii :=
  if ascii_dec c "-" then "+"%char else if ascii_dec c "_" then "/"%char else c.

(** [str.replace(/-/g, "+").replace(/_/g, "/")]. *)
Fixpoint url_to_std (s : string) : string :=
  match s with
  | EmptyString => EmptyString
  | String c s' => String (to_std_char c) (url_to_std s')
  end.

(** [switch (output.length % 4)]: add the padding, or throw. *)
Definition pad (s : string) : option string :=
  match (String.length s mod 4)%nat with
  | 0%nat => Some s
  | 2%nat => Some (s ++ "==")
  | 3%nat => Some (s ++ "=")
  | _ => None
  end.

(** ASCII whitespace: tab, line feed, form feed, carriage return, space. *)
Definition is_ascii_whitespace (c : ascii) : bool :=
  let n := byte_of c in (n =? 9) || (n =? 10) || (n =? 12) || (n =? 13) || (n =? 32).

Fixpoint strip_ws (s : string) : string :=
  match s with
  | EmptyString => EmptyString
  | String c s' => if is_ascii_whitespace c then strip_ws s' else String c (strip_ws s')
  end.

(** The character at [i] is [=]. *)
Definition eq_at (s : string) (i : nat) : bool :=
  match String.get i s with
  | Some c => bool_decide (c = "="%char)
  | None => false
  end.

(** Step 2 of forgiving-base64 decode: on a length that is a multiple of
    four, drop one or two final [=]. *)
Definition strip_padding (s : string) : string :=
  let n := String.length s in
  if (negb (Nat.eqb n 0) && Nat.eqb (n mod 4) 0)%bool then
    if (Nat.leb 2 n && eq_at s (n - 1) && eq_at s (n - 2))%bool
    then String.substring 0 (n - 2) s
    else if eq_at s (n - 1) then String.substring 0 (n - 1) s else s
  else s.

(** Step 4: every character must be in the alphabet. *)
Fixpoint indices (s : string) : option (list Z) :=
  match s with
  | EmptyString => Some []
  | String c s' =>
      match b64_index c, indices s' with
      | Some v, Some vs => Some (v :: vs)
      | _, _ => None
      end
  end.

(** Steps 5-8: four 6-bit values give three bytes (the 24-bit buffer
    [a b c d] read as [aaaaaabb bbbbcccc ccdddddd]); two or three values
    at the end give one or two bytes, their extra low bits discarded. *)
Fixpoint decode_groups (l : list Z) : string :=
  match l with
  | a :: b :: c :: d :: rest =>
      String (char_of (a * 4 + b / 16))
        (String (char_of ((b mod 16) * 16 + c / 4))
          (String (char_of ((c mod 4) * 64 + d)) (decode_groups rest)))
  | [a; b; c] => String (char_of (a * 4 + b / 16)) (String (char_of ((b mod 16) * 16 + c / 4)) EmptyString)
  | [a; b] => String (char_of (a * 4 + b / 16)) EmptyString
  | _ => EmptyString
  end.

(** [atob(data)]: the forgiving-base64 decode of the HTML standard;
    [None] where it throws [InvalidCharacterError]. *)
Definition atob (data : string) : option string :=
  let s := strip_padding (strip_ws data) in
  if Nat.eqb (String.length s mod 4) 1 then None
  else match indices s with
       | Some vs => Some (decode_groups vs)
       | None => None
       end.

(** [base64UrlDecode(str)] of the library. *)
Definition base64UrlDecode (str : string) : option string :=
  match pad (url_to_std str) with
  | Some output => atob output
  | None => None
  end.

(** ** The encoder of the token's issuer *)

(** The URL-safe alphabet (RFC 4648, table 2). *)
Definition b64url_char (v : Z) : ascii :=
  if v <? 26 then char_of (v + 65)
  else if v <? 52 then char_of (v + 71)
  else if v <? 62 then char_of (v - 4)
  else if v =? 62 then "-"%char else "_"%char.

(** Three bytes give four 6-bit values; one or two bytes at the end give
    two or three, without padding. *)
Fixpoint sextets (l : list Z) : list Z :=
  match l with
  | x :: y :: z :: rest =>
      x / 4 :: (x mod 4) * 16 + y / 16 :: (y mod 16) * 4 + z / 64 :: z mod 64 :: sextets rest
  | [x; y] => [x / 4; (x mod 4) * 16 + y / 16; (y mod 16) * 4]
  | [x] => [x / 4; (x mod 4) * 16]
  | [] => []
  end.

Definition b64url_encode (s : string) : string :=
  String.string_of_list_ascii (b64url_char <$> sextets (byte_of <$> String.list_ascii_of_string s)).

(** ** The round trip *)

Lemma list3_ind {A} (P : list A -> Prop) :
  P [] -> (forall x, P [x]) -> (forall x y, P [x; y]) ->
  (forall x y z l, P l -> P (x :: y :: z :: l)) -> forall l, P l.
Proof.
  intros H0 H1 H2 H3. fix IH 1.
  intros [|x [|y [|z l]]]; [exact H0|apply H1|apply H2|apply H3, IH].
Qed.

Lemma byte_of_range c : 0 <= byte_of c < 256.
Proof. unfold byte_of. pose proof (N_ascii_bounded c). lia. Qed.

Lemma char_of_byte_of c : char_of (byte_of c) = c.
Proof. unfold char_of, byte_of. by rewrite N2Z.id, ascii_N_embedding. Qed.

(** What the alphabet test says of a character, by its 256 cases. *)
Lemma index_char_facts c v :
  b64_index c = Some v -> is_ascii_whitespace c = false /\ c <> "="%char /\ 0 <= v < 64.
Proof.
  destruct c as [[] [] [] [] [] [] [] []]; intros H; vm_compute in H;
    try discriminate; injection H as <-; split_and!; (reflexivity || discriminate || lia).
Qed.

(** The standard alphabet reads back every URL-safe character. *)
Lemma index_url_char v : 0 <= v < 64 -> b64_index (to_std_char (b64url_char v)) = Some v.
Proof.
  intros Hv. assert (exists n, v = Z.of_nat n /\ (n < 64)%nat) as [n [-> Hn]]
    by (exists (Z.to_nat v); lia).
  do 64 (destruct n as [|n]; [reflexivity|]). lia.
Qed.

Lemma sextets_range l :
  Forall (fun x => 0 <= x < 256) l -> Forall (fun v => 0 <= v < 64) (sextets l).
Proof.
  induction l as [|x|x y|x y z l IH] using list3_ind;
    rewrite ?Forall_cons; intros; repeat (match goal with H : _ /\ _ |- _ => destruct H end);
    simpl; repeat constructor; try zdiv; auto.
Qed.

Lemma decode_groups_sextets l :
  Forall (fun x => 0 <= x < 256) l ->
  decode_groups (sextets l) = String.string_of_list_ascii (char_of <$> l).
Proof.
  induction l as [|x|x y|x y z l IH] using list3_ind;
    rewrite ?Forall_cons; intros; repeat (match goal with H : _ /\ _ |- _ => destruct H end);
    simpl; repeat f_equal; try (apply IH; assumption); zdiv.
Qed.

Lemma sextets_length_mod l : (length (sextets l) mod 4 <> 1)%nat.
Proof.
  induction l as [|x|x y|x y z l IH] using list3_ind; cbn [sextets length]; try done.
  revert IH. generalize (length (sextets l)). intros n.
  replace (S (S (S (S n)))) with (n + 1 * 4)%nat by lia. by rewrite Nat.Div0.mod_add.
Qed.

Lemma indices_url l :
  Forall (fun v => 0 <= v < 64) l ->
  indices (url_to_std (String.string_of_list_ascii (b64url_char <$> l))) = Some l.
Proof.
  induction 1 as [|v l Hv _ IH]; [done|].
  cbn [fmap list_fmap String.string_of_list_ascii url_to_std indices].
  by rewrite index_url_char, IH.
Qed.

(** *** Padding added by [base64UrlDecode] and removed by [atob] *)

Lemma indices_strip_ws t vs : indices t = Some vs -> strip_ws t = t.
Proof.
  revert vs. induction t as [|c t IH]; intros vs; [done|]. simpl.
  destruct (b64_index c) as [v|] eqn:Hc; [|done].
  destruct (indices t) as [vs'|] eqn:Ht; [|done]. intros _.
  destruct (index_char_facts c v Hc) as [-> _]. by rewrite (IH vs').
Qed.

Lemma indices_no_eq t vs i c : indices t = Some vs -> String.get i t = Some c -> c <> "="%char.
Proof.
  revert vs i. induction t as [|c' t IH]; intros vs [|i]; simpl; try done;
    destruct (b64_index c') as [v|] eqn:Hc; try done;
    destruct (indices t) as [vs'|] eqn:Ht; try done; intros _.
  - intros [= <-]. apply (index_char_facts c' v Hc).
  - exact (IH vs' i eq_refl).
Qed.

Lemma strip_ws_app s t : strip_ws (s ++ t) = strip_ws s ++ strip_ws t.
Proof.
  induction s as [|c s IH]; [done|]. rewrite string_app_cons. simpl.
  destruct (is_ascii_whitespace c); by rewrite IH.
Qed.

Lemma length_app_str s t : String.length (s ++ t) = (String.length s + String.length t)%nat.
Proof. induction s as [|c s IH]; [done|]. rewrite string_app_cons. simpl. by rewrite IH. Qed.

Lemma get_app_r t u i : String.get (String.length t + i) (t ++ u) = String.get i u.
Proof. induction t as [|c t IH]; [done|]. by rewrite string_app_cons. Qed.

Lemma get_app_l t u i c : String.get i t = Some c -> String.get i (t ++ u) = Some c.
Proof.
  revert i. induction t as [|c' t IH]; intros [|i]; rewrite ?string_app_cons; simpl; auto; done.
Qed.

Lemma substring_prefix t u : String.substring 0 (String.length t) (t ++ u) = t.
Proof. induction t as [|c t IH]; [by destruct u|]. rewrite string_app_cons. simpl. by rewrite IH. Qed.

Lemma get_last t : String.length t <> 0%nat -> exists c, String.get (String.length t - 1) t = Some c.
Proof.
  induction t as [|c t IH]; [done|]. intros _.
  destruct t as [|c' t']; [by exists c|].
  destruct IH as [c0 Hc0]; [done|]. exists c0. simpl in *. by rewrite Nat.sub_0_r in Hc0.
Qed.

Lemma eq_at_last t vs : indices t = Some vs -> String.length t <> 0%nat ->
  forall u, eq_at (t ++ u) (String.length t - 1) = false.
Proof.
  intros Hi Hn u. destruct (get_last t Hn) as [c Hc]. unfold eq_at.
  rewrite (get_app_l _ _ _ _ Hc). apply bool_decide_eq_false_2, (indices_no_eq t vs _ c Hi Hc).
Qed.

Lemma mod4_add n k r : (n mod 4 = r -> (n + k) mod 4 = (r + k) mod 4)%nat.
Proof. intros <-. by rewrite Nat.Div0.add_mod_idemp_l. Qed.

(** [atob] removes exactly the padding [base64UrlDecode] adds. *)
Lemma pad_strip t vs : indices t = Some vs -> (String.length t mod 4 <> 1)%nat ->
  exists t', pad t = Some t' /\ strip_padding (strip_ws t') = t.
Proof.
  intros Hi Hm. unfold pad. pose proof (Nat.mod_upper_bound (String.length t) 4 ltac:(done)).
  destruct (String.length t mod 4)%nat as [|[|[|[|k]]]] eqn:E; try lia; eexists; split; try done.
  - rewrite (indices_strip_ws t vs Hi). unfold strip_padding.
    destruct (decide (String.length t = 0%nat)) as [Hz|Hz].
    + by rewrite Hz.
    + pose proof (eq_at_last t vs Hi Hz "") as Hl. rewrite string_app_nil_r in Hl. rewrite Hl.
      by rewrite !andb_false_r; destruct (negb _ && _)%bool.
  - rewrite strip_ws_app, (indices_strip_ws t vs Hi). simpl strip_ws.
    unfold strip_padding. rewrite length_app_str. simpl String.length.
    replace (String.length t + 2 - 1)%nat with (String.length t + 1)%nat by lia.
    replace (String.length t + 2 - 2)%nat with (String.length t + 0)%nat by lia.
    rewrite (mod4_add _ 2 2 E). unfold eq_at. rewrite !get_app_r.
    replace (Nat.leb 2 (String.length t + 2)) with true by (symmetry; apply Nat.leb_le; lia).
    replace (String.length t + 2 =? 0)%nat with false by (symmetry; apply Nat.eqb_neq; lia).
    rewrite Nat.add_0_r. apply substring_prefix.
  - rewrite strip_ws_app, (indices_strip_ws t vs Hi). simpl strip_ws.
    assert (Hn : String.length t <> 0%nat) by (intros Hz; rewrite Hz in E; done).
    unfold strip_padding. rewrite length_app_str. simpl String.length.
    replace (String.length t + 1 - 1)%nat with (String.length t + 0)%nat by lia.
    replace (String.length t + 1 - 2)%nat with (String.length t - 1)%nat by lia.
    rewrite (mod4_add _ 1 3 E), (eq_at_last t vs Hi Hn). unfold eq_at at 2. rewrite get_app_r.
    rewrite andb_false_r.
    replace (String.length t + 1 =? 0)%nat with false by (symmetry; apply Nat.eqb_neq; lia).
    rewrite Nat.add_0_r. apply substring_prefix.
Qed.

Lemma length_url_to_std s : String.length (url_to_std s) = String.length s.
Proof. induction s; simpl; congruence. Qed.

Lemma length_string_of_list l : String.length (String.string_of_list_ascii l) = length l.
Proof. induction l; simpl; congruence. Qed.

(** The payload the issuer encodes is the payload the library decodes. *)
Lemma bytes_range s : Forall (fun x => 0 <= x < 256) (byte_of <$> String.list_ascii_of_string s).
Proof.
  apply Forall_forall. intros x Hx. apply list_elem_of_fmap in Hx as (c & -> & _).
  apply byte_of_range.
Qed.

(** The URL-safe alphabet has no [.], the separator of a token's parts. *)
Lemma b64url_char_not_dot v : 0 <= v < 64 -> b64url_char v <> "."%char.
Proof. intros Hv He. pose proof (index_url_char v Hv) as Hi. rewrite He in Hi. by vm_compute in Hi. Qed.

Lemma b64url_encode_chars s :
  Forall (fun c => c <> "."%char) (String.list_ascii_of_string (b64url_encode s)).
Proof.
  unfold b64url_encode. rewrite String.list_ascii_of_string_of_list_ascii.
  apply Forall_fmap. eapply Forall_impl; [apply sextets_range, bytes_range|].
  intros v Hv. by apply b64url_char_not_dot.
Qed.

Lemma base64UrlDecode_encode s : base64UrlDecode (b64url_encode s) = Some s.
Proof.
  unfold base64UrlDecode, b64url_encode.
  set (l := byte_of <$> String.list_ascii_of_string s).
  pose proof (bytes_range s) as Hl.
  pose proof (indices_url (sextets l) (sextets_range l Hl)) as Hi.
  assert (Hm : (String.length (url_to_std (String.string_of_list_ascii (b64url_char <$> sextets l)))
                  mod 4 <> 1)%nat).
  { rewrite length_url_to_std, length_string_of_list, length_fmap. apply sextets_length_mod. }
  destruct (pad_strip _ _ Hi Hm) as (t' & -> & Hs).
  unfold atob. rewrite Hs. apply Nat.eqb_neq in Hm. rewrite Hm, Hi.
  rewrite decode_groups_sextets by done. f_equal. subst l.
  rewrite <- list_fmap_compose, (list_fmap_ext _ id); [|intros; apply char_of_byte_of].
  rewrite list_fmap_id. apply String.string_of_list_ascii_of_string.
Qed.

End Base64.
