(* ===== verification/Json.v ===== *)
(** * [JSON.parse] on the payload of a token

    The JWT library passes the decoded payload to [JSON.parse] (ECMA-262
    and ECMA-404).  This file models it on the JSON texts a token carries:
    a lexer ([lex], a state machine with one step per character: JSON
    whitespace, punctuation, strings with their escapes, integers,
    [true]/[false]/[null]) and a parser ([parse]) for a scalar or an object
    whose members are scalars, the later of two equal keys winning as in
    [JSON.parse].  Strings are byte strings holding UTF-8: a [\u] escape
    is stored as the UTF-8 bytes of its code point; raw control characters
    are rejected as [JSON.parse] rejects them.

    Outside the model, where [parse] answers [None] although [JSON.parse]
    succeeds: arrays and nested objects, numbers with a fraction or an
    exponent, and [\u] escapes of surrogate code points (characters beyond
    the Basic Multilingual Plane).  The claims a token of the account
    service carries ([username], [email], [user_id] and integer times) are
    inside it.

    [print_object] writes a flat object the way a token issuer does; the
    round trip [JSON_parse_print] reads it back. *)

From Stdlib Require Import Ascii ZArith Lia.
From stdpp Require Import base strings list gmap.
From S2P Require Import Prelude Js Base64.
Import JsValue.

Open Scope string_scope.

Module Json.

Local Open Scope Z_scope.
Local Abbreviation byte_of := Base64.byte_of.
Local Abbreviation char_of := Base64.char_of.

Inductive token :=
| TLBrace | TRBrace | TLBracket | TRBracket | TColon | TComma
| TStr (s : string) | TNum (z : Z) | TTrue | TFalse | TNull.

#[export] Instance token_eq_dec : EqDecision token.
Proof. solve_decision. Defined.

(** Where the lexer is: between tokens, inside a string (its bytes so far,
    last first), after a backslash, inside a [\u] escape ([k] hex digits
    read, value [v]), after a minus sign, inside an integer ([zero]: its
    digits are a single [0]), or inside a literal (the letters still
    expected). *)
Inductive mode :=
| MTop
| MStr (acc : list ascii)
| MEsc (acc : list ascii)
| MUni (acc : list ascii) (v : Z) (k : nat)
| MMinus
| MNum (neg : bool) (v : Z) (zero : bool)
| MLit (expected : list ascii) (t : token).

(** JSON whitespace: space, tab, line feed, carriage return. *)
Definition is_json_ws (c : ascii) : bool :=
  let n := byte_of c in (n =? 32) || (n =? 9) || (n =? 10) || (n =? 13).

Definition digit_val (c : ascii) : option Z :=
  let n := byte_of c in if (48 <=? n) && (n <=? 57) then Some (n - 48) else None.

Definition hex_val (c : ascii) : option Z :=
  let n := byte_of c in
  if (48 <=? n) && (n <=? 57) then Some (n - 48)
  else if (97 <=? n) && (n <=? 102) then Some (n - 87)
  else if (65 <=? n) && (n <=? 70) then Some (n - 55)
  else None.

(** The UTF-8 bytes of a code point of the Basic Multilingual Plane. *)
Definition utf8 (cp : Z) : list ascii :=
  if cp <? 128 then [char_of cp]
  else if cp <? 2048 then [char_of (192 + cp / 64); char_of (128 + cp mod 64)]
  else [char_of (224 + cp / 4096); char_of (128 + (cp / 64) mod 64); char_of (128 + cp mod 64)].

(** A character between tokens. *)
Definition top_char (c : ascii) : option (list token * mode) :=
  let n := byte_of c in
  if is_json_ws c then Some ([], MTop)
  else if n =? 123 then Some ([TLBrace], MTop)
  else if n =? 125 then Some ([TRBrace], MTop)
  else if n =? 91 then Some ([TLBracket], MTop)
  else if n =? 93 then Some ([TRBracket], MTop)
  else if n =? 58 then Some ([TColon], MTop)
  else if n =? 44 then Some ([TComma], MTop)
  else if n =? 34 then Some ([], MStr [])
  else if n =? 45 then Some ([], MMinus)
  else match digit_val c with
       | Some d => Some ([], MNum false d (d =? 0))
       | None =>
           if n =? 116 then Some ([], MLit ["r"; "u"; "e"]%char TTrue)
           else if n =? 102 then Some ([], MLit ["a"; "l"; "s"; "e"]%char TFalse)
           else if n =? 110 then Some ([], MLit ["u"; "l"; "l"]%char TNull)
           else None
       end.

Definition num_token (neg : bool) (v : Z) : token := TNum (if neg then - v else v).

(** One character in a mode: the tokens it completes and the next mode;
    [None] where [JSON.parse] throws a [SyntaxError]. *)
Definition step (m : mode) (c : ascii) : option (list token * mode) :=
  let n := byte_of c in
  match m with
  | MTop => top_char c
  | MStr acc =>
      if n =? 34 then Some ([TStr (String.string_of_list_ascii (rev acc))], MTop)
      else if n =? 92 then Some ([], MEsc acc)
      else if n <? 32 then None
      else Some ([], MStr (c :: acc))
  | MEsc acc =>
      if (n =? 34) || (n =? 92) || (n =? 47) then Some ([], MStr (c :: acc))
      else if n =? 98 then Some ([], MStr (char_of 8 :: acc))
      else if n =? 102 then Some ([], MStr (char_of 12 :: acc))
      else if n =? 110 then Some ([], MStr (char_of 10 :: acc))
      else if n =? 114 then Some ([], MStr (char_of 13 :: acc))
      else if n =? 116 then Some ([], MStr (char_of 9 :: acc))
      else if n =? 117 then Some ([], MUni acc 0 0)
      else None
  | MUni acc v k =>
      match hex_val c with
      | None => None
      | Some h =>
          let v' := v * 16 + h in
          if Nat.eqb k 3 then
            if (55296 <=? v') && (v' <=? 57343) then None
            else Some ([], MStr (rev (utf8 v') ++ acc))
          else Some ([], MUni acc v' (S k))
      end
  | MMinus =>
      match digit_val c with
      | Some d => Some ([], MNum true d (d =? 0))
      | None => None
      end
  | MNum neg v zero =>
      match digit_val c with
      | Some d => if zero then None else Some ([], MNum neg (v * 10 + d) false)
      | None =>
          if (n =? 46) || (n =? 101) || (n =? 69) then None
          else match top_char c with
               | Some (ts, m') => Some (num_token neg v :: ts, m')
               | None => None
               end
      end
  | MLit [] _ => None
  | MLit (e :: rest) t =>
      if ascii_dec c e then
        match rest with
        | [] => Some ([t], MTop)
        | _ => Some ([], MLit rest t)
        end
      else None
  end.

(** The end of the text: only between tokens or after an integer. *)
Definition finish (m : mode) : option (list token) :=
  match m with
  | MTop => Some []
  | MNum neg v _ => Some [num_token neg v]
  | _ => None
  end.

Fixpoint lex_from (m : mode) (s : string) : option (list token) :=
  match s with
  | EmptyString => finish m
  | String c s' =>
      match step m c with
      | Some (ts, m') =>
          match lex_from m' s' with
          | Some ts' => Some (ts ++ ts')%list
          | None => None
          end
      | None => None
      end
  end.

Definition lex (s : string) : option (list token) := lex_from MTop s.

(** A parsed text: an object, or a scalar. *)
Inductive json := JObject (o : object) | JScalar (v : jsval).

Definition scalar (t : token) : option jsval :=
  match t with
  | TStr s => Some (JStr s)
  | TNum z => Some (JNum z)
  | TTrue => Some (JBool true)
  | TFalse => Some (JBool false)
  | TNull => Some JNull
  | _ => None
  end.

(** The members of an object after its [{], up to its [}], which ends the
    text; a later key overwrites an earlier one. *)
Fixpoint members (ts : list token) (o : object) : option object :=
  match ts with
  | TStr k :: TColon :: v :: TComma :: rest =>
      match scalar v with
      | Some x => members rest (<[k := x]> o)
      | None => None
      end
  | [TStr k; TColon; v; TRBrace] =>
      match scalar v with
      | Some x => Some (<[k := x]> o)
      | None => None
      end
  | _ => None
  end.

Definition parse (ts : list token) : option json :=
  match ts with
  | [TLBrace; TRBrace] => Some (JObject ∅)
  | TLBrace :: rest =>
      match members rest ∅ with
      | Some o => Some (JObject o)
      | None => None
      end
  | [t] =>
      match scalar t with
      | Some v => Some (JScalar v)
      | None => None
      end
  | _ => None
  end.

(** [JSON.parse(text)]; [None] where it throws. *)
Definition JSON_parse (text : string) : option json :=
  match lex text with
  | Some ts => parse ts
  | None => None
  end.

(** ** The issuer's side: printing a flat object *)

Definition quote_char : ascii := "034"%char.
Definition backslash : ascii := "092"%char.

(** The escapes a serializer must write in a string: a backslash before
    each quote and each backslash. *)
Fixpoint escape (s : string) : string :=
  match s with
  | EmptyString => EmptyString
  | String c s' =>
      if (byte_of c =? 34) || (byte_of c =? 92) then String backslash (String c (escape s'))
      else String c (escape s')
  end.

Definition print_string (s : string) : string :=
  String quote_char (escape s ++ String quote_char EmptyString).

Definition digit_char (d : Z) : ascii := char_of (48 + d).

(** The decimal digits of [n], in front of [acc]; [fuel] bounds their
    number. *)
Fixpoint digits (fuel : nat) (n : Z) (acc : string) : string :=
  match fuel with
  | O => acc
  | S f =>
      if n <? 10 then String (digit_char n) acc
      else digits f (n / 10) (String (digit_char (n mod 10)) acc)
  end.

(** A natural number has at most [log2 n + 1] digits. *)
Definition print_nat (n : Z) : string := digits (S (Z.to_nat (Z.log2 n))) n EmptyString.

Definition print_Z (z : Z) : string :=
  if z <? 0 then String "-"%char (print_nat (- z)) else print_nat z.

Definition print_scalar (v : jsval) : string :=
  match v with
  | JStr s => print_string s
  | JNum z => print_Z z
  | JBool true => "true"
  | JBool false => "false"
  | JNull | JUndefined => "null"
  end.

Definition print_member (kv : string * jsval) : string :=
  print_string kv.1 ++ String ":"%char (print_scalar kv.2).

Fixpoint print_members (kvs : list (string * jsval)) : string :=
  match kvs with
  | [] => "}"
  | [kv] => print_member kv ++ "}"
  | kv :: rest => print_member kv ++ String ","%char (print_members rest)
  end.

Definition print_object (kvs : list (string * jsval)) : string :=
  String "{"%char (print_members kvs).

(** What a serializer can write and [parse] reads: a scalar other than
    [undefined], and strings without raw control characters. *)
Definition printable_string (s : string) : bool :=
  forallb (fun c => 32 <=? byte_of c) (String.list_ascii_of_string s).

Definition printable (v : jsval) : bool :=
  match v with
  | JStr s => printable_string s
  | JUndefined => false
  | _ => true
  end.

(** The object a list of members denotes in [JSON.parse]: later keys win. *)
Definition object_of (kvs : list (string * jsval)) : object :=
  fold_left (fun o kv => <[kv.1 := kv.2]> o) kvs ∅.

(** ** The lexer on printed text *)

(** Running the lexer over a prefix: the tokens completed and the mode. *)
Fixpoint lex_prefix (m : mode) (s : string) : option (list token * mode) :=
  match s with
  | EmptyString => Some ([], m)
  | String c s' =>
      match step m c with
      | Some (ts, m') =>
          match lex_prefix m' s' with
          | Some (ts', m'') => Some (ts ++ ts', m'')%list
          | None => None
          end
      | None => None
      end
  end.

Lemma lex_prefix_cons m c s :
  lex_prefix m (String c s) =
  match step m c with
  | Some (ts, m') =>
      match lex_prefix m' s with
      | Some (ts', m'') => Some (ts ++ ts', m'')%list
      | None => None
      end
  | None => None
  end.
Proof. reflexivity. Qed.

Lemma lex_from_app m s t :
  lex_from m (s ++ t) =
  match lex_prefix m s with
  | Some (ts, m') => option_map (fun ts' => ts ++ ts')%list (lex_from m' t)
  | None => None
  end.
Proof.
  revert m. induction s as [|c s IH]; intros m.
  - rewrite string_app_nil_l. simpl. by destruct (lex_from m t).
  - rewrite string_app_cons. simpl. destruct (step m c) as [[ts m']|]; [|done].
    rewrite IH. destruct (lex_prefix m' s) as [[ts' m'']|]; [|done].
    destruct (lex_from m'' t); simpl; [by rewrite app_assoc|done].
Qed.

Lemma lex_prefix_app m s t :
  lex_prefix m (s ++ t) =
  match lex_prefix m s with
  | Some (ts, m') => option_map (fun '(ts', m'') => (ts ++ ts', m''))%list (lex_prefix m' t)
  | None => None
  end.
Proof.
  revert m. induction s as [|c s IH]; intros m.
  - rewrite string_app_nil_l. simpl. by destruct (lex_prefix m t) as [[]|].
  - rewrite string_app_cons. simpl. destruct (step m c) as [[ts m']|]; [|done].
    rewrite IH. destruct (lex_prefix m' s) as [[ts' m'']|]; [|done].
    destruct (lex_prefix m'' t) as [[ts3 m3]|]; simpl; [by rewrite app_assoc|done].
Qed.

Lemma byte_of_char_of z : 0 <= z < 256 -> byte_of (char_of z) = z.
Proof.
  intros Hz. unfold Base64.byte_of, Base64.char_of.
  rewrite N_ascii_embedding; [lia|]. apply N2Z.inj_lt. rewrite Z2N.id; lia.
Qed.

Lemma string_of_list_app l1 l2 :
  String.string_of_list_ascii (l1 ++ l2) =
  String.string_of_list_ascii l1 ++ String.string_of_list_ascii l2.
Proof.
  induction l1 as [|c l1 IH]; simpl; [by rewrite string_app_nil_l|].
  by rewrite string_app_cons, IH.
Qed.

(** An escaped string is read back, byte for byte, after the bytes already
    read. *)
Lemma lex_escape acc s :
  printable_string s = true ->
  lex_prefix (MStr acc) (escape s ++ String quote_char EmptyString) =
  Some ([TStr (String.string_of_list_ascii (rev acc) ++ s)], MTop).
Proof.
  revert acc. induction s as [|c s IH]; intros acc Hp.
  - simpl. by rewrite string_app_nil_r.
  - unfold printable_string in Hp. simpl in Hp. apply andb_true_iff in Hp as [Hc Hp].
    apply Z.leb_le in Hc. pose proof (Base64.byte_of_range c).
    simpl escape. destruct ((byte_of c =? 34) || (byte_of c =? 92)) eqn:E.
    + rewrite !string_app_cons. simpl. unfold backslash.
      replace (byte_of "092"%char) with 92 by reflexivity. simpl.
      rewrite E. simpl. rewrite (IH (c :: acc) Hp). do 2 f_equal.
      simpl. rewrite string_of_list_app. simpl.
      by rewrite <- string_app_assoc.
    + rewrite string_app_cons. simpl. apply orb_false_iff in E as [E1 E2].
      rewrite E1, E2. replace (byte_of c <? 32) with false by lia.
      rewrite (IH (c :: acc) Hp). do 2 f_equal. simpl.
      rewrite string_of_list_app. simpl. by rewrite <- string_app_assoc.
Qed.

(** *** Integers *)

Lemma digits_acc f n acc : digits f n acc = digits f n EmptyString ++ acc.
Proof.
  revert n acc. induction f as [|f IH]; intros n acc; simpl; [by rewrite string_app_nil_l|].
  destruct (n <? 10); [by rewrite string_app_cons, string_app_nil_l|].
  rewrite (IH _ (String _ acc)), (IH _ (String _ EmptyString)).
  by rewrite <- string_app_assoc, string_app_cons, string_app_nil_l.
Qed.

Lemma digits_S f n acc :
  digits (S f) n acc =
  if n <? 10 then String (digit_char n) acc
  else digits f (n / 10) (String (digit_char (n mod 10)) acc).
Proof. reflexivity. Qed.

(** A digit, between tokens or after a minus sign, starts an integer. *)
Lemma digit_char_facts d :
  0 <= d < 10 ->
  digit_val (digit_char d) = Some d /\ top_char (digit_char d) = Some ([], MNum false d (d =? 0)).
Proof.
  intros Hd. assert (d = 0 \/ d = 1 \/ d = 2 \/ d = 3 \/ d = 4 \/ d = 5 \/ d = 6 \/ d = 7 \/
    d = 8 \/ d = 9) as Hc by lia.
  repeat destruct Hc as [->|Hc]; [..|subst d]; split; reflexivity.
Qed.

(** The mode an integer starts in: between tokens, or after its minus sign. *)
Definition num_start (neg : bool) : mode := if neg then MMinus else MTop.

Lemma step_num_start neg d :
  0 <= d < 10 -> step (num_start neg) (digit_char d) = Some ([], MNum neg d (d =? 0)).
Proof.
  intros Hd. destruct (digit_char_facts d Hd) as [Hv Ht].
  destruct neg; simpl; [by rewrite Hv | exact Ht].
Qed.

(** The digits of [n], given enough fuel, are read back as [n]. *)
Lemma lex_digits f n neg :
  0 <= n < 10 ^ Z.of_nat (S f) ->
  lex_prefix (num_start neg) (digits (S f) n EmptyString) = Some ([], MNum neg n (n =? 0)).
Proof.
  revert n. induction f as [|f IH]; intros n Hn.
  - simpl in Hn. rewrite digits_S. replace (n <? 10) with true by lia. simpl.
    by rewrite step_num_start by lia.
  - rewrite digits_S. destruct (n <? 10) eqn:E.
    + apply Z.ltb_lt in E. simpl. by rewrite step_num_start by lia.
    + apply Z.ltb_ge in E. rewrite digits_acc, lex_prefix_app.
      rewrite IH by (rewrite Nat2Z.inj_succ, Z.pow_succ_r in Hn by lia; zdiv).
      assert (Hd : 0 <= n mod 10 < 10) by zdiv.
      destruct (digit_char_facts _ Hd) as [Hv _]. simpl. rewrite Hv.
      replace (n / 10 =? 0) with false by (symmetry; apply Z.eqb_neq; zdiv).
      replace (n =? 0) with false by (symmetry; apply Z.eqb_neq; lia).
      replace (n / 10 * 10 + n mod 10) with n by zdiv. done.
Qed.

Lemma print_nat_fuel n : 0 <= n -> n < 10 ^ Z.of_nat (S (Z.to_nat (Z.log2 n))).
Proof.
  intros Hn. pose proof (Z.log2_nonneg n).
  rewrite Nat2Z.inj_succ, Z2Nat.id by lia.
  destruct (Z.eq_dec n 0) as [->|Hn0]; [apply Z.pow_pos_nonneg; lia|].
  apply Z.lt_le_trans with (2 ^ Z.succ (Z.log2 n)).
  - apply Z.log2_spec. lia.
  - apply Z.pow_le_mono_l. lia.
Qed.

(** A printed integer: [TNum z] once a delimiter follows. *)
Lemma lex_print_Z z : exists neg v zero,
  lex_prefix MTop (print_Z z) = Some ([], MNum neg v zero) /\ num_token neg v = TNum z.
Proof.
  unfold print_Z, print_nat. destruct (z <? 0) eqn:E.
  - apply Z.ltb_lt in E. exists true, (- z), (- z =? 0).
    rewrite lex_prefix_cons. change (step MTop "-"%char) with (Some ([] : list token, num_start true)); cbv iota beta.
    rewrite (lex_digits _ _ true) by (split; [lia|apply print_nat_fuel; lia]).
    split; [done|]. unfold num_token. by rewrite Z.opp_involutive.
  - apply Z.ltb_ge in E. exists false, z, (z =? 0).
    rewrite (lex_digits _ _ false) by (split; [lia|apply print_nat_fuel; lia]). done.
Qed.

(** *** Scalars, members and objects *)

(** The two delimiters a printed scalar is followed by. *)
Definition delimiter (c : ascii) (t : token) : Prop :=
  (c = ","%char /\ t = TComma) \/ (c = "}"%char /\ t = TRBrace).

Lemma step_delimiter c t neg v zero :
  delimiter c t ->
  step MTop c = Some ([t], MTop) /\ step (MNum neg v zero) c = Some ([num_token neg v; t], MTop).
Proof. by intros [[-> ->]|[-> ->]]. Qed.

Lemma lex_delim s ts c t :
  lex_prefix MTop s = Some (ts, MTop) -> delimiter c t ->
  lex_prefix MTop (s ++ String c EmptyString) = Some ((ts ++ [t])%list, MTop).
Proof.
  intros Hs Hd. rewrite lex_prefix_app, Hs, lex_prefix_cons.
  by rewrite (proj1 (step_delimiter c t false 0 false Hd)).
Qed.

Lemma lex_print_scalar v c t :
  printable v = true -> delimiter c t ->
  exists tv, lex_prefix MTop (print_scalar v ++ String c EmptyString) = Some ([tv; t], MTop) /\
    scalar tv = Some v.
Proof.
  intros Hp Hd. destruct v as [| |[]|z|s]; simpl in Hp; try discriminate.
  - exists TNull. split; [|done]. by apply (lex_delim _ [TNull]).
  - exists TTrue. split; [|done]. by apply (lex_delim _ [TTrue]).
  - exists TFalse. split; [|done]. by apply (lex_delim _ [TFalse]).
  - destruct (lex_print_Z z) as (neg & n & zero & Hl & Hn). exists (TNum z).
    simpl print_scalar. rewrite lex_prefix_app, Hl, lex_prefix_cons.
    by rewrite (proj2 (step_delimiter c t neg n zero Hd)), Hn.
  - exists (TStr s). split; [|done]. apply (lex_delim _ [TStr s]); [|done].
    unfold print_scalar, print_string. rewrite lex_prefix_cons.
    change (step MTop quote_char) with (Some ([] : list token, MStr [])).
    cbv iota beta. by rewrite lex_escape.
Qed.

Definition printable_member (kv : string * jsval) : bool :=
  printable_string kv.1 && printable kv.2.

Lemma lex_print_member kv c t :
  printable_member kv = true -> delimiter c t ->
  exists tv, lex_prefix MTop (print_member kv ++ String c EmptyString) =
    Some ([TStr kv.1; TColon; tv; t], MTop) /\ scalar tv = Some kv.2.
Proof.
  intros [Hk Hv]%andb_true_iff Hd. destruct (lex_print_scalar _ _ _ Hv Hd) as (tv & Hl & Hs).
  exists tv. split; [|done]. unfold print_member, print_string.
  rewrite <- string_app_assoc, string_app_cons, lex_prefix_cons.
  change (step MTop quote_char) with (Some ([] : list token, MStr [])). cbv iota beta.
  rewrite lex_prefix_app, lex_escape by done. cbv iota beta.
  rewrite string_app_cons, lex_prefix_cons.
  change (step MTop ":"%char) with (Some ([TColon], MTop)). cbv iota beta.
  by rewrite Hl.
Qed.

(** The members of a non-empty list are read as the object they denote,
    over the object already read. *)
Lemma lex_print_members kvs o :
  kvs <> [] -> Forall (fun kv => printable_member kv = true) kvs ->
  exists ts, lex_prefix MTop (print_members kvs) = Some (ts, MTop) /\
    members ts o = Some (fold_left (fun o kv => <[kv.1 := kv.2]> o) kvs o).
Proof.
  revert o. induction kvs as [|kv kvs IH]; intros o Hne Hp; [done|].
  apply Forall_cons in Hp as [Hkv Hp]. destruct kvs as [|kv' kvs].
  - destruct (lex_print_member kv "}" TRBrace Hkv) as (tv & Hl & Hs); [by right|].
    exists [TStr kv.1; TColon; tv; TRBrace]. split; [exact Hl|]. simpl. by rewrite Hs.
  - destruct (lex_print_member kv "," TComma Hkv) as (tv & Hl & Hs); [by left|].
    destruct (IH (<[kv.1 := kv.2]> o)) as (ts & Hts & Hm); [done|done|].
    exists (TStr kv.1 :: TColon :: tv :: TComma :: ts). split.
    + change (print_members (kv :: kv' :: kvs)) with
        (print_member kv ++ String ","%char (print_members (kv' :: kvs))).
      rewrite <- (string_app_nil_l (print_members _)), <- string_app_cons, string_app_assoc.
      rewrite lex_prefix_app, Hl, Hts. done.
    + simpl. by rewrite Hs.
Qed.

(** The round trip: [JSON.parse] reads a printed flat object back as the
    object its members denote (a later key winning over an earlier one). *)
Lemma JSON_parse_print kvs :
  Forall (fun kv => printable_member kv = true) kvs ->
  JSON_parse (print_object kvs) = Some (JObject (object_of kvs)).
Proof.
  intros Hp. destruct kvs as [|kv kvs]; [reflexivity|].
  destruct (lex_print_members (kv :: kvs) ∅) as (ts & Hl & Hm); [done|done|].
  unfold JSON_parse, lex. change (print_object (kv :: kvs)) with ("{" ++ print_members (kv :: kvs)).
  rewrite lex_from_app. change (lex_prefix MTop "{") with (Some ([TLBrace], MTop)). cbv iota beta.
  rewrite <- (string_app_nil_r (print_members _)), lex_from_app, Hl. simpl.
  rewrite app_nil_r. unfold parse. destruct kv as [k v].
  destruct kvs; (destruct ts as [|t1 ts]; [done|]); destruct t1; try done;
    by rewrite Hm.
Qed.

End Json.
