(* ===== verification/Auth.v ===== *)
(** * The session manager: src/src/contexts/AuthContext.jsx

    [AuthProvider] keeps seven React state cells ([auth_state]) and acts on
    the browser ([browser]): [localStorage], the location, the intervals
    armed with [setInterval] and the refresh requests still awaiting their
    response.  Each function of the component is one definition below, in
    the monad [M] of the prelude (state changes made before an exception
    persist, as in JavaScript).  The asynchronous parts are split where the
    code awaits: [fetchAccessToken] sends the request, and
    [fetchAccessToken_resume] is the code after [await], run by [dispatch]
    when the response arrives.  The JWT library is the interface
    [JwtDecoder]; everything here holds for any decoder. *)

From stdpp Require Import base gmap strings list.
From S2P Require Import Prelude Js Uri.
Import JsValue.

Open Scope string_scope.

(** [jwtDecode(token)] of the [jwt-decode] library: the payload object, or
    [None] where the library throws [InvalidTokenError]. *)
Class JwtDecoder := { jwtDecode : string -> option object }.

Module Auth.

(** The exception that can escape the mount effect. *)
Inductive js_error := InvalidTokenError.

(** The state cells of [AuthProvider], lines 8-15. *)
Record auth_state := mk_auth {
  isAuthenticated : bool;
  username : jsval;
  email : jsval;
  id : jsval;
  refreshToken : string;
  accessToken : jsval;
  isLoading : bool
}.

(** [useState(false)], [useState('')], ..., [useState(true)]. *)
Definition initial_auth : auth_state :=
  mk_auth false (JStr "") (JStr "") JNull "" (JStr "") true.

Record location := mk_location {
  origin : string;     (** [window.location.origin] *)
  pathname : string;
  search : string      (** [window.location.search], with its [?] *)
}.

(** An interval armed by [setupTokenRenewal]: every 240000 ms it calls
    [fetchAccessToken] with the token captured when it was armed. *)
Record interval := mk_interval { iv_handle : nat; iv_token : string }.

(** A POST to the refresh endpoint awaiting its response. *)
Record request := mk_request { rq_id : nat; rq_url : string; rq_token : string }.

Record browser := mk_browser {
  storage : gmap string string;      (** [localStorage] *)
  loc : location;
  navigation : option string;        (** the last [window.location.href = ...] *)
  intervals : list interval;
  next_handle : nat;
  inflight : list request;
  next_request : nat
}.

(** Whether the effect of [AuthProvider] has run, and whether it threw (an
    exception escaping an effect unmounts the React tree). *)
Inductive app_phase := NotMounted | Mounted | Crashed.

#[export] Instance app_phase_eq_dec : EqDecision app_phase.
Proof. solve_decision. Defined.

Record sys := mk_sys { auth : auth_state; br : browser; phase : app_phase }.

(** What the refresh endpoint answers: a response with its status and its
    parsed body, or a transport failure. *)
Inductive http_outcome :=
| NetworkError
| HttpResponse (status : Z) (data : object).

#[export] Instance http_outcome_eq_dec : EqDecision http_outcome.
Proof. solve_decision. Defined.

(** axios resolves on a 2xx status (its default [validateStatus]) and
    rejects otherwise. *)
Definition axios_ok (status : Z) : bool := (200 <=? status)%Z && (status <? 300)%Z.

Definition refresh_url := "https://behzod.pythonanywhere.com/api/token/refresh/".
Definition dovuchchaLoginUrl := "https://accounts.dovuchcha.uz/login".

Abbreviation M := (stexc sys js_error).

Local Open Scope js_scope.

(** ** React state setters *)

Definition set_auth (f : auth_state -> auth_state) : M unit :=
  st_modify (fun s => mk_sys (f (auth s)) (br s) (phase s)).

Definition setIsAuthenticated (v : bool) : M unit :=
  set_auth (fun a => mk_auth v (username a) (email a) (id a) (refreshToken a)
                       (accessToken a) (isLoading a)).
Definition setUsername (v : jsval) : M unit :=
  set_auth (fun a => mk_auth (isAuthenticated a) v (email a) (id a) (refreshToken a)
                       (accessToken a) (isLoading a)).
Definition setEmail (v : jsval) : M unit :=
  set_auth (fun a => mk_auth (isAuthenticated a) (username a) v (id a) (refreshToken a)
                       (accessToken a) (isLoading a)).
Definition setId (v : jsval) : M unit :=
  set_auth (fun a => mk_auth (isAuthenticated a) (username a) (email a) v (refreshToken a)
                       (accessToken a) (isLoading a)).
Definition setRefreshToken (v : string) : M unit :=
  set_auth (fun a => mk_auth (isAuthenticated a) (username a) (email a) (id a) v
                       (accessToken a) (isLoading a)).
Definition setAccessToken (v : jsval) : M unit :=
  set_auth (fun a => mk_auth (isAuthenticated a) (username a) (email a) (id a)
                       (refreshToken a) v (isLoading a)).
Definition setIsLoading (v : bool) : M unit :=
  set_auth (fun a => mk_auth (isAuthenticated a) (username a) (email a) (id a)
                       (refreshToken a) (accessToken a) v).

(** ** Browser operations *)

Definition set_browser (f : browser -> browser) : M unit :=
  st_modify (fun s => mk_sys (auth s) (f (br s)) (phase s)).

Definition set_storage (f : gmap string string -> gmap string string) : M unit :=
  set_browser (fun b => mk_browser (f (storage b)) (loc b) (navigation b)
                          (intervals b) (next_handle b) (inflight b) (next_request b)).

Definition localStorage_getItem (k : string) : M (option string) :=
  s <- st_get ;; st_ret (storage (br s) !! k).

Definition localStorage_setItem (k v : string) : M unit :=
  set_storage (insert k v).

Definition localStorage_removeItem (k : string) : M unit :=
  set_storage (delete k).

(** [window.history.replaceState({}, document.title, '/')]: the address
    becomes the root, without query. *)
Definition replaceState_root : M unit :=
  set_browser (fun b => mk_browser (storage b)
                          (mk_location (origin (loc b)) "/" "")
                          (navigation b) (intervals b) (next_handle b)
                          (inflight b) (next_request b)).

(** [window.location.href = url]. *)
Definition assign_href (url : string) : M unit :=
  set_browser (fun b => mk_browser (storage b) (loc b) (Some url) (intervals b)
                          (next_handle b) (inflight b) (next_request b)).

(** [setInterval(() => fetchAccessToken(token), 240000)]. *)
Definition setInterval_renewal (token : string) : M nat :=
  s <- st_get ;;
  let h := next_handle (br s) in
  set_browser (fun b => mk_browser (storage b) (loc b) (navigation b)
                          (intervals b ++ [mk_interval h token])%list (S h)
                          (inflight b) (next_request b)) ;;
  st_ret h.

(** [axios.post(refresh_url, { refresh: token })]: the request is sent. *)
Definition axios_post_refresh (token : string) : M nat :=
  s <- st_get ;;
  let r := next_request (br s) in
  set_browser (fun b => mk_browser (storage b) (loc b) (navigation b)
                          (intervals b) (next_handle b)
                          (inflight b ++ [mk_request r refresh_url token])%list (S r)) ;;
  st_ret r.

(** ** The handlers of AuthContext.jsx *)

Section Handlers.
Context `{JwtDecoder}.

(** [jwtDecode(token)], throwing on a token the library rejects. *)
Definition jwt_decode (token : string) : M object :=
  match jwtDecode token with
  | Some o => st_ret o
  | None => st_throw InvalidTokenError
  end.

(** Lines 17-25. *)
Definition handleLoginRedirect : M unit :=
  s <- st_get ;;
  let redirectUrl := origin (loc (br s)) ++ "/" in
  let fullLoginUrl :=
    dovuchchaLoginUrl ++ "?redirection=" ++ Uri.encodeURIComponent redirectUrl in
  assign_href fullLoginUrl.

(** Lines 32-41 and 80-87: store the claims of a decoded token. *)
Definition set_identity (decoded : object) : M unit :=
  setUsername (prop decoded "username") ;;
  setEmail (prop decoded "email") ;;
  setId (prop decoded "user_id") ;;
  setIsAuthenticated true.

(** Lines 28-29: [new URLSearchParams(window.location.search).get(...)]. *)
Definition redirect_param (s : sys) : option string :=
  Uri.get (Uri.URLSearchParams (search (loc (br s)))) "refresh_token".

(** Lines 27-43. *)
Definition handleRedirect : M unit :=
  s <- st_get ;;
  let token := redirect_param s in
  match token with
  | Some t =>
      if truthy (JStr t) then
        setRefreshToken t ;;
        localStorage_setItem "refresh_token" t ;;
        decoded <- jwt_decode t ;;
        set_identity decoded ;;
        replaceState_root
      else st_ret tt
  | None => st_ret tt
  end.

(** Lines 65-74. *)
Definition handleLogout : M unit :=
  setIsAuthenticated false ;;
  setUsername (JStr "") ;;
  setEmail (JStr "") ;;
  setId JNull ;;
  setRefreshToken "" ;;
  setAccessToken (JStr "") ;;
  localStorage_removeItem "refresh_token" ;;
  localStorage_removeItem "access_token".

(** Lines 45-49 up to the [await]: the request is sent. *)
Definition fetchAccessToken (token : string) : M unit :=
  _ <- axios_post_refresh token ;; st_ret tt.

(** Lines 50-56, after the [await]: on success store the access token, on
    a rejected promise log out. *)
Definition fetchAccessToken_resume (resp : http_outcome) : M unit :=
  match resp with
  | HttpResponse status data =>
      if axios_ok status then
        let newAccessToken := prop data "access" in
        setAccessToken newAccessToken ;;
        localStorage_setItem "access_token" (to_string newAccessToken)
      else handleLogout
  | NetworkError => handleLogout
  end.

(** Lines 59-63. *)
Definition setupTokenRenewal (token : string) : M unit :=
  _ <- setInterval_renewal token ;; st_ret tt.

(** Lines 76-95: the effect run after the first render. *)
Definition mount_effect : M unit :=
  handleRedirect ;;
  storedRefreshToken <- localStorage_getItem "refresh_token" ;;
  (match storedRefreshToken with
   | Some t =>
       if truthy (JStr t) then
         setRefreshToken t ;;
         decoded <- jwt_decode t ;;
         set_identity decoded ;;
         fetchAccessToken t ;;
         setupTokenRenewal t
       else st_ret tt
   | None => st_ret tt
   end) ;;
  setIsLoading false.

(** React runs the effect; an exception escaping it unmounts the tree. *)
Definition mount (s : sys) : sys :=
  match mount_effect s with
  | (s', inl _) => mk_sys (auth s') (br s') Crashed
  | (s', inr _) => mk_sys (auth s') (br s') Mounted
  end.

(** ** Events

    What can happen to a running client: React runs the effect ([Mount]),
    an armed interval fires ([Tick]), a refresh request completes
    ([RefreshResponse]), or the user clicks a Logout or Login button, which
    exist only once the provider renders its children. *)
Inductive event :=
| Mount
| Tick (h : nat)
| RefreshResponse (r : nat) (resp : http_outcome)
| LogoutClick
| LoginClick.

#[export] Instance event_eq_dec : EqDecision event.
Proof. solve_decision. Defined.

(** [{!isLoading && children}] of line 114, in a mounted tree. *)
Definition rendered (s : sys) : bool :=
  bool_decide (phase s = Mounted) && negb (isLoading (auth s)).

(** Lines 98-112: the value [AuthContext] provides: the state cells but
    [refreshToken], besides the handlers and four setters, which no
    component uses to write the session. *)
Record context_value := mk_context {
  cv_isAuthenticated : bool;
  cv_username : jsval;
  cv_email : jsval;
  cv_id : jsval;
  cv_accessToken : jsval;
  cv_isLoading : bool
}.

Definition provider_value (a : auth_state) : context_value :=
  mk_context (isAuthenticated a) (username a) (email a) (id a) (accessToken a) (isLoading a).

Definition find_interval (h : nat) (s : sys) : option interval :=
  List.find (fun iv => Nat.eqb (iv_handle iv) h) (intervals (br s)).

Definition find_request (r : nat) (s : sys) : option request :=
  List.find (fun q => Nat.eqb (rq_id q) r) (inflight (br s)).

(** The request [r] is no longer awaiting its response. *)
Definition complete_request (r : nat) : M unit :=
  set_browser (fun b => mk_browser (storage b) (loc b) (navigation b)
                          (intervals b) (next_handle b)
                          (filter (fun q => rq_id q <> r) (inflight b))
                          (next_request b)).

Definition dispatch (e : event) (s : sys) : sys :=
  match e with
  | Mount => mount s
  | Tick h =>
      match find_interval h s with
      | Some iv => st_state (fetchAccessToken (iv_token iv)) s
      | None => s
      end
  | RefreshResponse r resp =>
      match find_request r s with
      | Some _ => st_state (complete_request r ;; fetchAccessToken_resume resp) s
      | None => s
      end
  | LogoutClick => if rendered s then st_state handleLogout s else s
  | LoginClick => if rendered s then st_state handleLoginRedirect s else s
  end.

(** A fresh page: the initial React state over the browser's storage and
    address. *)
Definition initial_sys (st : gmap string string) (l : location) : sys :=
  mk_sys initial_auth (mk_browser st l None [] 0 [] 0) NotMounted.

End Handlers.

(** Run the handlers of a goal symbolically: unfold the handlers, the monad
    and the record projections only (never the map lookups or the
    decoder), and use the hypotheses that decide their branches. *)
Ltac auth_cbv :=
  cbv beta iota zeta delta [initial_sys initial_auth redirect_param dispatch mount mount_effect handleRedirect handleLogout
    fetchAccessToken fetchAccessToken_resume setupTokenRenewal
    handleLoginRedirect set_identity jwt_decode complete_request
    setInterval_renewal axios_post_refresh localStorage_getItem
    localStorage_setItem localStorage_removeItem set_storage
    replaceState_root assign_href find_interval find_request setIsAuthenticated setUsername setEmail
    setId setRefreshToken setAccessToken setIsLoading set_auth set_browser
    fst snd st_state st_outcome st_bind st_ret st_throw st_get st_modify
    auth br phase isAuthenticated username email id refreshToken accessToken
    isLoading storage loc navigation intervals next_handle inflight
    next_request origin pathname search] in *.

Ltac auth_run :=
  auth_cbv;
  repeat match goal with
         | H : ?x = _ |- context [?x] => progress rewrite H; auth_cbv
         end.

Section Theorems.
Context `{JwtDecoder}.

Lemma truthy_nonempty t : t <> "" -> truthy (JStr t) = true.
Proof. apply truthy_str. Qed.

Lemma truthy_empty : truthy (JStr "") = false.
Proof. reflexivity. Qed.

(** C2: a page started with a non-empty refresh token in [localStorage]
    (and none in its address) ends its effect mounted and authenticated,
    with the identity decoded from that token, the token in memory,
    [isLoading] false, one refresh request sent and one renewal interval
    armed for that token; [localStorage] is unchanged. *)
Theorem mount_stored_token (s : sys) (t : string) (o : object) :
  redirect_param s = None ->
  storage (br s) !! "refresh_token" = Some t -> t <> "" ->
  jwtDecode t = Some o ->
  phase (mount s) = Mounted /\
  auth (mount s) = mk_auth true (prop o "username") (prop o "email")
                     (prop o "user_id") t (accessToken (auth s)) false /\
  storage (br (mount s)) = storage (br s) /\
  intervals (br (mount s)) = (intervals (br s) ++ [mk_interval (next_handle (br s)) t])%list /\
  inflight (br (mount s)) =
    (inflight (br s) ++ [mk_request (next_request (br s)) refresh_url t])%list.
Proof.
  intros Hp Hs Ht Hd. apply truthy_nonempty in Ht.
  auth_run. by split_and!.
Qed.

(** C3: a page opened by the post-login redirect with a non-empty
    [refresh_token] parameter stores that token in [localStorage], ends
    authenticated with its claims, rewrites the address to [/] without
    query (so the parameter is gone), and arms renewal for that token. *)
Theorem mount_redirect_token (s : sys) (t : string) (o : object) :
  redirect_param s = Some t -> t <> "" ->
  jwtDecode t = Some o ->
  phase (mount s) = Mounted /\
  auth (mount s) = mk_auth true (prop o "username") (prop o "email")
                     (prop o "user_id") t (accessToken (auth s)) false /\
  storage (br (mount s)) = <["refresh_token" := t]> (storage (br s)) /\
  loc (br (mount s)) = mk_location (origin (loc (br s))) "/" "" /\
  redirect_param (mount s) = None /\
  intervals (br (mount s)) = (intervals (br s) ++ [mk_interval (next_handle (br s)) t])%list /\
  inflight (br (mount s)) =
    (inflight (br s) ++ [mk_request (next_request (br s)) refresh_url t])%list.
Proof.
  intros Hp Ht Hd. apply truthy_nonempty in Ht.
  auth_run. rewrite lookup_insert_eq. auth_cbv. rewrite Ht, Hd. auth_cbv.
  by split_and!.
Qed.

(** C4: when a refresh request in flight completes with a 2xx status, the
    access token of the body replaces the in-memory access token and is
    written to [localStorage] under [access_token]; nothing else of the
    session changes and the request leaves the in-flight list. *)
Theorem refresh_success (s : sys) (r : nat) (q : request) (status : Z) (data : object) :
  find_request r s = Some q -> axios_ok status = true ->
  let s' := dispatch (RefreshResponse r (HttpResponse status data)) s in
  auth s' = mk_auth (isAuthenticated (auth s)) (username (auth s)) (email (auth s))
              (id (auth s)) (refreshToken (auth s)) (prop data "access")
              (isLoading (auth s)) /\
  storage (br s') = <["access_token" := to_string (prop data "access")]> (storage (br s)) /\
  inflight (br s') = filter (fun q => rq_id q <> r) (inflight (br s)) /\
  intervals (br s') = intervals (br s) /\ phase s' = phase s.
Proof. intros Hq Hok. auth_run. by split_and!. Qed.

(** The response of a refresh request is a failure for the code: a
    transport error or a status axios rejects. *)
Definition refresh_failed (resp : http_outcome) : Prop :=
  match resp with
  | NetworkError => True
  | HttpResponse status _ => axios_ok status = false
  end.

(** C5: when a refresh request completes with a transport error or a
    status axios rejects, the session is logged out: not authenticated,
    identity and both tokens cleared in memory, and both [refresh_token]
    and [access_token] absent from [localStorage]. *)
Theorem refresh_failure (s : sys) (r : nat) (q : request) (resp : http_outcome) :
  find_request r s = Some q -> refresh_failed resp ->
  let s' := dispatch (RefreshResponse r resp) s in
  auth s' = mk_auth false (JStr "") (JStr "") JNull "" (JStr "") (isLoading (auth s)) /\
  storage (br s') !! "refresh_token" = None /\
  storage (br s') !! "access_token" = None /\
  phase s' = phase s.
Proof.
  intros Hq Hf. destruct resp as [|status data]; simpl in Hf; auth_run;
    rewrite lookup_delete_eq, lookup_delete_ne, ?lookup_delete_eq by done;
    by split_and!.
Qed.

(** C10: the Login button navigates to the account service with the
    return address in the [redirection] parameter, encoded so that the
    service, parsing the query with URLSearchParams, recovers exactly
    [window.location.origin + "/"]. *)
Theorem login_redirect_roundtrip (s : sys) :
  rendered s = true ->
  exists url, navigation (br (dispatch LoginClick s)) = Some url /\
    Uri.get (Uri.URLSearchParams (Uri.url_search url)) "redirection"
    = Some (origin (loc (br s)) ++ "/").
Proof.
  intros Hr. unfold dispatch. rewrite Hr. eexists; split; [auth_cbv; reflexivity|].
  apply (Uri.url_search_encoded_param dovuchchaLoginUrl "redirection"); vm_compute; done.
Qed.

End Theorems.

(** ** Concrete runs

    A decoder that knows one token, [T1], whose claims are those of the
    specification's scenario (section 8): alice, a@x.com, user 7. *)
Definition demo_claims : object :=
  <["username" := JStr "alice"]> (<["email" := JStr "a@x.com"]>
    (<["user_id" := JNum 7]> ∅)).

#[local] Instance demo_decoder : JwtDecoder :=
  {| jwtDecode t := if String.eqb t "T1" then Some demo_claims else None |}.

Definition demo_location (search : string) : location :=
  mk_location "https://sub.dovuchcha.uz" "/" search.

(** A page opened with [T1] in [localStorage]. *)
Definition demo_stored : sys :=
  initial_sys {["refresh_token" := "T1"]} (demo_location "").

(** A page opened by the post-login redirect carrying [T1]. *)
Definition demo_redirect : sys :=
  initial_sys ∅ (demo_location "?refresh_token=T1").

Lemma mount_stored_token_witness :
  redirect_param demo_stored = None /\
  storage (br demo_stored) !! "refresh_token" = Some "T1" /\
  jwtDecode "T1" = Some demo_claims /\
  auth (mount demo_stored) =
    mk_auth true (JStr "alice") (JStr "a@x.com") (JNum 7) "T1" (JStr "") false.
Proof.
  split_and!; [vm_compute; reflexivity..|].
  apply (mount_stored_token demo_stored "T1" demo_claims); [vm_compute; reflexivity..|done|].
  reflexivity.
Defined.

Lemma mount_redirect_token_witness :
  redirect_param demo_redirect = Some "T1" /\
  loc (br (mount demo_redirect)) = demo_location "" /\
  storage (br (mount demo_redirect)) = {["refresh_token" := "T1"]}.
Proof.
  split_and!; [vm_compute; reflexivity| |].
  - apply (mount_redirect_token demo_redirect "T1" demo_claims);
      [vm_compute; reflexivity|done|reflexivity].
  - apply (mount_redirect_token demo_redirect "T1" demo_claims);
      [vm_compute; reflexivity|done|reflexivity].
Defined.

(** The mounted page of the stored-token scenario, request 0 in flight. *)
Definition demo_mounted : sys := mount demo_stored.

Lemma refresh_success_witness :
  find_request 0 demo_mounted = Some (mk_request 0 refresh_url "T1") /\
  storage (br (dispatch (RefreshResponse 0 (HttpResponse 200 {["access" := JStr "A1"]}))
                 demo_mounted)) !! "access_token" = Some "A1".
Proof.
  split; [vm_compute; reflexivity|].
  rewrite (proj1 (proj2 (refresh_success demo_mounted 0 (mk_request 0 refresh_url "T1")
                           200 {["access" := JStr "A1"]} ltac:(vm_compute; reflexivity)
                           ltac:(reflexivity)))).
  vm_compute. reflexivity.
Defined.

Lemma refresh_failure_witness :
  find_request 0 demo_mounted = Some (mk_request 0 refresh_url "T1") /\
  isAuthenticated (auth (dispatch (RefreshResponse 0 (HttpResponse 401 ∅)) demo_mounted))
    = false.
Proof.
  split; [vm_compute; reflexivity|].
  rewrite (proj1 (refresh_failure demo_mounted 0 (mk_request 0 refresh_url "T1")
                    (HttpResponse 401 ∅) ltac:(vm_compute; reflexivity)
                    ltac:(reflexivity))).
  reflexivity.
Defined.

Lemma login_redirect_roundtrip_witness :
  rendered demo_mounted = true /\
  Uri.get (Uri.URLSearchParams (Uri.url_search
    "https://accounts.dovuchcha.uz/login?redirection=https%3A%2F%2Fsub.dovuchcha.uz%2F"))
    "redirection" = Some "https://sub.dovuchcha.uz/".
Proof.
  split; [vm_compute; reflexivity|].
  destruct (login_redirect_roundtrip demo_mounted ltac:(vm_compute; reflexivity))
    as [url [Hn Hg]].
  vm_compute in Hn. injection Hn as <-. exact Hg.
Defined.

End Auth.
