(* ===== verification/Jwt.v ===== *)
(** * The [jwt-decode] library as the client calls it

    [AuthContext.jsx] calls [jwtDecode(token)] (lines 35 and 83) and reads
    [decoded.username], [decoded.email] and [decoded.user_id].  The library
    (version 4, not part of the repository; modelled from its documented
    code) takes part #2 of the token ([token.split(".")[1]]; part #1 with
    the option [header: true]), decodes it with [base64UrlDecode]
    ([Base64]) and parses it with [JSON.parse] ([Json]), throwing
    [InvalidTokenError] at each step that fails.  It never checks the
    signature (part #3).

    [library_decoder] is this decoder as an instance of [JwtDecoder], so
    every theorem of the development stated for any decoder holds for it.
    [encode_token] writes a token the way an issuer does;
    [library_decode_encode] shows the library reads back its claims
    whatever the signature, which [Views] uses to run the pages on a token
    made up in the browser. *)

From Stdlib Require Import Ascii ZArith.
From stdpp Require Import base strings list gmap.
From S2P Require Import Prelude Js Uri Auth Base64 Json.
Import JsValue.

Open Scope string_scope.

Module Jwt.

(** [jwtDecode(token, options)]: the value [JSON.parse] gives for the
    chosen part, or [None] where the library throws [InvalidTokenError]
    (a missing part, bad base64, bad JSON). *)
Definition jwtDecode_value (header : bool) (token : string) : option Json.json :=
  let pos := if header then 0%nat else 1%nat in
  match nth_error (JsString.split "."%char token) pos with
  | None => None
  | Some part =>
      match Base64.base64UrlDecode part with
      | None => None
      | Some decoded => Json.JSON_parse decoded
      end
  end.

(** What [decoded.username], [decoded.email] and [decoded.user_id] read
    (lines 36-38 and 84-86): the members of an object; a string, number or
    boolean has none of them, so each read is [undefined]; on [null] the
    first read throws [TypeError], which escapes the effect as the
    library's error does. *)
Definition claims_of (v : Json.json) : option object :=
  match v with
  | Json.JObject o => Some o
  | Json.JScalar JNull => None
  | Json.JScalar _ => Some ∅
  end.

(** The decoder the client has: [jwtDecode(token)], without options. *)
#[local] Instance library_decoder : JwtDecoder :=
  {| jwtDecode t := match jwtDecode_value false t with
                    | Some v => claims_of v
                    | None => None
                    end |}.

(** A token as an issuer writes it: a header, the payload (a flat JSON
    object of claims) in base64url, and a signature, joined by dots. *)
Definition encode_token (header : string) (claims : list (string * jsval)) (sig : string) : string :=
  header ++ String "."%char (Base64.b64url_encode (Json.print_object claims) ++ String "."%char sig).

(** ** Decoding what the issuer wrote *)

Lemma avoids_dot_b64url s : JsString.avoids ["."%char] (Base64.b64url_encode s) = true.
Proof.
  pose proof (Base64.b64url_encode_chars s) as Hc.
  induction (Base64.b64url_encode s) as [|c t IH]; [done|].
  simpl in Hc. apply Forall_cons in Hc as [Hc Ht].
  apply JsString.avoids_cons. split; [set_solver|by apply IH].
Qed.

(** The parts of an issued token: its header, its payload, and the pieces
    of its signature. *)
Lemma split_encode_token h claims sig :
  JsString.avoids ["."%char] h = true ->
  JsString.split "."%char (encode_token h claims sig) =
    h :: Base64.b64url_encode (Json.print_object claims) :: JsString.split "."%char sig.
Proof.
  intros Hh. unfold encode_token.
  by rewrite !JsString.split_app_sep by (done || apply avoids_dot_b64url).
Qed.

(** The payload of an issued token is parsed back as its claims, whatever
    its signature. *)
Lemma jwtDecode_value_encode h claims sig :
  JsString.avoids ["."%char] h = true ->
  Forall (fun kv => Json.printable_member kv = true) claims ->
  jwtDecode_value false (encode_token h claims sig) = Some (Json.JObject (Json.object_of claims)).
Proof.
  intros Hh Hp. unfold jwtDecode_value. rewrite split_encode_token by done. simpl.
  rewrite Base64.base64UrlDecode_encode. by apply Json.JSON_parse_print.
Qed.

Lemma library_decode_encode h claims sig :
  JsString.avoids ["."%char] h = true ->
  Forall (fun kv => Json.printable_member kv = true) claims ->
  jwtDecode (encode_token h claims sig) = Some (Json.object_of claims).
Proof.
  intros Hh Hp. cbn [jwtDecode library_decoder]. by rewrite jwtDecode_value_encode.
Qed.

(** ** A token made up in the browser *)

(** [{"alg":"none"}] in base64url. *)
Definition forged_header : string := "eyJhbGciOiJub25lIn0".

Definition forged_claims : list (string * jsval) :=
  [("username", JStr "mallory"); ("email", JStr "m@x.com"); ("user_id", JNum 1)].

(** A token with no signature at all. *)
Definition forged_token : string := encode_token forged_header forged_claims "".

(** The token as text, and what the library makes of it. *)
Example forged_token_decodes :
  forged_token =
    "eyJhbGciOiJub25lIn0.eyJ1c2VybmFtZSI6Im1hbGxvcnkiLCJlbWFpbCI6Im1AeC5jb20iLCJ1c2VyX2lkIjoxfQ." /\
  jwtDecode forged_token = Some (Json.object_of forged_claims).
Proof.
  split; [vm_compute; reflexivity|].
  apply library_decode_encode; [vm_compute; reflexivity|repeat constructor].
Qed.

End Jwt.
