(* ===== verification/Session.v ===== *)
(** * The session as a state machine: invariants, refinement, divergences

    The client's runs are sequences of events of [Auth.dispatch] (the
    effect, interval firings, refresh responses, the Login and Logout
    buttons).  This file defines which events are allowed (the effect runs
    once, [allowed]), the states reachable from a fresh page ([reachable],
    inductive) and runs of events ([run]).  It gives the effect of a
    Logout click and, on [reachable], proves, by rule induction,
    the session invariant of the specification (authenticated exactly when
    a non-empty refresh token is stored, identity decoded from it) and the
    bound on armed intervals; then the refinement of the specification's
    three-state machine; and the behaviours where the code departs from
    the specification (the renewal interval outlives logout, a late
    response is not discarded, a rejected token is persisted and crashes
    every start, the first render comes before the access token, StrictMode
    arms two intervals). *)

From stdpp Require Import base gmap strings list.
From S2P Require Import Prelude Js Uri Auth.
Import JsValue Auth.

Open Scope string_scope.

Module Session.

Section Machine.
Context `{JwtDecoder}.

(** In a production build the effect with deps [[]] runs once. *)
Definition allowed (e : event) (s : sys) : bool :=
  match e with
  | Mount => bool_decide (phase s = NotMounted)
  | _ => true
  end.

(** The states a page reaches from a fresh start by allowed events. *)
Inductive reachable : sys -> Prop :=
| reach_init st l : reachable (initial_sys st l)
| reach_step s e : reachable s -> allowed e s = true -> reachable (dispatch e s).

Fixpoint run (es : list event) (s : sys) : sys :=
  match es with
  | [] => s
  | e :: es' => run es' (dispatch e s)
  end.

End Machine.

(** Unfold a run of concrete events into nested [dispatch]es. *)
Ltac run_cbv := cbv beta iota delta [run] in *.

(** ** The specification's state machine (section 4.1) *)

Inductive abs_state := AUnauthenticated | AInitializing | AAuthenticated.

Inductive abs_step : abs_state -> abs_state -> Prop :=
| abs_init_auth : abs_step AInitializing AAuthenticated
| abs_init_unauth : abs_step AInitializing AUnauthenticated
| abs_logout : abs_step AAuthenticated AUnauthenticated.

(** The abstract state a page is in: initializing until the effect has
    run (and forever if it threw), then authenticated or not. *)
Definition abstraction (s : sys) : abs_state :=
  match phase s with
  | Mounted => if isAuthenticated (auth s) then AAuthenticated else AUnauthenticated
  | NotMounted | Crashed => AInitializing
  end.

Section Refinement.
Context `{JwtDecoder}.

(** Split on an event other than the effect and on the tests its handler
    makes, then run the handler. *)
Ltac event_cases e :=
  destruct e as [|h|r [|status data]| |]; [done|..]; unfold dispatch;
  try destruct (find_interval _ _); try destruct (find_request _ _);
  try destruct (rendered _); auth_cbv; try destruct (axios_ok _); auth_cbv.

(** What a click on Logout leaves on a rendered page ([handleLogout]):
    identity and tokens cleared, the session unauthenticated, both tokens
    removed from [localStorage]. *)
Lemma logout_click_state s :
  rendered s = true ->
  auth (dispatch LogoutClick s) =
    mk_auth false (JStr "") (JStr "") JNull "" (JStr "") (isLoading (auth s)) /\
  storage (br (dispatch LogoutClick s)) =
    delete "access_token" (delete "refresh_token" (storage (br s))).
Proof. intros Hrd. unfold dispatch. rewrite Hrd. destruct s as [[] [] ph]. auth_cbv. by split. Qed.

Lemma phase_dispatch e s : e <> Mount -> phase (dispatch e s) = phase s.
Proof.
  destruct s as [[] [] ph]. intros Hne. event_cases e; done.
Qed.

(** No event but the effect authenticates a session. *)
Lemma dispatch_authenticated e s :
  e <> Mount -> isAuthenticated (auth (dispatch e s)) = true ->
  isAuthenticated (auth s) = true.
Proof.
  destruct s as [[] [] ph]. intros Hne. event_cases e; by intros.
Qed.

Lemma mount_phase s : phase (mount s) = Mounted \/ phase (mount s) = Crashed.
Proof. unfold mount. destruct (mount_effect s) as [? []]; auto. Qed.

(** C7: every step of the client is a step of the specification's
    three-state machine or leaves the abstract state unchanged; in
    particular no event turns a logged-out page into a logged-in one. *)
Theorem session_refines_spec (e : event) (s : sys) :
  allowed e s = true ->
  abstraction (dispatch e s) = abstraction s \/
  abs_step (abstraction s) (abstraction (dispatch e s)).
Proof.
  intros Ha. destruct (decide (e = Mount)) as [->|Hne].
  - apply bool_decide_eq_true in Ha. unfold abstraction. rewrite Ha.
    simpl dispatch. destruct (mount_phase s) as [->| ->]; [|by left].
    right. destruct (isAuthenticated _); constructor.
  - unfold abstraction. rewrite (phase_dispatch e s Hne).
    destruct (phase s); [by left| |by left].
    destruct (isAuthenticated (auth (dispatch e s))) eqn:Ha'.
    + rewrite (dispatch_authenticated e s Hne Ha'). by left.
    + destruct (isAuthenticated (auth s)); [right; constructor|by left].
Qed.

End Refinement.

Section Invariant.
Context `{JwtDecoder}.

(** The specification's session invariant (section 3). *)
Definition session_ok (s : sys) : Prop :=
  (isAuthenticated (auth s) = true <->
     exists t, storage (br s) !! "refresh_token" = Some t /\ t <> "") /\
  (isAuthenticated (auth s) = true ->
     storage (br s) !! "refresh_token" = Some (refreshToken (auth s)) /\
     exists o, jwtDecode (refreshToken (auth s)) = Some o /\
       username (auth s) = prop o "username" /\ email (auth s) = prop o "email" /\
       id (auth s) = prop o "user_id").

(** The inductive invariant, by phase. *)
Definition inv (s : sys) : Prop :=
  length (intervals (br s)) <= 1 /\
  match phase s with
  | NotMounted => auth s = initial_auth /\ intervals (br s) = [] /\ inflight (br s) = []
  | Mounted => isLoading (auth s) = false /\ session_ok s
  | Crashed => intervals (br s) = []
  end.

Lemma truthy_str_false t : truthy (JStr t) = false -> t = "".
Proof. simpl. rewrite negb_false_iff. by intros ?%String.eqb_eq. Qed.

(** Decide the branches of a handler: destruct its pending tests, turn the
    truthiness tests into (in)equalities, and compute the lookups. *)
Ltac branch :=
  repeat (case_match; auth_cbv);
  repeat match goal with
         | Ht : truthy (JStr _) = true |- _ => apply truthy_str in Ht
         | Ht : truthy (JStr _) = false |- _ => apply truthy_str_false in Ht; subst
         end;
  simplify_map_eq.

Ltac close_inv :=
  unfold inv, session_ok in *; auth_cbv; simplify_map_eq;
  repeat split; simpl; try lia; naive_solver.

Lemma inv_mount s :
  phase s = NotMounted -> inv s -> inv (mount s).
Proof.
  destruct s as [a [st l nav ivs nh fl nr] ph].
  intros Hph (_ & Hinv). simpl in Hph, Hinv. subst ph.
  destruct Hinv as (-> & -> & ->). auth_cbv. branch. all: close_inv.
Qed.

Lemma inv_tick s h : inv s -> inv (dispatch (Tick h) s).
Proof.
  destruct s as [[] [st l nav ivs nh fl nr] ph]. intros [Hlen Hph].
  unfold dispatch, find_interval. simpl in *.
  destruct ph; destruct_and?; subst; simpl; repeat case_match; auth_cbv.
  all: close_inv.
Qed.

Lemma inv_response s r resp : inv s -> inv (dispatch (RefreshResponse r resp) s).
Proof.
  destruct s as [[] [st l nav ivs nh fl nr] ph]. intros [Hlen Hph].
  unfold dispatch, find_request. simpl in *.
  destruct ph; destruct_and?; subst; simpl; repeat case_match; auth_cbv; branch;
    close_inv.
Qed.

Lemma inv_click s e :
  e = LogoutClick \/ e = LoginClick -> inv s -> inv (dispatch e s).
Proof.
  destruct s as [[] [st l nav ivs nh fl nr] ph]. intros He [Hlen Hph].
  destruct He as [->| ->]; unfold dispatch, rendered; simpl in *;
    destruct ph; destruct_and?; subst; simpl; repeat case_match; auth_cbv; close_inv.
Qed.

Lemma inv_step s e : allowed e s = true -> inv s -> inv (dispatch e s).
Proof.
  destruct e; intros Ha Hi.
  - apply inv_mount; [|done]. by apply bool_decide_eq_true in Ha.
  - by apply inv_tick.
  - by apply inv_response.
  - apply inv_click; auto.
  - apply inv_click; auto.
Qed.

Lemma reachable_inv s : reachable s -> inv s.
Proof.
  induction 1 as [st l|s e _ IH Ha]; [|by apply inv_step].
  split; simpl; [lia|done].
Qed.

(** C1: in every reachable state of a mounted page, the session is
    authenticated exactly when [localStorage] holds a non-empty refresh
    token, and then the in-memory token is that stored token and the
    identity (username, email, id) is the decoded claims of it. *)
Theorem session_invariant (s : sys) :
  reachable s -> phase s = Mounted ->
  (isAuthenticated (auth s) = true <->
     exists t, storage (br s) !! "refresh_token" = Some t /\ t <> "") /\
  (isAuthenticated (auth s) = true ->
     storage (br s) !! "refresh_token" = Some (refreshToken (auth s)) /\
     exists o, jwtDecode (refreshToken (auth s)) = Some o /\
       username (auth s) = prop o "username" /\ email (auth s) = prop o "email" /\
       id (auth s) = prop o "user_id").
Proof.
  intros Hr Hm. destruct (reachable_inv s Hr) as [_ Hi]. rewrite Hm in Hi.
  apply Hi.
Qed.

(** C8: in every reachable state at most one renewal interval is armed:
    the effect that arms it runs once in a production build. *)
Theorem renewal_interval_bound (s : sys) :
  reachable s -> length (intervals (br s)) <= 1.
Proof. intros Hr. apply (reachable_inv s Hr). Qed.

(** Facts of a reachable mounted page, from the session invariant: the
    form in which the pages use it. *)
Lemma mounted_session (s : sys) :
  reachable s -> phase s = Mounted ->
  (isAuthenticated (auth s) = true <->
     exists t, storage (br s) !! "refresh_token" = Some t /\ t <> "") /\
  (isAuthenticated (auth s) = true ->
     exists o, jwtDecode (refreshToken (auth s)) = Some o /\
       username (auth s) = prop o "username" /\ email (auth s) = prop o "email" /\
       id (auth s) = prop o "user_id").
Proof.
  intros Hr Hm. destruct (reachable_inv s Hr) as [_ Hi]. rewrite Hm in Hi.
  destruct Hi as [_ [Hiff Hid]]. split; [done|].
  intros Ha. destruct (Hid Ha) as [_ (o & Hd & Hu & He & Hid')]. by exists o.
Qed.

Lemma rendered_mounted (s : sys) : rendered s = true -> phase s = Mounted.
Proof.
  unfold rendered. intros [Hm _]%andb_true_iff. by apply bool_decide_eq_true in Hm.
Qed.

End Invariant.

(** ** Where the code departs from the specification *)

Section Divergences.
Context `{JwtDecoder}.

(** C9: logging out does not cancel the renewal interval, and the code
    has no guard against a response arriving for a logged-out session:
    after Logout, the interval still fires with the old refresh token, and
    a successful answer stores a fresh access token in memory and in
    [localStorage] while the session is unauthenticated. *)
Theorem renewal_survives_logout (s : sys) (h : nat) (iv : interval) (data : object) :
  rendered s = true -> find_interval h s = Some iv ->
  let s1 := run [LogoutClick] s in
  let s3 := run [LogoutClick; Tick h;
                 RefreshResponse (next_request (br s)) (HttpResponse 200 data)] s in
  intervals (br s1) = intervals (br s) /\
  isAuthenticated (auth s3) = false /\
  storage (br s3) !! "refresh_token" = None /\
  storage (br s3) !! "access_token" = Some (to_string (prop data "access")) /\
  accessToken (auth s3) = prop data "access".
Proof.
  destruct s as [[] [st l nav ivs nh fl nr] ph]. intros Hr Hf. run_cbv.
  unfold dispatch. rewrite Hr. auth_cbv. rewrite Hf. auth_cbv.
  destruct (find_app_singleton (fun q => Nat.eqb (rq_id q) nr) fl
              (mk_request nr refresh_url (iv_token iv))) as [q ->];
    [apply Nat.eqb_refl|].
  auth_cbv. simplify_map_eq. by split_and!.
Qed.

(** C11: a token the decoder rejects, delivered by the redirect, is written
    to [localStorage] before it is decoded; the effect then throws, so the
    page never renders, and every later start of the client on that
    storage throws again. *)
Theorem rejected_token_persists (s : sys) (t : string) :
  redirect_param s = Some t -> t <> "" -> jwtDecode t = None ->
  phase (run [Mount] s) = Crashed /\
  isLoading (auth (run [Mount] s)) = isLoading (auth s) /\
  storage (br (run [Mount] s)) !! "refresh_token" = Some t /\
  forall l : location, Uri.get (Uri.URLSearchParams (search l)) "refresh_token" = None ->
    phase (run [Mount] (initial_sys (storage (br (run [Mount] s))) l)) = Crashed.
Proof.
  intros Hp Ht Hd. run_cbv. pose proof (truthy_nonempty t Ht) as Htr.
  split_and!; [auth_run; by simplify_map_eq..|].
  intros l Hl. run_cbv.
  assert (Hl' : redirect_param (initial_sys (storage (br (dispatch Mount s))) l) = None)
    by exact Hl.
  auth_run. rewrite lookup_insert_eq. auth_cbv. by rewrite Htr, Hd.
Qed.

(** C12: the provider renders its children ([isLoading] false) with an
    authenticated session before the first access token has arrived: the
    refresh request is still in flight and [accessToken] is still the
    initial empty string. *)
Theorem first_render_before_access_token
    (st : gmap string string) (l : location) (t : string) (o : object) :
  Uri.get (Uri.URLSearchParams (search l)) "refresh_token" = None ->
  st !! "refresh_token" = Some t -> t <> "" -> jwtDecode t = Some o ->
  let s := run [Mount] (initial_sys st l) in
  rendered s = true /\ isAuthenticated (auth s) = true /\
  accessToken (auth s) = JStr "" /\ inflight (br s) = [mk_request 0 refresh_url t].
Proof.
  intros Hl Hs Ht Hd. run_cbv. apply truthy_nonempty in Ht.
  assert (Hl' : redirect_param (initial_sys st l) = None) by exact Hl.
  auth_run. by split_and!.
Qed.

(** C13: React's StrictMode (main.jsx) runs the effect twice in a
    development build; the effect has no cleanup, so two renewal intervals
    and two refresh requests are left for the same token. *)
Theorem strict_mode_two_intervals
    (st : gmap string string) (l : location) (t : string) (o : object) :
  Uri.get (Uri.URLSearchParams (search l)) "refresh_token" = None ->
  st !! "refresh_token" = Some t -> t <> "" -> jwtDecode t = Some o ->
  let s := run [Mount; Mount] (initial_sys st l) in
  intervals (br s) = [mk_interval 0 t; mk_interval 1 t] /\
  inflight (br s) = [mk_request 0 refresh_url t; mk_request 1 refresh_url t] /\
  phase s = Mounted.
Proof.
  intros Hl Hs Ht Hd. run_cbv. apply truthy_nonempty in Ht.
  assert (Hl' : redirect_param (initial_sys st l) = None) by exact Hl.
  auth_run. by split_and!.
Qed.

End Divergences.

(** ** Concrete runs, with the decoder of the specification's scenario *)

Section Witnesses.
#[local] Existing Instance demo_decoder.

Lemma reachable_demo_mounted : reachable demo_mounted.
Proof.
  apply (reach_step demo_stored Mount); [apply reach_init|vm_compute; reflexivity].
Qed.

Lemma session_invariant_witness :
  reachable demo_mounted /\ phase demo_mounted = Mounted /\
  storage (br demo_mounted) !! "refresh_token" = Some (refreshToken (auth demo_mounted)).
Proof.
  split_and!; [apply reachable_demo_mounted|vm_compute; reflexivity|].
  apply (session_invariant demo_mounted reachable_demo_mounted);
    vm_compute; reflexivity.
Defined.

Lemma renewal_interval_bound_witness :
  reachable demo_mounted /\ length (intervals (br demo_mounted)) <= 1.
Proof.
  split; [apply reachable_demo_mounted|].
  exact (renewal_interval_bound demo_mounted reachable_demo_mounted).
Defined.

Lemma session_refines_spec_witness :
  allowed Mount demo_stored = true /\
  (abstraction (dispatch Mount demo_stored) = abstraction demo_stored \/
   abs_step (abstraction demo_stored) (abstraction (dispatch Mount demo_stored))).
Proof.
  split; [vm_compute; reflexivity|].
  apply session_refines_spec. vm_compute. reflexivity.
Defined.

(** The body of a successful refresh response carrying [A2]. *)
Definition demo_access : object := {["access" := JStr "A2"]}.

Lemma renewal_survives_logout_witness :
  rendered demo_mounted = true /\
  find_interval 0 demo_mounted = Some (mk_interval 0 "T1") /\
  storage (br (run [LogoutClick; Tick 0;
                    RefreshResponse (next_request (br demo_mounted)) (HttpResponse 200 demo_access)]
                demo_mounted)) !! "access_token"
  = Some (to_string (prop demo_access "access")).
Proof.
  split_and!; [vm_compute; reflexivity..|].
  exact (proj1 (proj2 (proj2 (proj2
    (renewal_survives_logout demo_mounted 0 (mk_interval 0 "T1") demo_access
       ltac:(vm_compute; reflexivity) ltac:(vm_compute; reflexivity)))))).
Defined.

(** A page opened by a redirect whose token the decoder rejects. *)
Definition demo_bad_redirect : sys :=
  initial_sys ∅ (demo_location "?refresh_token=BAD").

Lemma rejected_token_persists_witness :
  redirect_param demo_bad_redirect = Some "BAD" /\ jwtDecode "BAD" = None /\
  phase (run [Mount] (initial_sys (storage (br (run [Mount] demo_bad_redirect))) (demo_location "")))
  = Crashed.
Proof.
  split_and!; [vm_compute; reflexivity..|].
  exact (proj2 (proj2 (proj2
    (rejected_token_persists demo_bad_redirect "BAD"
       ltac:(vm_compute; reflexivity) ltac:(done) ltac:(reflexivity))))
    (demo_location "") ltac:(vm_compute; reflexivity)).
Defined.

(** A page opened with [T1] stored. *)
Definition demo_store : gmap string string := {["refresh_token" := "T1"]}.

Lemma first_render_before_access_token_witness :
  demo_store !! "refresh_token" = Some "T1" /\
  accessToken (auth (run [Mount] (initial_sys demo_store (demo_location "")))) = JStr "".
Proof.
  split; [vm_compute; reflexivity|].
  exact (proj1 (proj2 (proj2
    (first_render_before_access_token demo_store (demo_location "") "T1" demo_claims
       ltac:(vm_compute; reflexivity) ltac:(vm_compute; reflexivity) ltac:(done)
       ltac:(reflexivity))))).
Defined.

Lemma strict_mode_two_intervals_witness :
  jwtDecode "T1" = Some demo_claims /\
  intervals (br (run [Mount; Mount] (initial_sys demo_store (demo_location "")))) =
    [mk_interval 0 "T1"; mk_interval 1 "T1"].
Proof.
  split; [reflexivity|].
  exact (proj1 (strict_mode_two_intervals demo_store (demo_location "") "T1" demo_claims
    ltac:(vm_compute; reflexivity) ltac:(vm_compute; reflexivity) ltac:(done)
    ltac:(reflexivity))).
Defined.

End Witnesses.

End Session.
