(* ===== verification/Requests.v ===== *)
(** * Timers and requests: the bookkeeping of AuthContext.jsx

    Besides its React state, [AuthProvider] leaves two kinds of pending work
    in the browser: the intervals armed by [setupTokenRenewal] (line 60)
    and the refresh requests sent by [fetchAccessToken] (line 47) whose
    response has not arrived.  Most handlers never touch them: Section
    [Framed] proves, once for every property of the browser that reads only
    these lists and their counters, that [handleRedirect], [handleLogout],
    [handleLoginRedirect] and the code after [await] keep it.  On top of
    this: answering every pending request, in any order and with any
    outcome, leaves none pending, since no handler of a response sends a
    request; and of two renewal calls in flight, the one completing last sets the access
    token, whatever the order. *)

From stdpp Require Import base gmap strings list.
From S2P Require Import Prelude Js Uri Auth Session.
Import JsValue Auth Session.

Open Scope string_scope.

Module Requests.

(** The fields of the browser that hold the pending work. *)
Definition same_books (b b' : browser) : Prop :=
  intervals b' = intervals b /\ next_handle b' = next_handle b /\
  inflight b' = inflight b /\ next_request b' = next_request b.

(** A property of the browser that reads only those fields. *)
Definition framed (Q : browser -> Prop) : Prop :=
  forall b b', same_books b b' -> Q b -> Q b'.

Definition on_br (Q : browser -> Prop) (s : sys) : Prop := Q (br s).

Section Framed.
Context `{JwtDecoder} (Q : browser -> Prop) (HQ : framed Q).

Lemma set_auth_books f : preserves (on_br Q) (set_auth f).
Proof. intros s Hs. exact Hs. Qed.

Lemma set_browser_books f :
  (forall b, same_books b (f b)) -> preserves (on_br Q) (set_browser f).
Proof. intros Hf s Hs. exact (HQ (br s) _ (Hf (br s)) Hs). Qed.

#[local] Hint Resolve set_auth_books set_browser_books : preserves.
#[local] Hint Extern 1 (same_books _ _) => split_and!; reflexivity : preserves.

Lemma handleRedirect_books : preserves (on_br Q) handleRedirect.
Proof. preserves_solve. Qed.

Lemma handleLogout_books : preserves (on_br Q) handleLogout.
Proof. preserves_solve. Qed.

Lemma handleLoginRedirect_books : preserves (on_br Q) handleLoginRedirect.
Proof. preserves_solve. Qed.

Lemma fetchAccessToken_resume_books resp :
  preserves (on_br Q) (fetchAccessToken_resume resp).
Proof. preserves_solve. Qed.

End Framed.

(** ** Requests settle *)

Lemma inflight_framed L : framed (fun b => inflight b = L).
Proof. intros b b' (_ & _ & E & _) <-. exact E. Qed.

(** A response removes its request, whatever its outcome, and sends none:
    the code after [await] only sets state, [localStorage], or logs out. *)
Lemma dispatch_response_inflight `{JwtDecoder} r resp s :
  inflight (br (dispatch (RefreshResponse r resp) s)) =
  filter (fun q => rq_id q <> r) (inflight (br s)).
Proof.
  unfold dispatch. destruct (find_request r s) eqn:Hf.
  - cbv [st_state st_bind complete_request set_browser st_modify].
    exact (fetchAccessToken_resume_books _ (inflight_framed _) resp _ eq_refl).
  - symmetry. by apply filter_find_none.
Qed.

(** The events of a list of answers: request id and outcome. *)
Definition answer (rs : list (nat * http_outcome)) : list event :=
  (fun '(r, resp) => RefreshResponse r resp) <$> rs.

Lemma run_answer_inflight `{JwtDecoder} rs s :
  inflight (br (run (answer rs) s)) = filter (fun q => rq_id q ∉ rs.*1) (inflight (br s)).
Proof.
  induction rs as [|[r resp] rs IH] in s |- *.
  - symmetry. apply filter_all, Forall_forall. intros q _. apply not_elem_of_nil.
  - change (run (answer ((r, resp) :: rs)) s)
      with (run (answer rs) (dispatch (RefreshResponse r resp) s)).
    rewrite IH, dispatch_response_inflight, list_filter_filter.
    apply list_filter_iff. intros q. simpl. rewrite not_elem_of_cons. tauto.
Qed.

(** A response leaves the other pending requests where they were. *)
Lemma find_request_after_response `{JwtDecoder} r1 r2 resp s q2 :
  r1 <> r2 -> find_request r2 s = Some q2 ->
  find_request r2 (dispatch (RefreshResponse r1 resp) s) = Some q2.
Proof.
  intros Hne Hf. unfold find_request in *. rewrite dispatch_response_inflight.
  apply find_filter; [done|]. apply List.find_some in Hf as [_ Hq%Nat.eqb_eq]. congruence.
Qed.

Section Claims.
Context `{JwtDecoder}.

(** C27: every pending refresh request settles once it is answered:
    answering all of them, in any order and with any outcomes (success,
    rejected status, transport failure), leaves no request pending, since
    no handler of a response sends a new one. *)
Theorem answering_settles (s : sys) (rs : list (nat * http_outcome)) :
  Forall (fun q => rq_id q ∈ rs.*1) (inflight (br s)) ->
  inflight (br (run (answer rs) s)) = [].
Proof.
  intros Hall. rewrite run_answer_inflight. apply filter_none.
  eapply Forall_impl; [exact Hall|]. simpl. tauto.
Qed.

(** C36: two renewal calls may be in flight at once and complete in
    either order; the one that completes last decides the access token, in
    memory and in [localStorage] (last write wins, which the specification
    accepts for out-of-order completion). *)
Theorem last_response_wins (s : sys) (r1 r2 : nat) (q2 : request) (d1 d2 : object) :
  r1 <> r2 -> find_request r2 s = Some q2 ->
  let s' := run (answer [(r1, HttpResponse 200 d1); (r2, HttpResponse 200 d2)]) s in
  accessToken (auth s') = prop d2 "access" /\
  storage (br s') !! "access_token" = Some (to_string (prop d2 "access")).
Proof.
  intros Hne Hf. cbv zeta.
  change (run _ s) with (dispatch (RefreshResponse r2 (HttpResponse 200 d2))
                           (dispatch (RefreshResponse r1 (HttpResponse 200 d1)) s)).
  pose proof (find_request_after_response r1 r2 (HttpResponse 200 d1) s q2 Hne Hf) as Hf'.
  remember (dispatch (RefreshResponse r1 (HttpResponse 200 d1)) s) as s1 eqn:E. clear E.
  assert (Hok : axios_ok 200 = true) by reflexivity.
  unfold dispatch. rewrite Hf'. destruct s1 as [[] [] ph]. auth_run.
  split; [done|]. by simplify_map_eq.
Qed.

End Claims.

Section Witnesses.
#[local] Existing Instance demo_decoder.

Lemma answering_settles_witness :
  Forall (fun q => rq_id q ∈ [(0, NetworkError)].*1) (inflight (br demo_mounted)) /\
  inflight (br (run (answer [(0, NetworkError)]) demo_mounted)) = [].
Proof.
  assert (Hall : Forall (fun q => rq_id q ∈ [(0, NetworkError)].*1) (inflight (br demo_mounted)))
    by (vm_compute; repeat constructor).
  exact (conj Hall (answering_settles demo_mounted [(0, NetworkError)] Hall)).
Defined.

(** The demo page after its interval fired once: requests 0 and 1 pending. *)
Definition demo_two_pending : sys := dispatch (Tick 0) demo_mounted.

Lemma last_response_wins_witness :
  find_request 0 demo_two_pending = Some (mk_request 0 refresh_url "T1") /\
  accessToken (auth (run (answer [(1, HttpResponse 200 {["access" := JStr "A2"]});
                                 (0, HttpResponse 200 {["access" := JStr "A1"]})])
                       demo_two_pending)) = JStr "A1".
Proof.
  split; [vm_compute; reflexivity|].
  exact (proj1 (last_response_wins demo_two_pending 1 0 (mk_request 0 refresh_url "T1")
    {["access" := JStr "A2"]} {["access" := JStr "A1"]} ltac:(done)
    ltac:(vm_compute; reflexivity))).
Defined.

End Witnesses.

End Requests.
