(* ===== verification/Scenarios.v ===== *)
(** * The scenarios of the specification, as runs of the client

    Section 8 of the specification lists three scenarios for the session
    manager.  Each is stated here as a run of [Session.run] over the events
    of [Auth.dispatch], from a page initialized ([initialize]) with the
    scenario's storage and an address without a [refresh_token] parameter,
    for any JWT decoder that decodes the scenario's token to its claims. *)

From stdpp Require Import base gmap strings list.
From S2P Require Import Prelude Js Uri Auth Session.
Import JsValue Auth Session.

Open Scope string_scope.

Module Scenarios.

(** The storage of the first and third scenarios. *)
Definition stored_T1 : gmap string string := {["refresh_token" := "T1"]}.

(** What the refresh endpoint answers in the first scenario. *)
Definition access_A1 : object := {["access" := JStr "A1"]}.

(** The specification's [initialize()]: a fresh page over the storage and
    address, on which React runs the effect of [AuthProvider]. *)
Definition initialize `{JwtDecoder} (st : gmap string string) (l : location) : sys :=
  run [Mount] (initial_sys st l).

(** Compute the lookups of the first request in a concrete list. *)
Ltac find_cbv := cbv beta iota delta [List.find app Nat.eqb rq_id] in *.

Section Scenarios.
Context `{JwtDecoder} (l : location).
Hypothesis no_param : Uri.get (Uri.URLSearchParams (search l)) "refresh_token" = None.

Lemma no_param_initial st : redirect_param (initial_sys st l) = None.
Proof. exact no_param. Qed.

Lemma stored_T1_lookup : stored_T1 !! "refresh_token" = Some "T1".
Proof. reflexivity. Qed.

(** Run the effect on [stored_T1] and then the response to its request. *)
Ltac run_T1 :=
  pose proof (no_param_initial stored_T1) as Hp; pose proof stored_T1_lookup as Hst;
  pose proof (truthy_nonempty "T1" ltac:(done)) as Ht;
  unfold initialize; run_cbv; auth_run; find_cbv; auth_run.

(** C28: the specification's first scenario: with [T1] stored, decoding to
    alice's claims, and the refresh endpoint answering [access: "A1"], the
    client ends authenticated as alice with [A1] as its access token, in
    memory and in [localStorage]. *)
Theorem scenario_stored_T1 (o : object) :
  jwtDecode "T1" = Some o -> prop o "username" = JStr "alice" ->
  let s := run [RefreshResponse 0 (HttpResponse 200 access_A1)] (initialize stored_T1 l) in
  isAuthenticated (auth s) = true /\ username (auth s) = JStr "alice" /\
  accessToken (auth s) = JStr "A1" /\ storage (br s) !! "access_token" = Some "A1".
Proof.
  intros Hd Hu. assert (Hok : axios_ok 200 = true) by reflexivity.
  run_T1. by simplify_map_eq.
Qed.

(** C29: the second scenario: with no stored token and no redirect
    parameter, the effect leaves the client unauthenticated and rendered,
    with no network call made and no interval armed. *)
Theorem scenario_no_credential (st : gmap string string) :
  st !! "refresh_token" = None ->
  let s := initialize st l in
  isAuthenticated (auth s) = false /\ rendered s = true /\
  inflight (br s) = [] /\ intervals (br s) = [] /\ storage (br s) = st.
Proof.
  intros Hs. pose proof (no_param_initial st) as Hp. unfold initialize. run_cbv. auth_run. by split_and!.
Qed.

(** C30: the third scenario: with [T1] stored and the refresh endpoint
    answering 401, once the response has arrived the client is
    unauthenticated and [localStorage] is empty. *)
Theorem scenario_refresh_401 (o : object) (data : object) :
  jwtDecode "T1" = Some o ->
  let s := run [RefreshResponse 0 (HttpResponse 401 data)] (initialize stored_T1 l) in
  isAuthenticated (auth s) = false /\ storage (br s) = ∅.
Proof.
  intros Hd. assert (Hok : axios_ok 401 = false) by reflexivity.
  run_T1. split; [done|].
  unfold stored_T1. rewrite delete_singleton. apply delete_empty.
Qed.

(** C6: a logout survives a reload: after Logout on a rendered page, a
    fresh page over the same [localStorage] (at an address without a
    [refresh_token] parameter) starts unauthenticated, sends no refresh
    request and arms no interval. *)
Theorem logout_survives_reload (s : sys) :
  rendered s = true ->
  let s' := initialize (storage (br (dispatch LogoutClick s))) l in
  isAuthenticated (auth s') = false /\ inflight (br s') = [] /\ intervals (br s') = [].
Proof.
  intros Hrd. assert (Hs : storage (br (dispatch LogoutClick s)) !! "refresh_token" = None).
  { rewrite (proj2 (logout_click_state s Hrd)). by simplify_map_eq. }
  remember (storage (br (dispatch LogoutClick s))) as st eqn:E. clear E.
  pose proof (no_param_initial st) as Hp. unfold initialize. run_cbv. auth_run. by split_and!.
Qed.

End Scenarios.

(** ** The scenarios with the decoder of the specification *)

Section Witnesses.
#[local] Existing Instance demo_decoder.

Lemma scenario_stored_T1_witness :
  Uri.get (Uri.URLSearchParams (search (demo_location ""))) "refresh_token" = None /\
  jwtDecode "T1" = Some demo_claims /\
  accessToken (auth (run [RefreshResponse 0 (HttpResponse 200 access_A1)]
                        (initialize stored_T1 (demo_location "")))) = JStr "A1".
Proof.
  split_and!; [vm_compute; reflexivity|reflexivity|].
  exact (proj1 (proj2 (proj2 (scenario_stored_T1 (demo_location "")
    ltac:(vm_compute; reflexivity) demo_claims eq_refl ltac:(vm_compute; reflexivity))))).
Defined.

Lemma scenario_no_credential_witness :
  (∅ : gmap string string) !! "refresh_token" = None /\
  inflight (br (initialize ∅ (demo_location ""))) = [].
Proof.
  split; [reflexivity|].
  exact (proj1 (proj2 (proj2 (scenario_no_credential (demo_location "")
    ltac:(vm_compute; reflexivity) ∅ eq_refl)))).
Defined.

Lemma scenario_refresh_401_witness :
  jwtDecode "T1" = Some demo_claims /\
  storage (br (run [RefreshResponse 0 (HttpResponse 401 ∅)]
                 (initialize stored_T1 (demo_location "")))) = ∅.
Proof.
  split; [reflexivity|].
  exact (proj2 (scenario_refresh_401 (demo_location "")
    ltac:(vm_compute; reflexivity) demo_claims ∅ eq_refl)).
Defined.

Lemma logout_survives_reload_witness :
  rendered demo_mounted = true /\
  isAuthenticated (auth (initialize (storage (br (dispatch LogoutClick demo_mounted)))
                           (demo_location ""))) = false.
Proof.
  split; [vm_compute; reflexivity|].
  exact (proj1 (logout_survives_reload (demo_location "") ltac:(vm_compute; reflexivity)
    demo_mounted ltac:(vm_compute; reflexivity))).
Defined.

End Witnesses.

End Scenarios.
