(* ===== verification/Fetch.v ===== *)
(** * Fetching the subdomain list: Home.jsx and Profile.jsx

    [Home] ([fetchSubdomains], lines 13-30) and [Profile]
    ([fetchUserSubdomains], lines 22-37) run the same code: [fetch] a URL,
    throw on a status that is not [ok], parse the JSON body into the list,
    catch any error into [error], and in [finally] clear [isLoading].  The
    view then shows a loading text, the error, or the list.  A response is
    an input: a transport failure, or a status with a body that parses to
    the list or does not parse.  The API's entries are records with string
    fields (the schema of the REST API). *)

From stdpp Require Import base strings list pretty.
From S2P Require Import Prelude Js.

Open Scope string_scope.

Module Fetch.

(** A subdomain as the API returns it. *)
Record subdomain := mk_subdomain {
  name : string;
  purpose : string;
  status : string
}.

#[export] Instance subdomain_eq_dec : EqDecision subdomain.
Proof. solve_decision. Defined.

(** The outcome of [fetch(url)] and [response.json()]: [None] for a body
    that does not parse. *)
Inductive fetch_result :=
| FetchNetworkError
| FetchResponse (status : Z) (body : option (list subdomain)).

(** [response.ok]: a status in 200-299. *)
Definition response_ok (status : Z) : bool := (200 <=? status)%Z && (status <? 300)%Z.

(** A JavaScript exception: an [Error] with its message, or a
    [ReferenceError] for an identifier that is not bound. *)
Inductive js_exn :=
| JsError (message : string)
| ReferenceError (ident : string).

Definition exn_message (e : js_exn) : string :=
  match e with
  | JsError m => m
  | ReferenceError x => x ++ " is not defined"
  end.

(** The awaited part shared by every fetch of the list (lines 16-23 of
    Home.jsx): the network failure as [fetch] rejects it, the [!response.ok]
    test with its message, and [response.json()]. *)
Definition fetch_data {S} (r : fetch_result) : stexc S js_exn (list subdomain) :=
  match r with
  | FetchNetworkError => st_throw (JsError "Failed to fetch")
  | FetchResponse st body =>
      if negb (response_ok st) then st_throw (JsError ("HTTP error! Status: " ++ pretty st))
      else match body with
           | Some data => st_ret data
           | None => st_throw (JsError "Unexpected end of JSON input")
           end
  end.

(** The state of a page that lists subdomains: [useState([])],
    [useState(true)], [useState(null)]. *)
Record list_view := mk_view {
  subdomains : list subdomain;
  isLoading : bool;
  error : option string
}.

Definition initial_view : list_view := mk_view [] true None.

Definition setSubdomains {E} (l : list subdomain) : stexc list_view E unit :=
  st_modify (fun v => mk_view l (isLoading v) (error v)).
Definition setIsLoading {E} (b : bool) : stexc list_view E unit :=
  st_modify (fun v => mk_view (subdomains v) b (error v)).
Definition setError {E} (m : string) : stexc list_view E unit :=
  st_modify (fun v => mk_view (subdomains v) (isLoading v) (Some m)).

Local Open Scope js_scope.

(** [fetchSubdomains] of Home.jsx (lines 14-27), identical to
    [fetchUserSubdomains] of Profile.jsx (lines 22-35). *)
Definition fetchSubdomains (r : fetch_result) : stexc list_view js_exn unit :=
  st_finally
    (st_catch (data <- fetch_data r ;; setSubdomains data)
              (fun err => setError (exn_message err)))
    (setIsLoading false).

(** What the page shows in place of the list (Home.jsx lines 93-99,
    Profile.jsx lines 136-172). *)
Inductive list_display :=
| ShowLoading
| ShowError (message : string)
| ShowList (items : list subdomain).

Definition display (v : list_view) : list_display :=
  if isLoading v then ShowLoading
  else match error v with
       | Some m => ShowError m
       | None => ShowList (subdomains v)
       end.

(** *** Lemmas *)

(** The message of the error a response makes the code throw, if any. *)
Definition fetch_error_message (r : fetch_result) : option string :=
  match r with
  | FetchNetworkError => Some "Failed to fetch"
  | FetchResponse st body =>
      if negb (response_ok st) then Some ("HTTP error! Status: " ++ pretty st)
      else match body with
           | Some _ => None
           | None => Some "Unexpected end of JSON input"
           end
  end.

Lemma fetch_data_error {S} (r : fetch_result) (m : string) (s : S) :
  fetch_error_message r = Some m -> fetch_data r s = (s, inl (JsError m)).
Proof.
  destruct r as [|st [data|]]; simpl; intros Hm; [by simplify_eq|..];
    destruct (response_ok st); simpl in *; by simplify_eq.
Qed.

Lemma fetch_data_success {S} (r : fetch_result) (s : S) :
  fetch_error_message r = None ->
  exists st data, r = FetchResponse st (Some data) /\ fetch_data r s = (s, inr data).
Proof.
  destruct r as [|st [data|]]; simpl; intros Hm; [done| |];
    destruct (response_ok st) eqn:Hok; simpl in *; try done.
  by exists st, data.
Qed.

(** The list a response carries, if any. *)
Definition response_list (r : fetch_result) : list subdomain :=
  match r with
  | FetchResponse _ (Some data) => data
  | _ => []
  end.

(** The view after one response, from the initial view. *)
Lemma fetchSubdomains_initial (r : fetch_result) :
  st_state (fetchSubdomains r) initial_view =
  match fetch_error_message r with
  | Some m => mk_view [] false (Some m)
  | None => mk_view (response_list r) false None
  end.
Proof.
  unfold fetchSubdomains, st_state, st_finally, st_catch, st_bind.
  destruct (fetch_error_message r) as [m|] eqn:Hm.
  - by rewrite (fetch_data_error r m initial_view Hm).
  - by destruct (fetch_data_success r initial_view Hm) as (st & data & -> & ->).
Qed.

(** C14: whatever the response, [fetchSubdomains] of Home and Profile
    settles: it never rejects, [isLoading] ends false, and the page shows
    the fetched list on success, or the error's message (the list kept)
    on a transport error, a status outside 200-299 or a body that does not
    parse. *)
Theorem fetchSubdomains_settles (r : fetch_result) (v : list_view) :
  let (v', out) := fetchSubdomains r v in
  out = inr tt /\ isLoading v' = false /\
  match fetch_error_message r with
  | Some m => display v' = ShowError m /\ subdomains v' = subdomains v
  | None => exists st data, r = FetchResponse st (Some data) /\
              subdomains v' = data /\
              display v' = match error v with
                           | Some m => ShowError m
                           | None => ShowList data
                           end
  end.
Proof.
  unfold fetchSubdomains, st_finally, st_catch, st_bind.
  destruct (fetch_error_message r) as [m|] eqn:Hm.
  - rewrite (fetch_data_error r m v Hm). done.
  - destruct (fetch_data_success r v Hm) as (st & data & -> & ->).
    split_and!; [done..|]. exists st, data. split_and!; [done..|].
    unfold display. simpl. by destruct (error v).
Qed.

End Fetch.
