(* ===== verification/Orders.v ===== *)
(** * The order form: src/src/components/Orders.jsx

    [OrderForm] keeps the typed subdomain and purpose, the fetched list of
    existing subdomains and [isSubmitting]; it reads [email] and [id] from
    [AuthContext].  Its effect fetches the list (lines 16-33) with a copy of
    Home's code in which [setError] and [setIsLoading] are not bound in this
    component; [doesExist] (lines 39-42) compares the typed name with the
    first label of every existing name, ignoring case; [handleSubmit]
    (lines 44-84) posts the payload and, after the [await], schedules the
    redirect or shows a toast.  Toasts, the scheduled redirect and the
    requests sent are part of the state, as the effects the code has.
    [useAuthContext] reads the provider's value ([Auth.provider_value]),
    which joins the form to the session invariant of [Session]. *)

From Stdlib Require Import Ascii.
From stdpp Require Import base strings list pretty.
From S2P Require Import Prelude Js Fetch Auth Session.
Import JsValue Fetch.

Open Scope string_scope.

Module OrderForm.

(** The JSON payload of lines 48-53. *)
Record payload := mk_payload {
  p_name : string;
  p_user : jsval;
  p_purpose : string;
  p_status : string
}.

(** A request sent with [fetch(url, { method, headers, body })]. *)
Record post_request := mk_post {
  post_url : string;
  post_method : string;
  post_headers : list (string * string);
  post_body : payload
}.

(** A [toast({ title, description, variant })] call. *)
Record toast := mk_toast { t_title : string; t_description : string; t_variant : string }.

Record form_state := mk_form {
  subdomain : string;
  subdomains : list Fetch.subdomain;
  purpose : string;
  isSubmitting : bool;
  sent : list post_request;
  toasts : list toast;
  redirect_scheduled : bool   (** [setTimeout(() => location.href = '/', 100)] *)
}.

(** Lines 12-14 and 36. *)
Definition initial_form : form_state := mk_form "" [] "" false [] [] false.

(** What the form reads from [AuthContext] (line 34). *)
Record session_view := mk_session { ctx_email : jsval; ctx_id : jsval }.

(** Line 34: [const { email, id } = useContext(AuthContext)]. *)
Definition useAuthContext (c : Auth.context_value) : session_view :=
  mk_session (Auth.cv_email c) (Auth.cv_id c).

Definition subdomains_url := "https://behzod.pythonanywhere.com/api/subdomains/".

Abbreviation F := (stexc form_state js_exn).

Definition setSubdomain (v : string) : F unit :=
  st_modify (fun f => mk_form v (subdomains f) (purpose f) (isSubmitting f) (sent f)
                        (toasts f) (redirect_scheduled f)).
Definition setSubdomains (l : list Fetch.subdomain) : F unit :=
  st_modify (fun f => mk_form (subdomain f) l (purpose f) (isSubmitting f) (sent f)
                        (toasts f) (redirect_scheduled f)).
Definition setPurpose (v : string) : F unit :=
  st_modify (fun f => mk_form (subdomain f) (subdomains f) v (isSubmitting f) (sent f)
                        (toasts f) (redirect_scheduled f)).
Definition setIsSubmitting (b : bool) : F unit :=
  st_modify (fun f => mk_form (subdomain f) (subdomains f) (purpose f) b (sent f)
                        (toasts f) (redirect_scheduled f)).
Definition send_post (q : post_request) : F unit :=
  st_modify (fun f => mk_form (subdomain f) (subdomains f) (purpose f) (isSubmitting f)
                        (sent f ++ [q])%list (toasts f) (redirect_scheduled f)).
Definition show_toast (t : toast) : F unit :=
  st_modify (fun f => mk_form (subdomain f) (subdomains f) (purpose f) (isSubmitting f)
                        (sent f) (toasts f ++ [t])%list (redirect_scheduled f)).
Definition schedule_redirect : F unit :=
  st_modify (fun f => mk_form (subdomain f) (subdomains f) (purpose f) (isSubmitting f)
                        (sent f) (toasts f) true).

Local Open Scope js_scope.

(** Lines 17-30: the catch calls [setError] and the finally calls
    [setIsLoading], neither bound in [OrderForm]: each call throws a
    ReferenceError, and the one of [finally] replaces any other outcome. *)
Definition fetchSubdomains (r : fetch_result) : F unit :=
  st_finally
    (st_catch (data <- fetch_data r ;; setSubdomains data)
              (fun _ => st_throw (ReferenceError "setError")))
    (st_throw (ReferenceError "setIsLoading")).

(** Line 40: [s.name.split('.')[0].toLowerCase()]. *)
Definition existing_label (s : Fetch.subdomain) : string :=
  JsString.toLowerCase (JsString.split_at0 "."%char (name s)).

(** Lines 39-42. *)
Definition doesExist (l : list Fetch.subdomain) (input : string) : bool :=
  existsb (fun s => String.eqb (existing_label s) (JsString.toLowerCase input)) l.

(** Line 155: [disabled={doesExist || isSubmitting}]. *)
Definition submit_disabled (f : form_state) : bool :=
  doesExist (subdomains f) (subdomain f) || isSubmitting f.

(** The form submits when its button is enabled and both [required]
    fields (lines 106 and 149) are filled. *)
Definition can_submit (f : form_state) : bool :=
  negb (submit_disabled f) && negb (String.eqb (subdomain f) "") &&
  negb (String.eqb (purpose f) "").

(** Lines 44-62, up to the [await] of the POST. *)
Definition handleSubmit (sess : session_view) : F unit :=
  setIsSubmitting true ;;
  f <- st_get ;;
  send_post (mk_post subdomains_url "POST" [("Content-Type", "application/json")]
               (mk_payload (subdomain f) (ctx_id sess) (purpose f) "pending")).

(** The outcome of the POST and of [response.json()] ([None]: the body does
    not parse). *)
Inductive post_result :=
| PostNetworkError
| PostResponse (status : Z) (body : option object).

(** Line 66: [errorData.detail || 'Failed to create subdomain.'], as the
    message of [new Error(...)]. *)
Definition error_detail (errorData : object) : string :=
  let d := prop errorData "detail" in
  if truthy d then to_string d else "Failed to create subdomain.".

(** Lines 64-83, after the [await]. *)
Definition handleSubmit_resume (r : post_result) : F unit :=
  st_finally
    (st_catch
       (match r with
        | PostNetworkError => st_throw (JsError "Failed to fetch")
        | PostResponse st body =>
            if negb (response_ok st) then
              match body with
              | Some errorData => st_throw (JsError (error_detail errorData))
              | None => st_throw (JsError "Unexpected end of JSON input")
              end
            else
              match body with
              | Some _ => schedule_redirect
              | None => st_throw (JsError "Unexpected end of JSON input")
              end
        end)
       (fun error => show_toast (mk_toast "Submission Failed" (exn_message error) "destructive")))
    (setIsSubmitting false).

(** What can happen to the form. *)
Inductive form_event :=
| ListFetched (r : fetch_result)
| TypeSubdomain (v : string)
| TypePurpose (v : string)
| Submit
| SubmitResponse (r : post_result).

(** The form's reaction; a promise rejection leaves its state changes. *)
Definition form_dispatch (sess : session_view) (e : form_event) (f : form_state)
  : form_state :=
  match e with
  | ListFetched r => st_state (fetchSubdomains r) f
  | TypeSubdomain v => st_state (setSubdomain v) f
  | TypePurpose v => st_state (setPurpose v) f
  | Submit => if can_submit f then st_state (handleSubmit sess) f else f
  | SubmitResponse r => st_state (handleSubmit_resume r) f
  end.

(** ** Properties *)

Ltac form_cbv :=
  cbv beta iota zeta delta [form_dispatch fetchSubdomains handleSubmit
    handleSubmit_resume setSubdomain setSubdomains setPurpose setIsSubmitting
    send_post show_toast schedule_redirect st_state st_outcome st_bind st_ret
    st_throw st_get st_modify st_catch st_finally fst snd subdomain subdomains
    purpose isSubmitting sent toasts redirect_scheduled] in *.

(** The message of the error a POST outcome makes [handleSubmit] throw, if
    any. *)
Definition submit_error_message (r : post_result) : option string :=
  match r with
  | PostNetworkError => Some "Failed to fetch"
  | PostResponse st body =>
      match response_ok st, body with
      | false, Some errorData => Some (error_detail errorData)
      | _, None => Some "Unexpected end of JSON input"
      | true, Some _ => None
      end
  end.

(** C15: the form never posts a name that [doesExist] flags: when the
    typed name equals, ignoring case, the part before the first dot of an
    existing subdomain's name, a submit does nothing. *)
Theorem duplicate_submit_blocked (sess : session_view) (f : form_state)
    (e : Fetch.subdomain) :
  e ∈ subdomains f -> existing_label e = JsString.toLowerCase (subdomain f) ->
  form_dispatch sess Submit f = f.
Proof.
  intros Hin Heq. simpl. unfold can_submit, submit_disabled.
  replace (doesExist (subdomains f) (subdomain f)) with true; [done|].
  symmetry. apply existsb_exists. exists e. split.
  - by apply list_elem_of_In.
  - by apply String.eqb_eq.
Qed.

(** C16: a submit of a filled, enabled form sets [isSubmitting] and sends
    one POST to the subdomains endpoint with only a Content-Type header
    (no credential) and the payload: the typed name, the session's [id] as
    [user], the purpose, and status [pending]. *)
Theorem handleSubmit_payload (sess : session_view) (f : form_state) :
  can_submit f = true ->
  form_dispatch sess Submit f =
  mk_form (subdomain f) (subdomains f) (purpose f) true
    (sent f ++ [mk_post subdomains_url "POST" [("Content-Type", "application/json")]
                  (mk_payload (subdomain f) (ctx_id sess) (purpose f) "pending")])%list
    (toasts f) (redirect_scheduled f).
Proof. intros Hc. simpl. rewrite Hc. by destruct f. Qed.

(** C17: whatever the POST's outcome, [handleSubmit] settles without a
    rejection and clears [isSubmitting]; it schedules the redirect to [/]
    exactly on a 2xx response with a JSON body, and otherwise adds one
    "Submission Failed" toast whose text is the server's [detail], the
    default message, or the transport or parse error. *)
Theorem handleSubmit_resume_settles (r : post_result) (f : form_state) :
  let (f', out) := handleSubmit_resume r f in
  out = inr tt /\ isSubmitting f' = false /\ sent f' = sent f /\
  match submit_error_message r with
  | None => redirect_scheduled f' = true /\ toasts f' = toasts f
  | Some m => redirect_scheduled f' = redirect_scheduled f /\
              toasts f' = (toasts f ++ [mk_toast "Submission Failed" m "destructive"])%list
  end.
Proof.
  destruct f. destruct r as [|st [body|]]; simpl; form_cbv;
    [|destruct (response_ok st)..]; form_cbv; simpl; by split_and!.
Qed.

(** C26: a rejected order shows the server's reason: when the POST is
    answered with a non-2xx status and a JSON body, the toast's text is the
    body's [detail] when it is a non-empty string, and "Failed to create
    subdomain." when the body has no [detail] (line 66); no redirect is
    scheduled and the button is enabled again. *)
Theorem submit_error_toast (sess : session_view) (st : Z) (errorData : object) (d : string)
    (f : form_state) :
  response_ok st = false ->
  (errorData !! "detail" = Some (JStr d) /\ d <> "") \/
  (errorData !! "detail" = None /\ d = "Failed to create subdomain.") ->
  let f' := form_dispatch sess (SubmitResponse (PostResponse st (Some errorData))) f in
  toasts f' = (toasts f ++ [mk_toast "Submission Failed" d "destructive"])%list /\
  redirect_scheduled f' = redirect_scheduled f /\ isSubmitting f' = false.
Proof.
  intros Hok Hd. assert (He : error_detail errorData = d).
  { unfold error_detail, prop. destruct Hd as [[-> Hne]|[-> ->]]; [|done].
    simpl. by destruct (String.eqb_spec d ""). }
  destruct f. form_cbv. rewrite Hok, He. simpl. by split_and!.
Qed.

(** C18: the list fetch of [OrderForm] always ends in an unhandled
    ReferenceError ([setIsLoading] is not bound in the component); on
    success the list is stored before the throw, on any failure the list
    stays as it was, so from the initial form no name is ever flagged as
    existing. *)
Theorem order_fetch_always_rejects (r : fetch_result) (f : form_state) :
  let (f', out) := fetchSubdomains r f in
  out = inl (ReferenceError "setIsLoading") /\
  match fetch_error_message r with
  | Some _ => subdomains f' = subdomains f
  | None => exists st data, r = FetchResponse st (Some data) /\ subdomains f' = data
  end.
Proof.
  unfold fetchSubdomains, st_finally, st_catch, st_bind, st_throw.
  destruct (fetch_error_message r) as [m|] eqn:Hm.
  - by rewrite (fetch_data_error r m f Hm).
  - destruct (fetch_data_success r f Hm) as (st & data & -> & ->).
    split; [done|]. by exists st, data.
Qed.

(** C19: a typed name that contains a dot is never flagged as existing,
    since the compared label of an existing name stops at its first dot:
    typing the full domain ("blog.dovuchcha.uz") bypasses the check. *)
Theorem dotted_input_never_exists (l : list Fetch.subdomain) (x : string) :
  JsString.avoids ["."%char] x = false -> doesExist l x = false.
Proof.
  intros Hx. apply not_true_iff_false. intros (e & _ & He)%existsb_exists.
  apply String.eqb_eq in He. unfold existing_label in He.
  pose proof (JsString.split_at0_avoids "."%char (name e)) as Ha.
  rewrite <- JsString.avoids_dot_toLowerCase, He, JsString.avoids_dot_toLowerCase in Ha.
  congruence.
Qed.

Section WithSession.
Context `{JwtDecoder}.

(** C35: an order is filed under the user the stored token names: on a
    reachable rendered page of an authenticated session, submitting a
    filled, enabled form posts a payload whose [user] is the [user_id]
    claim of the refresh token stored in [localStorage] (the [id] the
    provider exposes, line 34), with no credential among the headers. *)
Theorem order_filed_under_token_user (s : Auth.sys) (f : form_state) :
  Session.reachable s -> Auth.rendered s = true ->
  Auth.isAuthenticated (Auth.auth s) = true -> can_submit f = true ->
  exists o, jwtDecode (Auth.refreshToken (Auth.auth s)) = Some o /\
    sent (form_dispatch (useAuthContext (Auth.provider_value (Auth.auth s))) Submit f) =
      (sent f ++ [mk_post subdomains_url "POST" [("Content-Type", "application/json")]
                   (mk_payload (subdomain f) (prop o "user_id") (purpose f) "pending")])%list.
Proof.
  intros Hr Hrd Ha Hc.
  destruct (Session.mounted_session s Hr (Session.rendered_mounted s Hrd)) as [_ Hid].
  destruct (Hid Ha) as (o & Hd & _ & _ & Hido). exists o. split; [done|].
  simpl. rewrite Hc. destruct f. simpl. by rewrite Hido.
Qed.

End WithSession.

(** ** Concrete runs *)

Definition demo_shop : Fetch.subdomain := mk_subdomain "Shop.dovuchcha.uz" "store" "active".
Definition demo_session : session_view := mk_session (JStr "a@x.com") (JNum 7).

(** A form where "SHOP" is typed while "Shop.dovuchcha.uz" exists. *)
Definition demo_dup_form : form_state := mk_form "SHOP" [demo_shop] "sell" false [] [] false.

Lemma duplicate_submit_blocked_witness :
  demo_shop ∈ subdomains demo_dup_form /\
  existing_label demo_shop = JsString.toLowerCase (subdomain demo_dup_form) /\
  form_dispatch demo_session Submit demo_dup_form = demo_dup_form.
Proof.
  split_and!; [by left|vm_compute; reflexivity|].
  exact (duplicate_submit_blocked demo_session demo_dup_form demo_shop
           ltac:(by left) ltac:(vm_compute; reflexivity)).
Defined.

(** A form ready to order "blog". *)
Definition demo_form : form_state := mk_form "blog" [demo_shop] "my blog" false [] [] false.

Lemma handleSubmit_payload_witness :
  can_submit demo_form = true /\
  sent (form_dispatch demo_session Submit demo_form) =
    [mk_post subdomains_url "POST" [("Content-Type", "application/json")]
       (mk_payload "blog" (JNum 7) "my blog" "pending")].
Proof.
  split; [vm_compute; reflexivity|].
  rewrite (handleSubmit_payload demo_session demo_form ltac:(vm_compute; reflexivity)).
  reflexivity.
Defined.

Lemma dotted_input_never_exists_witness :
  JsString.avoids ["."%char] "shop.dovuchcha.uz" = false /\
  doesExist [demo_shop] "shop.dovuchcha.uz" = false.
Proof.
  split; [vm_compute; reflexivity|].
  exact (dotted_input_never_exists [demo_shop] "shop.dovuchcha.uz"
           ltac:(vm_compute; reflexivity)).
Defined.

Lemma submit_error_toast_witness :
  response_ok 409 = false /\
  toasts (form_dispatch demo_session
            (SubmitResponse (PostResponse 409 (Some {["detail" := JStr "Name taken"]}))) demo_form) =
    [mk_toast "Submission Failed" "Name taken" "destructive"].
Proof.
  split; [vm_compute; reflexivity|].
  exact (proj1 (submit_error_toast demo_session 409 {["detail" := JStr "Name taken"]} "Name taken"
    demo_form ltac:(vm_compute; reflexivity) ltac:(left; split; [reflexivity|done]))).
Defined.

Section SessionWitness.
#[local] Existing Instance Auth.demo_decoder.

Lemma order_filed_under_token_user_witness :
  Session.reachable Auth.demo_mounted /\ Auth.rendered Auth.demo_mounted = true /\
  Auth.isAuthenticated (Auth.auth Auth.demo_mounted) = true /\ can_submit demo_form = true /\
  exists o, jwtDecode (Auth.refreshToken (Auth.auth Auth.demo_mounted)) = Some o /\
    sent (form_dispatch (useAuthContext (Auth.provider_value (Auth.auth Auth.demo_mounted)))
            Submit demo_form) =
      (sent demo_form ++ [mk_post subdomains_url "POST" [("Content-Type", "application/json")]
                   (mk_payload (subdomain demo_form) (prop o "user_id") (purpose demo_form)
                      "pending")])%list.
Proof.
  split_and!; [exact Session.reachable_demo_mounted|vm_compute; reflexivity..|].
  exact (order_filed_under_token_user Auth.demo_mounted demo_form Session.reachable_demo_mounted
    ltac:(vm_compute; reflexivity) ltac:(vm_compute; reflexivity)
    ltac:(vm_compute; reflexivity)).
Defined.

End SessionWitness.

End OrderForm.
