(* ===== verification/Table.v ===== *)
(** * The public list: src/src/components/subdomain-table.jsx

    [SubdomainTable] keeps the search term (line 15, set by the search
    box at line 32) and shows the subdomains whose name or purpose
    contains it, ignoring case (lines 17-21), one row each showing
    [name.dovuchcha.uz] with a badge chosen from the status (lines 55-79);
    with no match it shows the empty state "No subdomains found / This
    subdomain is free!" (lines 84-100). *)

From stdpp Require Import base strings list.
From S2P Require Import Prelude Js Fetch.
Import Fetch.

Open Scope string_scope.

Module SubdomainTable.

(** Lines 18-21: the filter's test. *)
Definition matches (searchTerm : string) (s : subdomain) : bool :=
  JsString.includes (JsString.toLowerCase (name s)) (JsString.toLowerCase searchTerm) ||
  JsString.includes (JsString.toLowerCase (purpose s)) (JsString.toLowerCase searchTerm).

(** Lines 17-21. *)
Definition filteredSubdomains (subdomains : list subdomain) (searchTerm : string)
  : list subdomain :=
  List.filter (matches searchTerm) subdomains.

Inductive badge := BadgeSuccess | BadgeDestructive | BadgeWarning.

(** Lines 68-74: the status compared as written, case included. *)
Definition badge_variant (status : string) : badge :=
  if String.eqb status "active" then BadgeSuccess
  else if String.eqb status "inactive" then BadgeDestructive
  else BadgeWarning.

(** A row: the displayed domain, the purpose, the status and its badge. *)
Record row := mk_row { r_domain : string; r_purpose : string; r_status : string; r_badge : badge }.

(** Lines 55-79: the row of a subdomain; its first cell shows the name
    followed by [.dovuchcha.uz]. *)
Definition to_row (s : subdomain) : row :=
  mk_row (name s ++ ".dovuchcha.uz") (purpose s) (status s) (badge_variant (status s)).

(** The table, or the empty state "No subdomains found / This subdomain is
    free!" (lines 84-100). *)
Inductive table_view := TableRows (rows : list row) | EmptyState.

(** Lines 39-101. *)
Definition render (subdomains : list subdomain) (searchTerm : string) : table_view :=
  match filteredSubdomains subdomains searchTerm with
  | [] => EmptyState
  | fs => TableRows (map to_row fs)
  end.

(** Line 15: the component's one state cell, [useState('')]. *)
Record table_state := mk_table { searchTerm : string }.

Definition initial_table : table_state := mk_table "".

(** Line 32: typing sets the term to the input's value. *)
Definition setSearchTerm (value : string) (st : table_state) : table_state := mk_table value.

(** What the component renders for the list [Home] passes it (Home.jsx
    line 98) in its current state. *)
Definition view (subdomains : list subdomain) (st : table_state) : table_view :=
  render subdomains (searchTerm st).

(** ** Properties *)

Lemma matches_empty s : matches "" s = true.
Proof. unfold matches. by rewrite JsString.includes_empty. Qed.

Lemma matches_narrow t1 t2 s :
  JsString.includes t2 t1 = true -> matches t2 s = true -> matches t1 s = true.
Proof.
  unfold matches. intros H12%JsString.includes_lower.
  rewrite !orb_true_iff. intros [H|H]; [left|right];
    eapply JsString.includes_trans; eauto.
Qed.

(** A term every subdomain matches filters nothing out. *)
Lemma filter_matches_all (l : list subdomain) (t : string) :
  Forall (fun s => matches t s = true) l -> filteredSubdomains l t = l.
Proof.
  unfold filteredSubdomains. induction 1 as [|s l Hs _ IH]; [done|]. simpl. by rewrite Hs, IH.
Qed.

(** The empty search shows every subdomain, in order. *)
Theorem filter_empty_search (l : list subdomain) : filteredSubdomains l "" = l.
Proof. apply filter_matches_all, Forall_forall. intros s _. apply matches_empty. Qed.

(** Typing more narrows the list: when the new search term contains
    the old one, every row still shown was shown before, and the filter
    ignores the case of the search term. *)
Theorem filter_narrows (l : list subdomain) (t1 t2 : string) :
  JsString.includes t2 t1 = true ->
  filteredSubdomains l t2 = List.filter (matches t2) (filteredSubdomains l t1) /\
  filteredSubdomains l (JsString.toLowerCase t2) = filteredSubdomains l t2.
Proof.
  intros H12. unfold filteredSubdomains. split.
  - induction l as [|s l IH]; [done|]. simpl.
    destruct (matches t2 s) eqn:E2.
    + rewrite (matches_narrow t1 t2 s H12 E2). simpl. by rewrite E2, IH.
    + destruct (matches t1 s); simpl; [rewrite E2|]; done.
  - apply List.filter_ext. intros s. unfold matches. by rewrite JsString.toLowerCase_idem.
Qed.

(** No name or purpose contains the domain suffix. *)
Definition no_suffix (y : subdomain) : Prop :=
  JsString.includes (JsString.toLowerCase (name y)) ".dovuchcha.uz" = false /\
  JsString.includes (JsString.toLowerCase (purpose y)) ".dovuchcha.uz" = false.

(** A term ending in the suffix matches only names or purposes that
    contain the suffix. *)
Lemma matches_domain_suffix (n : string) (y : subdomain) :
  no_suffix y -> matches (n ++ ".dovuchcha.uz") y = false.
Proof.
  intros [Hn Hp]. unfold matches. rewrite JsString.toLowerCase_app.
  change (JsString.toLowerCase ".dovuchcha.uz") with ".dovuchcha.uz".
  pose proof (JsString.includes_suffix (JsString.toLowerCase n) ".dovuchcha.uz") as Hs.
  apply orb_false_iff; split; apply not_true_iff_false; intros Hi;
    pose proof (JsString.includes_trans _ _ _ Hi Hs); congruence.
Qed.

Lemma filtered_nil_suffix (l : list subdomain) (n : string) :
  Forall no_suffix l -> filteredSubdomains l (n ++ ".dovuchcha.uz") = [].
Proof.
  unfold filteredSubdomains. induction 1 as [|y l Hy _ IH]; [done|].
  simpl. by rewrite matches_domain_suffix.
Qed.

(** C33: the table says a listed subdomain is free when one searches for
    it as the table displays it: every subdomain of the list has a row
    showing [name.dovuchcha.uz] before any search, and typing that domain
    into the search box shows "No subdomains found / This subdomain is
    free!" (the filter looks at names and purposes only), unless some name
    or purpose itself contains [.dovuchcha.uz]. *)
Theorem displayed_domain_reported_free (l : list subdomain) (x : subdomain) :
  x ∈ l -> Forall no_suffix l ->
  (exists rows, view l initial_table = TableRows rows /\ to_row x ∈ rows) /\
  view l (setSearchTerm (r_domain (to_row x)) initial_table) = EmptyState.
Proof.
  intros Hx Hall. split.
  - unfold view, render. simpl searchTerm.
    assert (Hin : List.In x (filteredSubdomains l "")).
    { apply filter_In. split; [by apply list_elem_of_In|apply matches_empty]. }
    destruct (filteredSubdomains l "") as [|y fs]; [done|].
    eexists; split; [done|]. apply list_elem_of_In, in_map, Hin.
  - unfold view, render, setSearchTerm. simpl searchTerm. unfold to_row, r_domain.
    by rewrite filtered_nil_suffix.
Qed.

Definition demo_list : list subdomain :=
  [mk_subdomain "shop" "Online store" "active"; mk_subdomain "blog" "Company blog" "pending"].

Lemma filter_narrows_witness :
  JsString.includes "shop" "sh" = true /\
  filteredSubdomains demo_list "shop" =
    List.filter (matches "shop") (filteredSubdomains demo_list "sh").
Proof.
  split; [vm_compute; reflexivity|].
  exact (proj1 (filter_narrows demo_list "sh" "shop" ltac:(vm_compute; reflexivity))).
Defined.

Lemma displayed_domain_reported_free_witness :
  mk_subdomain "shop" "Online store" "active" ∈ demo_list /\ Forall no_suffix demo_list /\
  view demo_list (setSearchTerm "shop.dovuchcha.uz" initial_table) = EmptyState.
Proof.
  assert (Hx : mk_subdomain "shop" "Online store" "active" ∈ demo_list) by (left; done).
  assert (Hall : Forall no_suffix demo_list) by (repeat constructor).
  split_and!; [exact Hx|exact Hall|].
  exact (proj2 (displayed_domain_reported_free demo_list _ Hx Hall)).
Defined.

End SubdomainTable.
