(* ===== verification/Profile.v ===== *)
(** * The Profile page: src/src/pages/Profile.jsx

    Module [Profile] translates the page: its effect (lines 15-38: leave for
    [/] when logged out, else fetch the user's subdomains from a URL built
    with the session's [id]), the fetch (the code of Home's, in [Fetch]),
    what the page shows in place of the list (lines 136-172),
    [getStatusColor] (lines 40-51) and the user panel (lines 78-106).  As a
    component, [page] holds its state cells, the dependencies its effect
    last ran with and the fetches it started; [render] runs the effect when
    those dependencies changed, as React does, and [receive] runs the code
    after [await].  The Logout button (line 67) calls the provider's
    [handleLogout], i.e. the [LogoutClick] event of [Auth.dispatch].  The
    theorems join the page to the session invariant of [Session]. *)

From stdpp Require Import base gmap strings list.
From S2P Require Import Prelude Js Uri Auth Session Fetch Table.
Import JsValue Auth.

Open Scope string_scope.

Module Profile.

Definition user_subdomains_url (id : jsval) : string :=
  "https://behzod.pythonanywhere.com/api/subdomains/users/" ++ to_string id ++ "/".

(** What the effect of [Profile] does on a render. *)
Inductive profile_effect :=
| NavigateHome              (** [navigate('/')] and return, line 18 *)
| FetchUser (url : string). (** [fetchUserSubdomains()], line 37 *)

(** Lines 15-38. *)
Definition effect (isAuthenticated : bool) (id : jsval) : profile_effect :=
  if negb isAuthenticated then NavigateHome else FetchUser (user_subdomains_url id).

(** [fetchUserSubdomains] (lines 22-35) is a copy of Home's
    [fetchSubdomains] on another URL: the same code over the same state. *)
Definition fetchUserSubdomains (r : Fetch.fetch_result) :
  stexc Fetch.list_view Fetch.js_exn unit :=
  Fetch.fetchSubdomains r.

Inductive profile_display :=
| ProfileLoading
| ProfileError (message : string)
| ProfileTable (items : list Fetch.subdomain)
| ProfileNone.   (** "You have not created any subdomains yet." *)

(** Lines 136-172. *)
Definition display (v : Fetch.list_view) : profile_display :=
  if Fetch.isLoading v then ProfileLoading
  else match Fetch.error v with
       | Some m => ProfileError m
       | None => match Fetch.subdomains v with
                 | [] => ProfileNone
                 | l => ProfileTable l
                 end
       end.

(** Lines 40-51. *)
Definition getStatusColor (status : string) : string :=
  let s := JsString.toLowerCase status in
  if String.eqb s "active" then "text-green-600"
  else if String.eqb s "pending" then "text-yellow-600"
  else if String.eqb s "inactive" then "text-red-600"
  else "text-gray-600".

(** ** The page as a component *)

(** The state of a mounted Profile page: its three state cells (lines
    10-12), the dependencies [[id, isAuthenticated]] its effect last ran
    with (line 38; [navigate] is stable), the user-subdomain fetches it
    started, in order, and where [navigate] sent it. *)
Record page := mk_page {
  view : Fetch.list_view;
  last_deps : option (jsval * bool);
  fetches : list string;
  navigated : option string
}.

Definition initial_page : page := mk_page Fetch.initial_view None [] None.

(** A render with the context's current values (line 9): React runs the
    effect after the first render and again whenever [id] or
    [isAuthenticated] changed since it last ran. *)
Definition render (a : auth_state) (p : page) : page :=
  let deps := (id a, isAuthenticated a) in
  if bool_decide (last_deps p = Some deps) then p
  else match effect (isAuthenticated a) (id a) with
       | NavigateHome => mk_page (view p) (Some deps) (fetches p) (Some "/")
       | FetchUser url => mk_page (view p) (Some deps) (fetches p ++ [url]) (navigated p)
       end.

(** The response of a fetch arrives: the code after [await] (lines 24-34). *)
Definition receive (r : Fetch.fetch_result) (p : page) : page :=
  mk_page (st_state (fetchUserSubdomains r) (view p)) (last_deps p) (fetches p) (navigated p).

(** Lines 78-106: the disabled inputs show the context's username and
    email. *)
Definition user_info (a : auth_state) : jsval * jsval := (username a, email a).

End Profile.

Section Theorems.
Context `{JwtDecoder}.

(** After any response to the Profile page's fetch, started from its
    initial state, the page no longer shows "Loading": it shows the error
    message on a failure, the empty-list message for an empty list, and the
    table of the user's subdomains otherwise. *)
Theorem profile_fetch_display (r : Fetch.fetch_result) :
  let v := st_state (Profile.fetchUserSubdomains r) Fetch.initial_view in
  Profile.display v <> Profile.ProfileLoading /\
  (forall m, Fetch.fetch_error_message r = Some m -> Profile.display v = Profile.ProfileError m) /\
  (forall st l, r = Fetch.FetchResponse st (Some l) -> Fetch.response_ok st = true ->
     Profile.display v = match l with
                         | [] => Profile.ProfileNone
                         | _ => Profile.ProfileTable l
                         end).
Proof.
  cbv zeta. unfold Profile.fetchUserSubdomains. rewrite Fetch.fetchSubdomains_initial.
  destruct (Fetch.fetch_error_message r) as [m|] eqn:Hm; split_and!.
  - done.
  - by intros ? [= ->].
  - intros st l -> Hok. simpl in Hm. by rewrite Hok in Hm.
  - unfold Profile.display. simpl. by destruct (Fetch.response_list r).
  - done.
  - intros st l -> _. unfold Profile.display. simpl. by destruct l.
Qed.

(** C23: on a reachable rendered page, the Profile page either leaves for
    [/] (logged out) or fetches the subdomains of the user whose id is the
    [user_id] claim of the stored refresh token. *)
Theorem profile_fetches_own_subdomains (s : sys) :
  Session.reachable s -> rendered s = true ->
  Profile.effect (isAuthenticated (auth s)) (id (auth s)) = Profile.NavigateHome \/
  exists o, jwtDecode (refreshToken (auth s)) = Some o /\
    Profile.effect (isAuthenticated (auth s)) (id (auth s)) =
      Profile.FetchUser (Profile.user_subdomains_url (prop o "user_id")).
Proof.
  intros Hr Hrd. destruct (Session.mounted_session s Hr (Session.rendered_mounted s Hrd)) as [_ Hid].
  unfold Profile.effect. destruct (isAuthenticated (auth s)) eqn:Ha; [|by left].
  right. destruct (Hid eq_refl) as (o & Hd & _ & _ & ->). by exists o.
Qed.

(** C25: the Profile page colours a status ignoring its case, the public
    table does not: a status spelled "Active" (or any other case variant of
    "active") is green on the Profile page and a warning badge in the
    table. *)
Theorem status_styles_disagree_on_case (st : string) :
  JsString.toLowerCase st = "active" -> st <> "active" ->
  Profile.getStatusColor st = "text-green-600" /\
  SubdomainTable.badge_variant st = SubdomainTable.BadgeWarning.
Proof.
  intros Hl Hne. unfold Profile.getStatusColor. rewrite Hl. split; [done|].
  unfold SubdomainTable.badge_variant.
  destruct (String.eqb_spec st "active"); [done|].
  destruct (String.eqb_spec st "inactive") as [->|]; [done|done].
Qed.

(** The effect records the dependencies it ran with. *)
Lemma render_deps (a : auth_state) (p : Profile.page) :
  Profile.last_deps (Profile.render a p) = Some (id a, isAuthenticated a).
Proof.
  unfold Profile.render. case_bool_decide; [done|].
  by destruct (Profile.effect _ _).
Qed.

Lemma render_same (a : auth_state) (p : Profile.page) :
  Profile.last_deps p = Some (id a, isAuthenticated a) -> Profile.render a p = p.
Proof. intros Hd. unfold Profile.render. by rewrite bool_decide_eq_true_2. Qed.

(** The Logout button calls [handleLogout]: the identity is cleared. *)
Lemma dispatch_logout_auth (s : sys) :
  rendered s = true ->
  auth (dispatch LogoutClick s) =
    mk_auth false (JStr "") (JStr "") JNull "" (JStr "") (isLoading (auth s)).
Proof. intros Hr. unfold dispatch. rewrite Hr. destruct s as [[] [] ph]. by auth_cbv. Qed.

(** C31: on a rendered authenticated page, the Profile page's first
    render fetches the subdomains of the session's [id]; after its Logout
    button, the next render navigates to [/] without any new fetch, and the
    user panel shows an empty username and email. *)
Theorem profile_logout_navigates_home (s : sys) :
  rendered s = true -> isAuthenticated (auth s) = true ->
  let p := Profile.render (auth s) Profile.initial_page in
  let s' := dispatch LogoutClick s in
  let p' := Profile.render (auth s') p in
  Profile.fetches p = [Profile.user_subdomains_url (id (auth s))] /\
  Profile.navigated p' = Some "/" /\ Profile.fetches p' = Profile.fetches p /\
  Profile.user_info (auth s') = (JStr "", JStr "").
Proof.
  intros Hr Ha. cbv zeta. rewrite (dispatch_logout_auth s Hr).
  assert (Hp : Profile.render (auth s) Profile.initial_page =
                 Profile.mk_page Fetch.initial_view (Some (id (auth s), true))
                   [Profile.user_subdomains_url (id (auth s))] None).
  { unfold Profile.render, Profile.effect. rewrite Ha.
    by rewrite bool_decide_eq_false_2. }
  rewrite Hp. unfold Profile.render, Profile.effect.
  rewrite bool_decide_eq_false_2 by (intros [= _ ?]; done). done.
Qed.

End Theorems.

(** ** Concrete runs on the mounted page of the specification's scenario *)

Section Witnesses.
#[local] Existing Instance demo_decoder.

Lemma profile_fetches_own_subdomains_witness :
  Session.reachable demo_mounted /\ rendered demo_mounted = true /\
  (Profile.effect (isAuthenticated (auth demo_mounted)) (id (auth demo_mounted))
     = Profile.NavigateHome \/
   exists o, jwtDecode (refreshToken (auth demo_mounted)) = Some o /\
     Profile.effect (isAuthenticated (auth demo_mounted)) (id (auth demo_mounted)) =
       Profile.FetchUser (Profile.user_subdomains_url (prop o "user_id"))).
Proof.
  split_and!; [apply Session.reachable_demo_mounted|vm_compute; reflexivity|].
  exact (profile_fetches_own_subdomains demo_mounted Session.reachable_demo_mounted
           ltac:(vm_compute; reflexivity)).
Defined.

Lemma status_styles_disagree_on_case_witness :
  JsString.toLowerCase "Active" = "active" /\
  Profile.getStatusColor "Active" = "text-green-600" /\
  SubdomainTable.badge_variant "Active" = SubdomainTable.BadgeWarning.
Proof.
  split; [vm_compute; reflexivity|].
  exact (status_styles_disagree_on_case "Active" ltac:(vm_compute; reflexivity)
           ltac:(done)).
Defined.

Lemma profile_logout_navigates_home_witness :
  rendered demo_mounted = true /\ isAuthenticated (auth demo_mounted) = true /\
  Profile.navigated (Profile.render (auth (dispatch LogoutClick demo_mounted))
                       (Profile.render (auth demo_mounted) Profile.initial_page)) = Some "/".
Proof.
  split_and!; [vm_compute; reflexivity..|].
  exact (proj1 (proj2 (profile_logout_navigates_home demo_mounted
    ltac:(vm_compute; reflexivity) ltac:(vm_compute; reflexivity)))).
Defined.

End Witnesses.
