(* ===== verification/Pages.v ===== *)
(** * Home's header and routing: Home.jsx, App.jsx, main.jsx

    Module [Home] models the header of [Home] (lines 35-62): a Login button
    when logged out, the greeting and a Logout button when logged in; the
    invitation under its title (lines 69-89): a Login to Order button, or
    the order link; and its list area (lines 92-99), which hands the fetched
    list to [SubdomainTable].  Module [App] models the route table of [App] (lines 12-21),
    with React Router's matching (case-insensitive, trailing slashes
    allowed), under the provider gate of [AuthProvider] (line 114) that
    main.jsx puts above it.  The theorems join these to the session
    invariant of [Session] and to the Profile page's effect. *)

From Stdlib Require Import Ascii.
From stdpp Require Import base gmap strings list.
From S2P Require Import Prelude Js Uri Auth Session Fetch Table Profile.
Import JsValue Auth.

Open Scope string_scope.

Module Home.

Inductive header_item :=
| LoginButton
| Greeting (username : jsval)   (** "Hello, <username>!" linking to /profile *)
| LogoutButton
| LoginToOrder                  (** "Login to Order", line 76 *)
| OrderLink.                    (** "Order New Subdomain", line 86 *)

(** Lines 35-62: the buttons at the top right. *)
Definition header (a : auth_state) : list header_item :=
  if negb (isAuthenticated a) then [LoginButton]
  else [Greeting (username a); LogoutButton].

(** Lines 69-89: the invitation under the title. *)
Definition invitation (a : auth_state) : list header_item :=
  if negb (isAuthenticated a) then [LoginToOrder] else [OrderLink].

(** What the list area of [Home] shows. *)
Inductive list_area :=
| AreaLoading                                  (** "Loading subdomains..." *)
| AreaError (message : string)                 (** "Error: <message>" *)
| AreaTable (table : SubdomainTable.table_view).

(** Lines 92-99: the loading text, the error, or [SubdomainTable] on the
    fetched list in the table's own state. *)
Definition list_area_view (v : Fetch.list_view) (t : SubdomainTable.table_state) : list_area :=
  match Fetch.display v with
  | Fetch.ShowLoading => AreaLoading
  | Fetch.ShowError m => AreaError m
  | Fetch.ShowList l => AreaTable (SubdomainTable.view l t)
  end.

End Home.

Module App.

(** React Router's matching of a static path: case-insensitive, any
    number of trailing slashes allowed (the pattern [/order] is compiled to
    [^\/order\/*$] with the [i] flag; [/] to [^\/*$]).  [strip_slashes]
    drops the trailing slashes of a path. *)
Fixpoint strip_slashes (p : string) : string :=
  match p with
  | EmptyString => EmptyString
  | String c p' =>
      let r := strip_slashes p' in
      if bool_decide (c = "/"%char) && String.eqb r "" then EmptyString else String c r
  end.

Definition path_is (pattern path : string) : bool :=
  String.eqb (strip_slashes (JsString.toLowerCase path)) (strip_slashes pattern).

Inductive page := HomePage | OrderPage | ProfilePage | NavigateTo (to : string) | NoMatch.

(** Lines 12-21. *)
Definition route (isAuthenticated : bool) (path : string) : page :=
  if path_is "/" path then HomePage
  else if path_is "/order" path then (if isAuthenticated then OrderPage else NavigateTo "/")
  else if path_is "/profile" path then ProfilePage
  else NoMatch.

(** main.jsx lines 9-19: [App] renders inside [AuthProvider], which
    renders its children only once [isLoading] is false. *)
Definition app_view (s : sys) (path : string) : option page :=
  if rendered s then Some (route (isAuthenticated (auth s)) path) else None.

End App.

Section Theorems.
Context `{JwtDecoder}.

(** C22: on a reachable rendered page, any spelling of [/order] shows the
    order form exactly when [localStorage] holds a non-empty refresh token,
    and redirects to [/] otherwise. *)
Theorem order_page_iff_stored_token (s : sys) (path : string) :
  Session.reachable s -> rendered s = true -> App.path_is "/order" path = true ->
  (App.app_view s path = Some App.OrderPage <->
     exists t, storage (br s) !! "refresh_token" = Some t /\ t <> "") /\
  (App.app_view s path = Some (App.NavigateTo "/") <->
     ~ exists t, storage (br s) !! "refresh_token" = Some t /\ t <> "").
Proof.
  intros Hr Hrd Hp. destruct (Session.mounted_session s Hr (Session.rendered_mounted s Hrd)) as [Hiff _].
  rewrite <- Hiff. unfold App.app_view, App.route. rewrite Hrd, Hp.
  unfold App.path_is in *. apply String.eqb_eq in Hp. rewrite Hp. simpl.
  destruct (isAuthenticated (auth s)); split; split; intros; by simplify_eq.
Qed.

(** On a reachable mounted page, the header shows the Logout button
    and the greeting exactly when a non-empty refresh token is stored, and
    the Login button otherwise. *)
Theorem header_reflects_storage (s : sys) :
  Session.reachable s -> phase s = Mounted ->
  (Home.LogoutButton ∈ Home.header (auth s) <->
     exists t, storage (br s) !! "refresh_token" = Some t /\ t <> "") /\
  (Home.LoginButton ∈ Home.header (auth s) <->
     ~ exists t, storage (br s) !! "refresh_token" = Some t /\ t <> "").
Proof.
  intros Hr Hm. destruct (Session.mounted_session s Hr Hm) as [Hiff _]. rewrite <- Hiff.
  unfold Home.header. destruct (isAuthenticated (auth s)); simpl;
    rewrite ?elem_of_cons, ?elem_of_nil; naive_solver.
Qed.

(** C32: the router lets a logged-out visitor reach the Profile page
    ([/profile] has no guard in App.jsx, unlike [/order]); the page's own
    effect then sends them to [/] on its first render, before any fetch. *)
Theorem profile_route_logged_out (s : sys) (path : string) :
  rendered s = true -> isAuthenticated (auth s) = false ->
  App.path_is "/profile" path = true ->
  App.app_view s path = Some App.ProfilePage /\
  Profile.navigated (Profile.render (auth s) Profile.initial_page) = Some "/" /\
  Profile.fetches (Profile.render (auth s) Profile.initial_page) = [].
Proof.
  intros Hrd Ha Hp. unfold App.app_view, App.route. rewrite Hrd, Ha.
  unfold App.path_is in *. apply String.eqb_eq in Hp. rewrite Hp.
  unfold Profile.render, Profile.effect. rewrite Ha. by rewrite bool_decide_eq_false_2.
Qed.

(** C34: after the first response to Home's fetch, the list area shows
    the error message on a failure, and otherwise the table with one row
    per fetched subdomain, in the order the API returned them, or the
    empty state for an empty list. *)
Theorem home_shows_fetched_list (r : Fetch.fetch_result) :
  Home.list_area_view (st_state (Fetch.fetchSubdomains r) Fetch.initial_view)
    SubdomainTable.initial_table =
  match Fetch.fetch_error_message r with
  | Some m => Home.AreaError m
  | None => Home.AreaTable (match Fetch.response_list r with
                            | [] => SubdomainTable.EmptyState
                            | l => SubdomainTable.TableRows (map SubdomainTable.to_row l)
                            end)
  end.
Proof.
  rewrite Fetch.fetchSubdomains_initial.
  destruct (Fetch.fetch_error_message r); [done|].
  unfold Home.list_area_view, Fetch.display, SubdomainTable.view, SubdomainTable.render. simpl.
  rewrite SubdomainTable.filter_matches_all; [by destruct (Fetch.response_list r)|].
  apply Forall_forall. intros s _. apply SubdomainTable.matches_empty.
Qed.

End Theorems.

(** ** Concrete runs on the mounted page of the specification's scenario *)

Section Witnesses.
#[local] Existing Instance demo_decoder.

Lemma order_page_iff_stored_token_witness :
  Session.reachable demo_mounted /\ rendered demo_mounted = true /\
  App.path_is "/order" "/Order//" = true /\
  App.app_view demo_mounted "/Order//" = Some App.OrderPage.
Proof.
  split_and!; [apply Session.reachable_demo_mounted|vm_compute; reflexivity..|].
  apply (proj2 (proj1 (order_page_iff_stored_token demo_mounted "/Order//"
    Session.reachable_demo_mounted ltac:(vm_compute; reflexivity)
    ltac:(vm_compute; reflexivity)))).
  exists "T1". split; [vm_compute; reflexivity|done].
Defined.

Lemma header_reflects_storage_witness :
  Session.reachable demo_mounted /\ phase demo_mounted = Mounted /\
  Home.LogoutButton ∈ Home.header (auth demo_mounted).
Proof.
  split_and!; [apply Session.reachable_demo_mounted|vm_compute; reflexivity|].
  apply (proj2 (proj1 (header_reflects_storage demo_mounted Session.reachable_demo_mounted
    ltac:(vm_compute; reflexivity)))).
  exists "T1". split; [vm_compute; reflexivity|done].
Defined.

(** A page started with nothing stored and no redirect parameter. *)
Definition demo_anonymous : sys := mount (initial_sys ∅ (demo_location "")).

Lemma profile_route_logged_out_witness :
  rendered demo_anonymous = true /\ isAuthenticated (auth demo_anonymous) = false /\
  App.path_is "/profile" "/Profile" = true /\
  App.app_view demo_anonymous "/Profile" = Some App.ProfilePage.
Proof.
  split_and!; [vm_compute; reflexivity..|].
  exact (proj1 (profile_route_logged_out demo_anonymous "/Profile"
    ltac:(vm_compute; reflexivity) ltac:(vm_compute; reflexivity)
    ltac:(vm_compute; reflexivity))).
Defined.

End Witnesses.
