(* ===== verification/Views.v ===== *)
(** * What the pages show: the element trees of the JSX

    Each page of the client returns a JSX tree.  Module [Ui] keeps of it
    what a user sees and can act on, in document order: texts (headings,
    labels, paragraphs), controls (a react-router [<Link to>], an
    [<a href>] leaving the site, a button whose [onClick] is a handler of
    [AuthContext], the order form's submit button), input fields with the
    value they show, and the two lists.  Class names, icons and layout
    containers are dropped.

    [HomeView.page] is Home.jsx lines 32-103, [TableView.component]
    subdomain-table.jsx lines 14-106, [ProfileView.page] Profile.jsx lines
    53-175, [OrderView.form] Orders.jsx lines 86-182, [OrderView.page]
    OrderSubmit.jsx, and [Screen.screen] what App.jsx puts on the screen
    at an address, each page in its own state.  The theorems: every link
    the application shows leads, in the same session, to one of its three
    pages and never to a redirect or to no page; and while an order is
    being submitted, the form's button reads [Submitting...], is disabled,
    and a second submission sends nothing. *)

From stdpp Require Import base strings list gmap.
From S2P Require Import Prelude Js Auth Json Jwt Session Fetch Orders Table Profile Pages.
Import JsValue Auth.

Open Scope string_scope.

Module Ui.

(** What a control does when used. *)
Inductive action :=
| Navigate (to : string)      (** [<Link to={to}>] of react-router *)
| Href (url : string)         (** [<a href={url}>] *)
| Dispatch (e : Auth.event)   (** [onClick={handleLogout}] or [{handleLoginRedirect}] *)
| SubmitOrder.                (** the [type="submit"] button of the order form *)

Inductive element :=
| Text (s : string)
| Control (label : jsval) (a : action) (enabled : bool)
| Field (id : string) (value : jsval) (editable : bool)
| Subdomains (v : SubdomainTable.table_view)
| UserSubdomains (d : Profile.profile_display).

(** The targets of the links of a tree. *)
Definition links (es : list element) : list string :=
  omap (fun e => match e with Control _ (Navigate to) _ => Some to | _ => None end) es.

Lemma links_app es es' : links (es ++ es')%list = (links es ++ links es')%list.
Proof. apply omap_app. Qed.

End Ui.

Import Ui.

Module TableView.

(** subdomain-table.jsx lines 14-106: the search box showing the search
    term, then the table or its empty state. *)
Definition component (subdomains : list Fetch.subdomain) (st : SubdomainTable.table_state) : list element :=
  [Field "search" (JStr (SubdomainTable.searchTerm st)) true;
   Subdomains (SubdomainTable.view subdomains st)].

End TableView.

Module HomeView.

Definition invite_text : string :=
  "If you want a subdomain for your personal or commercial project, ".

Definition item (i : Home.header_item) : list element :=
  match i with
  | Home.LoginButton => [Control (JStr "Login") (Dispatch LoginClick) true]
  | Home.Greeting u => [Text "Hello, "; Control u (Navigate "/profile") true; Text "!"]
  | Home.LogoutButton => [Control (JStr "Logout") (Dispatch LogoutClick) true]
  | Home.LoginToOrder => [Text invite_text; Control (JStr "Login to Order") (Dispatch LoginClick) true]
  | Home.OrderLink => [Text invite_text; Control (JStr "Order New Subdomain") (Navigate "/order") true]
  end.

(** Lines 92-99: the loading text, the error, or the table. *)
Definition list_area (v : Fetch.list_view) (t : SubdomainTable.table_state) : list element :=
  match Fetch.display v with
  | Fetch.ShowLoading => [Text "Loading subdomains..."]
  | Fetch.ShowError m => [Text ("Error: " ++ m)]
  | Fetch.ShowList l => TableView.component l t
  end.

(** Lines 32-103. *)
Definition page (a : auth_state) (v : Fetch.list_view) (t : SubdomainTable.table_state) : list element :=
  flat_map item (Home.header a) ++
  [Text "Our Subdomains";
   Text "Review the existing subdomains of Dovuchcha and their respective purposes. "] ++
  flat_map item (Home.invitation a) ++ list_area v t.

End HomeView.

Module ProfileView.

(** Lines 53-175: the header with its back link and Logout button, the
    user panel, the note on the account center, and the list. *)
Definition page (a : auth_state) (p : Profile.page) : list element :=
  [Control (JStr "← Back to Home") (Navigate "/") true;
   Text "Profile"; Text "Review your subdomains";
   Control (JStr "Logout") (Dispatch LogoutClick) true;
   Text "User Information";
   Text "Username"; Field "username" (username a) false;
   Text "Email"; Field "email" (email a) false;
   Text "Important Information";
   Text "You cannot change your username or email from this page. To update your account information, please visit the ";
   Control (JStr "Dovuchcha Account Center") (Href "https://accounts.dovuchcha.uz") true;
   Text ".";
   Text "For further assistance, contact our support team.";
   Text "Your Subdomains";
   UserSubdomains (Profile.display (Profile.view p))].

End ProfileView.

Module OrderView.
Import OrderForm.

(** Lines 160-180. *)
Definition terms : list element :=
  [Text "Terms and Conditions";
   Text "Subdomains must adhere to company policies and guidelines.";
   Text "Requests for offensive or inappropriate subdomains will be rejected.";
   Text "Subdomains are allocated on a first-come, first-served basis.";
   Text "Each request will be reviewed and approved by the administrative team.";
   Text "Maintenance and updates of subdomains are the responsibility of the requester.";
   Text "Rules for Subdomain Requests";
   Text "Provide a clear and concise purpose for the requested subdomain.";
   Text "Ensure the subdomain aligns with organizational objectives.";
   Text "Duplicate or redundant subdomains will not be approved.";
   Text "Requests must be submitted through the official form.";
   Text "Violation of terms may result in suspension or removal of the subdomain."].

(** Line 157. *)
Definition submit_label (f : form_state) : string :=
  if isSubmitting f then "Submitting..." else "Submit Order".

(** Lines 86-182: the back link and title, the form (with the duplicate
    warning of lines 116-120 and the email tooltip of lines 126-139), and
    the terms. *)
Definition form (sess : session_view) (f : form_state) : list element :=
  [Control (JStr "← Back to Home") (Navigate "/") true;
   Text "Order New Subdomain";
   Text "Subdomain"; Field "subdomain" (JStr (subdomain f)) true;
   Field "" (JStr ".dovuchcha.uz") false] ++
  (if doesExist (subdomains f) (subdomain f)
   then [Text "This subdomain already exists. Please choose another one."] else []) ++
  [Text "Email"; Field "email" (ctx_email sess) false;
   Text "You cannot change your email here. To update it, visit your Dovuchcha Account Center: ";
   Control (JStr "accounts.dovuchcha.uz") (Href "https://accounts.dovuchcha.uz") true;
   Text "Purpose"; Field "purpose" (JStr (purpose f)) true;
   Control (JStr (submit_label f)) SubmitOrder (negb (submit_disabled f))] ++
  terms.

(** OrderSubmit.jsx lines 3-12: a title above the form. *)
Definition page (sess : session_view) (f : form_state) : list element :=
  Text "Order a New Subdomain" :: form sess f.

End OrderView.

Module Screen.

(** The state of each page, as React keeps it while the page is shown. *)
Record screens := mk_screens {
  home_list : Fetch.list_view;
  home_table : SubdomainTable.table_state;
  order_form : OrderForm.form_state;
  profile_page : Profile.page
}.

(** App.jsx lines 8-23 under the provider gate of main.jsx: what the
    screen shows at an address; [<Navigate>] and an address without a
    route show nothing; [None] while the provider renders nothing. *)
Definition screen (s : sys) (ps : screens) (path : string) : option (list element) :=
  match App.app_view s path with
  | None => None
  | Some App.HomePage => Some (HomeView.page (auth s) (home_list ps) (home_table ps))
  | Some App.OrderPage =>
      Some (OrderView.page (OrderForm.useAuthContext (provider_value (auth s))) (order_form ps))
  | Some App.ProfilePage => Some (ProfileView.page (auth s) (profile_page ps))
  | Some (App.NavigateTo _) | Some App.NoMatch => Some []
  end.

End Screen.

(** ** Where the links lead *)

Module Links.

Lemma links_list_area v t : links (HomeView.list_area v t) = [].
Proof. unfold HomeView.list_area. by destruct (Fetch.display v). Qed.

Lemma links_home a v t :
  links (HomeView.page a v t) =
    (links (flat_map HomeView.item (Home.header a)) ++
     links (flat_map HomeView.item (Home.invitation a)))%list.
Proof. unfold HomeView.page. by rewrite !links_app, links_list_area, app_nil_r. Qed.

Lemma links_profile a p : links (ProfileView.page a p) = ["/"].
Proof. reflexivity. Qed.

Lemma links_order sess f : links (OrderView.page sess f) = ["/"].
Proof.
  unfold OrderView.page, OrderView.form. simpl. rewrite !links_app.
  by destruct (OrderForm.doesExist _ _).
Qed.

(** C24: no link of the application leads nowhere or to a redirect:
    whatever the screen shows at any address, in any state of its pages,
    following one of its links makes the application show, in the same
    session, its home page, its order page or its profile page.  (The
    order link is offered only when the session is authenticated, which
    is what the route of [/order] requires.) *)
Theorem screen_links_resolve (s : sys) (ps : Screen.screens) (path to : string) (es : list element) :
  Screen.screen s ps path = Some es -> to ∈ links es ->
  App.app_view s to ∈ [Some App.HomePage; Some App.OrderPage; Some App.ProfilePage].
Proof.
  unfold Screen.screen. destruct (App.app_view s path) as [pg|] eqn:E; [|done].
  assert (Hrd : rendered s = true) by (unfold App.app_view in E; by destruct (rendered s)).
  unfold App.app_view. rewrite Hrd.
  intros Hes Hto. destruct pg; injection Hes as <-;
    rewrite ?links_home, ?links_profile, ?links_order in Hto;
    unfold Home.header, Home.invitation in Hto;
    try (destruct (isAuthenticated (auth s)) eqn:Ha); simpl in Hto;
    repeat (rewrite elem_of_cons in Hto; destruct Hto as [->|Hto]);
    try (by apply elem_of_nil in Hto); unfold App.route; simpl; rewrite ?Ha; set_solver.
Qed.

End Links.

(** ** The identity the pages show *)

Module Identity.
Section WithDecoder.
Context `{JwtDecoder}.

(** C20: every page shows the identity of the stored token: on a reachable
    rendered authenticated page, whose refresh token decodes to claims
    [o], the home page greets [o.username] with a link to the profile,
    the profile page's fields show [o.username] and [o.email], and the
    order page's email field shows [o.email], whatever the pages' own
    state. *)
Theorem identity_shown (s : sys) (ps : Screen.screens) :
  Session.reachable s -> rendered s = true -> isAuthenticated (auth s) = true ->
  exists o, jwtDecode (refreshToken (auth s)) = Some o /\
    (exists es, Screen.screen s ps "/" = Some es /\
       Control (prop o "username") (Navigate "/profile") true ∈ es) /\
    (exists es, Screen.screen s ps "/profile" = Some es /\
       Field "username" (prop o "username") false ∈ es /\ Field "email" (prop o "email") false ∈ es) /\
    (exists es, Screen.screen s ps "/order" = Some es /\ Field "email" (prop o "email") false ∈ es).
Proof.
  intros Hr Hrd Ha.
  destruct (Session.mounted_session s Hr (Session.rendered_mounted s Hrd)) as [_ Hid].
  destruct (Hid Ha) as (o & Hd & Hu & He & _). exists o. split; [done|].
  unfold Screen.screen, App.app_view. rewrite Hrd. unfold App.route. simpl. rewrite Ha.
  split_and!; eexists; (split; [reflexivity|]).
  - unfold HomeView.page, Home.header. rewrite Ha, Hu. simpl. set_solver.
  - unfold ProfileView.page. rewrite Hu, He. split; set_solver.
  - unfold OrderView.page, OrderView.form. simpl. rewrite He. set_solver.
Qed.

End WithDecoder.
End Identity.

(** ** One order at a time *)

Module Submitting.
Import OrderForm.

(** The form after a sequence of its events. *)
Definition form_run (sess : session_view) (es : list form_event) (f : form_state) : form_state :=
  fold_left (fun f e => form_dispatch sess e f) es f.

(** What holds while the POST is awaited. *)
Definition pending (l : list post_request) (f : form_state) : Prop :=
  isSubmitting f = true /\ sent f = l.

#[local] Hint Extern 1 (forall _, pending _ _ -> pending _ _) =>
  unfold pending; intros ? [? ?]; simpl; by split : preserves.
#[local] Hint Resolve preserves_modify : preserves.

(** Before its response, no event of the form ends the submission or
    sends anything. *)
Lemma pending_step sess e l f :
  pending l f -> (forall r, e <> SubmitResponse r) -> pending l (form_dispatch sess e f).
Proof.
  intros Hp He. destruct e as [r|v|v| |r]; simpl.
  - apply preserves_state; [|done]. preserves_solve.
  - apply preserves_state; [|done]. preserves_solve.
  - apply preserves_state; [|done]. preserves_solve.
  - assert (can_submit f = false) as ->; [|done].
    unfold can_submit, submit_disabled. destruct Hp as [-> _]. by rewrite orb_true_r.
  - by destruct (He r).
Qed.

Lemma pending_run sess es l f :
  pending l f -> Forall (fun e => forall r, e <> SubmitResponse r) es ->
  pending l (form_run sess es f).
Proof.
  revert f. induction es as [|e es IH]; intros f Hp Hes; [done|].
  apply Forall_cons in Hes as [He Hes]. apply IH; [|done]. by apply pending_step.
Qed.

(** C21: one order at a time: after a submission of a filled, enabled
    form, whatever the user does before the POST's response arrives
    (typing, the list fetch, submitting again), exactly one request has
    been sent, and the form shows its button labelled [Submitting...] and
    disabled. *)
Theorem no_double_submit (sess : session_view) (f : form_state) (es : list form_event) :
  can_submit f = true -> Forall (fun e => forall r, e <> SubmitResponse r) es ->
  let f' := form_run sess es (form_dispatch sess Submit f) in
  length (sent f') = S (length (sent f)) /\
  (Control (JStr "Submitting...") SubmitOrder false ∈ OrderView.form sess f').
Proof.
  intros Hc Hes f'. destruct (pending_run sess es (sent (form_dispatch sess Submit f))
    (form_dispatch sess Submit f)) as [Hs Hl]; [|done|].
  - split; [|done]. simpl. rewrite Hc. by destruct f.
  - subst f'. split.
    + rewrite Hl. simpl. rewrite Hc. destruct f. simpl. rewrite length_app. simpl. lia.
    + unfold OrderView.form, OrderView.submit_label, submit_disabled. rewrite Hs, orb_true_r.
      rewrite !elem_of_app. right. right. left. set_solver.
Qed.

End Submitting.

(** ** Concrete runs *)

Module ViewRuns.
Import OrderForm.

(** Every page in the state it starts in. *)
Definition demo_screens : Screen.screens :=
  Screen.mk_screens Fetch.initial_view SubdomainTable.initial_table initial_form Profile.initial_page.

Section WithDemo.
#[local] Existing Instance demo_decoder.

Lemma screen_links_resolve_witness :
  Screen.screen demo_mounted demo_screens "/" =
    Some (HomeView.page (auth demo_mounted) Fetch.initial_view SubdomainTable.initial_table) /\
  "/order" ∈ links (HomeView.page (auth demo_mounted) Fetch.initial_view SubdomainTable.initial_table) /\
  App.app_view demo_mounted "/order" ∈ [Some App.HomePage; Some App.OrderPage; Some App.ProfilePage].
Proof.
  split_and!; [vm_compute; reflexivity|apply list_elem_of_In; vm_compute; auto|].
  exact (Links.screen_links_resolve demo_mounted demo_screens "/" "/order" _
    ltac:(vm_compute; reflexivity) ltac:(apply list_elem_of_In; vm_compute; auto)).
Defined.

End WithDemo.

(** Submitting [demo_form], then typing and submitting again before the
    response. *)
Definition demo_events : list form_event := [TypeSubdomain "shop2"; Submit; Submit].

Lemma no_double_submit_witness :
  can_submit demo_form = true /\
  length (sent (Submitting.form_run demo_session demo_events (form_dispatch demo_session Submit demo_form))) = 1.
Proof.
  split; [vm_compute; reflexivity|].
  exact (proj1 (Submitting.no_double_submit demo_session demo_form demo_events
    ltac:(vm_compute; reflexivity) ltac:(repeat constructor; intros ? ?; discriminate))).
Defined.

(** The pages with the library decoder, on a page whose stored token was
    made up in the browser ([Jwt.forged_token], no signature). *)
Section WithLibrary.
#[local] Existing Instance Jwt.library_decoder.

Definition forged_stored : sys :=
  initial_sys {["refresh_token" := Jwt.forged_token]} (demo_location "").

Definition forged_page : sys := mount forged_stored.

Lemma reachable_forged_page : Session.reachable forged_page.
Proof.
  apply (Session.reach_step forged_stored Mount); [apply Session.reach_init|].
  vm_compute; reflexivity.
Qed.

Lemma identity_shown_witness :
  Session.reachable forged_page /\ rendered forged_page = true /\
  isAuthenticated (auth forged_page) = true /\
  prop (Json.object_of Jwt.forged_claims) "username" = JStr "mallory" /\
  exists es, Screen.screen forged_page demo_screens "/" = Some es /\
    Control (prop (Json.object_of Jwt.forged_claims) "username") (Navigate "/profile") true ∈ es.
Proof.
  split_and!; [exact reachable_forged_page|vm_compute; reflexivity..|].
  destruct (Identity.identity_shown forged_page demo_screens reachable_forged_page
    ltac:(vm_compute; reflexivity) ltac:(vm_compute; reflexivity)) as (o & Hd & Hh & _).
  assert (o = Json.object_of Jwt.forged_claims) as ->
    by (vm_compute in Hd; injection Hd as <-; vm_compute; reflexivity).
  exact Hh.
Defined.

End WithLibrary.

End ViewRuns.

